(** * WorkTool extension: content scripts and background worker

    A shallow embedding of the page-resident content scripts (the
    enhanced one with relaxed detection and the basic one with the
    style save-table) and of the background worker that installs
    dynamic network rules, together with the properties of the
    specification that concern them. *)

From Stdlib Require Import ZArith NArith QArith Qminmax String Ascii Lia.
From stdpp Require Import base list gmap.

(** ** JavaScript strings

    A JavaScript string is a sequence of UTF-16 code units; [length],
    [substring], [trim] and the character classes of regular
    expressions all work on code units. *)
Module Js.

Local Open Scope N_scope.

Abbreviation jsstring := (list N).

(** Literals are written in UTF-8 in this file; [u] decodes them to
    code units (one, two and three byte sequences: every literal of the
    scripts lies in the Basic Multilingual Plane). *)
Fixpoint decode (bs : list N) : jsstring :=
  match bs with
  | [] => []
  | b :: rest =>
      if b <? 128 then b :: decode rest
      else if b <? 224 then
        match rest with
        | c :: rest' => ((b - 192) * 64 + (c - 128)) :: decode rest'
        | [] => []
        end
      else
        match rest with
        | c :: d :: rest' =>
            ((b - 224) * 4096 + (c - 128) * 64 + (d - 128)) :: decode rest'
        | _ => []
        end
  end.

Definition u (s : string) : jsstring :=
  decode (List.map (fun c => N_of_ascii c) (list_ascii_of_string s)).

Global Arguments u : simpl never.

Definition eqb (a b : jsstring) : bool := bool_decide (a = b).

(** Truthiness of a string: the empty string is falsy. *)
Definition truthy (s : jsstring) : bool :=
  match s with [] => false | _ :: _ => true end.

(** [a || b] on strings. *)
Definition or_else (a b : jsstring) : jsstring :=
  if truthy a then a else b.

(** WhiteSpace and LineTerminator code units, as removed by [trim]. *)
Definition isWhiteSpace (c : N) : bool :=
  (c =? 9) || (c =? 10) || (c =? 11) || (c =? 12) || (c =? 13) ||
  (c =? 32) || (c =? 160) || (c =? 5760) ||
  ((8192 <=? c) && (c <=? 8202)) ||
  (c =? 8232) || (c =? 8233) || (c =? 8239) || (c =? 8287) ||
  (c =? 12288) || (c =? 65279).

Fixpoint trimStart (s : jsstring) : jsstring :=
  match s with
  | c :: s' => if isWhiteSpace c then trimStart s' else s
  | [] => []
  end.

Definition trim (s : jsstring) : jsstring :=
  rev (trimStart (rev (trimStart s))).

Fixpoint startsWith (p s : jsstring) : bool :=
  match p, s with
  | [], _ => true
  | a :: p', b :: s' => (a =? b) && startsWith p' s'
  | _ :: _, [] => false
  end.

(** [hay.includes(needle)] *)
Fixpoint includes (hay needle : jsstring) : bool :=
  startsWith needle hay ||
  match hay with
  | [] => false
  | _ :: hay' => includes hay' needle
  end.

(** [s.substring(0, n)] *)
Definition substring0 (n : nat) (s : jsstring) : jsstring := take n s.

(** [parts.join(sep)] *)
Fixpoint join (sep : jsstring) (parts : list jsstring) : jsstring :=
  match parts with
  | [] => []
  | [p] => p
  | p :: ps => p ++ sep ++ join sep ps
  end.

(** The line feed of ["\n"]. *)
Definition LF : jsstring := [10].

(** [s.split(' ')[0]]: the text before the first space. *)
Fixpoint beforeSpace (s : jsstring) : jsstring :=
  match s with
  | [] => []
  | c :: s' => if c =? 32 then [] else c :: beforeSpace s'
  end.

Fixpoint digits (d : Decimal.uint) : jsstring :=
  match d with
  | Decimal.Nil => []
  | Decimal.D0 d => 48 :: digits d
  | Decimal.D1 d => 49 :: digits d
  | Decimal.D2 d => 50 :: digits d
  | Decimal.D3 d => 51 :: digits d
  | Decimal.D4 d => 52 :: digits d
  | Decimal.D5 d => 53 :: digits d
  | Decimal.D6 d => 54 :: digits d
  | Decimal.D7 d => 55 :: digits d
  | Decimal.D8 d => 56 :: digits d
  | Decimal.D9 d => 57 :: digits d
  end.

(** [String(n)] for a non-negative integer, as in a template literal. *)
Definition ofNat (n : nat) : jsstring := digits (Nat.to_uint n).

(** [/[一-龥]/.test(s)] *)
Definition hasCJK (s : jsstring) : bool :=
  existsb (fun c => (19968 <=? c) && (c <=? 40869)) s.

(** [/[^\x00-\x7F]/.test(s)] *)
Definition hasNonAscii (s : jsstring) : bool :=
  existsb (fun c => 127 <? c) s.

End Js.

Import Js.

(** ** The page: table elements, query results, platform services *)
Module Dom.

Record Cell := {
  textContent : jsstring;
  innerHTML : jsstring;
  (* cell.querySelectorAll('input, select, textarea').length *)
  controls : nat
}.

Record Row := { cells : list Cell }.

Record ComputedStyle := { display : jsstring; visibility : jsstring }.

Record DOMRect := { width : Q; height : Q }.

(** The inline style properties the scripts write. *)
Record InlineStyle := {
  outline : jsstring;
  outlineOffset : jsstring;
  backgroundColor : jsstring
}.

(** A table element.  [computedStyle] is [None] when
    [window.getComputedStyle] hands back no style object, so that
    reading a property of it throws; [markup] is the serialization of
    the node as a function of its inline style, so that [outerHTML]
    follows the writes of the highlighter. *)
Record Table := {
  tagName : jsstring;
  elem_id : jsstring;
  className : jsstring;
  rows : list Row;
  childElements : nat;
  computedStyle : option ComputedStyle;
  boundingClientRect : DOMRect;
  (* table.closest(".ui-datepicker") is not null *)
  closestDatepicker : bool;
  inlineStyle : InlineStyle;
  markup : InlineStyle -> jsstring
}.

Definition outerHTML (t : Table) : jsstring := markup t (inlineStyle t).

Definition set_inlineStyle (f : InlineStyle -> InlineStyle) (t : Table) : Table :=
  {| tagName := tagName t; elem_id := elem_id t;
     className := className t; rows := rows t;
     childElements := childElements t; computedStyle := computedStyle t;
     boundingClientRect := boundingClientRect t;
     closestDatepicker := closestDatepicker t;
     inlineStyle := f (inlineStyle t); markup := markup t |}.

(** What the queries of the scripts see.  Table elements are objects
    with identity: [elements] is the store of them, and every query
    result is a list of references into it. *)
Record Document := {
  elements : gmap N Table;
  (* document.querySelectorAll("table"), in document order *)
  mainTables : list N;
  (* per iframe, the tables of its document; None when the frame
     document is absent or reading it throws (cross-origin) *)
  iframes : list (option (list N));
  (* per element matching the grid selectors, its descendant tables *)
  potentialContainers : list (list N);
  (* the last table scrolled into view *)
  scrolledTo : option N
}.

Definition set_elements (f : gmap N Table -> gmap N Table) (d : Document) : Document :=
  {| elements := f (elements d); mainTables := mainTables d;
     iframes := iframes d; potentialContainers := potentialContainers d;
     scrolledTo := scrolledTo d |}.

Definition set_scrolledTo (n : N) (d : Document) : Document :=
  {| elements := elements d; mainTables := mainTables d;
     iframes := iframes d; potentialContainers := potentialContainers d;
     scrolledTo := Some n |}.

(** [a < b] on measurements. *)
Definition Qltb (a b : Q) : bool := negb (Qle_bool b a).

(** A value thrown or rejected with: an [Error] object with its
    message, a string, or anything else with its [String(...)] form. *)
Inductive Thrown :=
| ErrorObject (message : jsstring)
| StringValue (s : jsstring)
| OtherValue (asString : jsstring).

(** What one export sees of the platform. *)
Record Clipboard := {
  (* navigator.clipboard is defined, with its writeText function *)
  navigatorClipboard : bool;
  (* window.isSecureContext *)
  isSecureContext : bool;
  (* whether the promise of navigator.clipboard.writeText resolves *)
  writeTextResolves : bool;
  (* document.execCommand('copy'): the value returned, or a throw *)
  execCommandCopy : Thrown + bool
}.

Inductive BodyChild :=
| TempButton
| TextArea (value : jsstring).

Inductive DomOp :=
| CreateElement (c : BodyChild)
| AppendChild (c : BodyChild)
| RemoveChild (c : BodyChild).

(** The part of the page the exporter writes: the children it appends
    to [document.body], every DOM operation it performs, and the system
    clipboard. *)
Record Body := {
  children : list BodyChild;
  domLog : list DomOp;
  clipboard : option jsstring
}.

Definition createAndAppend (c : BodyChild) (b : Body) : Body :=
  {| children := children b ++ [c];
     domLog := domLog b ++ [CreateElement c; AppendChild c];
     clipboard := clipboard b |}.

(** [document.body.removeChild(c)] for the child appended last. *)
Definition removeLast (c : BodyChild) (b : Body) : Body :=
  {| children := take (length (children b) - 1) (children b);
     domLog := domLog b ++ [RemoveChild c];
     clipboard := clipboard b |}.

Definition writeClipboard (text : jsstring) (b : Body) : Body :=
  {| children := children b; domLog := domLog b; clipboard := Some text |}.

(** A CSS rule object.  [style] is the declaration block ([None] for a
    rule without one), [cssText] the text its getter returns:
    [removeProperty] re-serializes it from the block, and an assignment
    to [cssText] leaves the rule as it is. *)
Record CSSRule := {
  (* rule instanceof CSSStyleRule *)
  isStyleRule : bool;
  selectorText : jsstring;
  style : option (list (jsstring * jsstring));
  cssText : jsstring
}.

Definition serializeBlock (decls : list (jsstring * jsstring)) : jsstring :=
  flat_map (fun '(p, v) => p ++ u ": " ++ v ++ u "; ") decls.

Definition serializeRule (selector : jsstring)
  (decls : list (jsstring * jsstring)) : jsstring :=
  selector ++ u " { " ++ serializeBlock decls ++ u "}".

(** [rule.style.getPropertyValue(p)], also reached through the
    camel-case accessors; the empty string when not declared. *)
Definition getPropertyValue (p : jsstring) (r : CSSRule) : jsstring :=
  match style r with
  | Some decls =>
      match List.find (fun d => eqb (fst d) p) decls with
      | Some d => snd d
      | None => []
      end
  | None => []
  end.

(** [rule.style.removeProperty(p)] *)
Definition removeProperty (p : jsstring) (r : CSSRule) : CSSRule :=
  match style r with
  | Some decls =>
      let decls' := List.filter (fun d => negb (eqb (fst d) p)) decls in
      {| isStyleRule := isStyleRule r; selectorText := selectorText r;
         style := Some decls';
         cssText := serializeRule (selectorText r) decls' |}
  | None => r
  end.

(** [rule.cssText = text]: the setter of [cssText] on a rule object
    does nothing (CSSOM), so the rule keeps its block and its text. *)
Definition set_cssText (text : jsstring) (r : CSSRule) : CSSRule := r.

Inductive Listener :=
| StopPropagation
| PreventDefault.

(** The part of the page the copy-protection toggler works on.  Rules
    are objects with identity, kept in [cssRules]; a style sheet is the
    live list of its rules, or [None] when reading its rules throws
    (a cross-origin sheet); [styleElements] holds the text of every
    style element of the document, [listeners] the capturing listeners
    added on the document. *)
Record Styles := {
  cssRules : gmap N CSSRule;
  styleSheets : list (option (list N));
  styleElements : list jsstring;
  listeners : list (jsstring * Listener)
}.

End Dom.

Import Dom.


(** ** Messages *)

(** A table descriptor, as sent to the popup. *)
Record TableInfo := {
  info_id : nat;
  info_rows : nat;
  info_cols : nat;
  info_preview : jsstring
}.

Record RequestHeader := {
  header_id : jsstring;
  name : jsstring;
  value : jsstring;
  enabled : bool
}.

(** Table ids are the integers the popup sends. *)
Record ChromeRequest := {
  action : jsstring;
  tableId : option Z;
  selectedIds : option (list Z);
  req_headers : option (list RequestHeader);
  req_tables : option (list TableInfo)
}.

(** A response object; an absent field is [None]. *)
Record ChromeResponse := {
  status : option jsstring;
  tables : option (list TableInfo);
  success : option bool;
  error : option jsstring;
  copyEnabled : option bool;
  headers : option (list RequestHeader)
}.

Definition noFields : ChromeResponse :=
  {| status := None; tables := None; success := None; error := None;
     copyEnabled := None; headers := None |}.

(** [{ success: true }] *)
Definition succeeded : ChromeResponse :=
  {| status := None; tables := None; success := Some true; error := None;
     copyEnabled := None; headers := None |}.

(** [{ success: false, error: message }] *)
Definition failed (message : jsstring) : ChromeResponse :=
  {| status := None; tables := None; success := Some false;
     error := Some message; copyEnabled := None; headers := None |}.

(** One [chrome.runtime.sendMessage] call: the promise rejects, or
    resolves with the response of the other side ([None] for
    [undefined]). *)
Inductive SendResult :=
| Rejected (reason : Thrown)
| Resolved (response : option ChromeResponse).

(** The outcomes of the successive [chrome.runtime.sendMessage] calls
    of a script, by call number. *)
Definition Channel := nat -> SendResult.

(** ** The enhanced content script (relaxed detection, retry loop) *)
Module Enhanced.

(** [table.rows[0]?.cells.length], with [undefined] read as no cells
    (every comparison [undefined >= n] is false, and [undefined || 0]
    is 0). *)
Definition firstRowCells (table : Table) : nat :=
  match rows table with
  | [] => 0
  | row :: _ => length (cells row)
  end.

(** [cell.textContent?.trim() || cell.innerHTML?.trim()] is a non-empty
    string. *)
Definition cellHasContent (cell : Cell) : bool :=
  let content := or_else (trim (textContent cell)) (trim (innerHTML cell)) in
  truthy content && (0 <? length content).

(** The two nested loops of the standard mode: the first 5 rows, the
    first 10 cells of each, stopping at the first cell with content. *)
Definition scanContent (table : Table) : bool :=
  existsb (fun row => existsb cellHasContent (take 10 (cells row)))
          (take 5 (rows table)).

(** The body of the [try] block of [isValidTable]; [None] stands for a
    thrown error. *)
Definition isValidTable_try (table : option Table) (relaxedMode : bool)
  : option bool :=
  match table with
  | None => Some false
  | Some table =>
    let rect := boundingClientRect table in
    match computedStyle table with
    | None => None
    | Some computedStyle =>
      if eqb (display computedStyle) (u "none")
         || eqb (visibility computedStyle) (u "hidden") then Some false
      else if length (rows table) <? 1 then Some false
      else
        let hasAnyContent :=
          if relaxedMode then
            (1 <=? length (rows table)) && (1 <=? firstRowCells table)
          else
            let hasAnyContent := scanContent table in
            if negb hasAnyContent then
              (2 <=? length (rows table)) && (2 <=? firstRowCells table)
            else hasAnyContent in
        if negb hasAnyContent then Some false
        else if negb relaxedMode && closestDatepicker table then Some false
        else if Qltb (width rect) 10 || Qltb (height rect) 5 then Some false
        else Some true
    end
  end.

(** [isValidTable]: a thrown error yields [relaxedMode]. *)
Definition isValidTable (table : option Table) (relaxedMode : bool) : bool :=
  match isValidTable_try table relaxedMode with
  | Some b => b
  | None => relaxedMode
  end.

Definition getTableInfo (table : Table) : nat * nat :=
  (length (rows table), firstRowCells table).

(** The text contributed by one cell to the preview, if any. *)
Definition cellPreview (cell : Cell) : option jsstring :=
  let cellText := or_else (trim (textContent cell)) [] in
  let cellText :=
    if negb (truthy cellText) then
      if 0 <? controls cell then
        u "[" ++ ofNat (controls cell) ++ u "个输入控件]"
      else if truthy (trim (innerHTML cell)) then u "[HTML内容]"
      else cellText
    else cellText in
  if truthy cellText then
    let cellText :=
      if hasCJK cellText then cellText
      else if hasNonAscii cellText then
        if 10 <? length cellText then u "[编码问题]" else cellText
      else cellText in
    let cellText :=
      if 15 <? length cellText then substring0 15 cellText ++ u "..."
      else cellText in
    if truthy cellText && negb (eqb cellText (u "[编码问题]"))
    then Some cellText else None
  else None.

Definition getTablePreview (table : Table) : jsstring :=
  let maxRows := Nat.min 3 (length (rows table)) in
  let maxCols := Nat.min 5 (firstRowCells table) in
  let cells :=
    omap (fun row =>
            let rowCells := omap cellPreview (take maxCols (cells row)) in
            if 0 <? length rowCells then Some (join (u " | ") rowCells)
            else None)
         (take maxRows (rows table)) in
  let preview :=
    if 0 <? length cells then join (u " | ") cells else u "无有效内容" in
  let tableId :=
    if truthy (elem_id table) then u "#" ++ elem_id table else [] in
  let tableClass :=
    if truthy (className table)
    then u "." ++ beforeSpace (className table) else [] in
  let location := or_else (or_else tableId tableClass) (u "未命名表格") in
  location ++ u ": " ++ preview.

(** Push the tables not yet in [processedTables]. *)
Definition collect (tables : list N) (acc : list N * gset N)
  : list N * gset N :=
  fold_left
    (fun '(allTables, processedTables) table =>
       if bool_decide (table ∈ processedTables)
       then (allTables, processedTables)
       else (allTables ++ [table], {[table]} ∪ processedTables))
    tables acc.

(** Steps 1 to 3 of [findTables]: main document, reachable iframes,
    grid containers. *)
Definition allTables (doc : Document) : list N :=
  let acc := collect (mainTables doc) ([], ∅) in
  let acc :=
    fold_left (fun acc iframe =>
                 match iframe with
                 | Some iframeTables => collect iframeTables acc
                 | None => acc
                 end) (iframes doc) acc in
  let acc :=
    fold_left (fun acc tables => collect tables acc)
              (potentialContainers doc) acc in
  fst acc.

(** Step 5: one descriptor per found table; [None] when reading a
    table throws. *)
Fixpoint describe (doc : Document) (index : nat) (tables : list N)
  : option (list TableInfo) :=
  match tables with
  | [] => Some []
  | t :: tables' =>
      match elements doc !! t with
      | None => None
      | Some table =>
          let '(rows, cols) := getTableInfo table in
          cons {| info_id := index; info_rows := rows; info_cols := cols;
                  info_preview := getTablePreview table |}
            <$> describe doc (S index) tables'
      end
  end.

(** [findTables]: the new value of [foundTables] and the descriptors
    returned. *)
Definition findTables (doc : Document) (relaxedMode : bool)
  : list N * list TableInfo :=
  let foundTables :=
    List.filter (fun t => isValidTable (elements doc !! t) relaxedMode)
                (allTables doc) in
  match describe doc 0 foundTables with
  | Some infos => (foundTables, infos)
  | None => (foundTables, [])
  end.

(** *** Script state *)

Inductive Message :=
| Ping
| UpdateTables (tables : list TableInfo)
| ApplyHeaders (headers : list RequestHeader)
| ClearHeaders.

(** The page, the module-level variables of the script, and what the
    script has done on its channel and timers: the messages handed to
    [chrome.runtime.sendMessage], the waits between retries and the
    delays of the pending [setTimeout(performTableDetection, _)]. *)
Record State := {
  doc : Document;
  body : Body;
  styles : Styles;
  foundTables : list N;
  lastTableCount : nat;
  detectionAttempts : nat;
  copyProtectionDisabled : bool;
  backgroundReady : bool;
  sent : list Message;
  waits : list nat;
  timeouts : list Q
}.

Definition MAX_DETECTION_ATTEMPTS : nat := 15.

Definition set_doc (f : Document -> Document) (st : State) : State :=
  {| doc := f (doc st); body := body st; styles := styles st;
     foundTables := foundTables st; lastTableCount := lastTableCount st;
     detectionAttempts := detectionAttempts st;
     copyProtectionDisabled := copyProtectionDisabled st;
     backgroundReady := backgroundReady st; sent := sent st;
     waits := waits st; timeouts := timeouts st |}.

Definition set_body (f : Body -> Body) (st : State) : State :=
  {| doc := doc st; body := f (body st); styles := styles st;
     foundTables := foundTables st; lastTableCount := lastTableCount st;
     detectionAttempts := detectionAttempts st;
     copyProtectionDisabled := copyProtectionDisabled st;
     backgroundReady := backgroundReady st; sent := sent st;
     waits := waits st; timeouts := timeouts st |}.

Definition set_styles (f : Styles -> Styles) (st : State) : State :=
  {| doc := doc st; body := body st; styles := f (styles st);
     foundTables := foundTables st; lastTableCount := lastTableCount st;
     detectionAttempts := detectionAttempts st;
     copyProtectionDisabled := copyProtectionDisabled st;
     backgroundReady := backgroundReady st; sent := sent st;
     waits := waits st; timeouts := timeouts st |}.

Definition set_foundTables (v : list N) (st : State) : State :=
  {| doc := doc st; body := body st; styles := styles st;
     foundTables := v; lastTableCount := lastTableCount st;
     detectionAttempts := detectionAttempts st;
     copyProtectionDisabled := copyProtectionDisabled st;
     backgroundReady := backgroundReady st; sent := sent st;
     waits := waits st; timeouts := timeouts st |}.

Definition set_lastTableCount (v : nat) (st : State) : State :=
  {| doc := doc st; body := body st; styles := styles st;
     foundTables := foundTables st; lastTableCount := v;
     detectionAttempts := detectionAttempts st;
     copyProtectionDisabled := copyProtectionDisabled st;
     backgroundReady := backgroundReady st; sent := sent st;
     waits := waits st; timeouts := timeouts st |}.

Definition set_detectionAttempts (v : nat) (st : State) : State :=
  {| doc := doc st; body := body st; styles := styles st;
     foundTables := foundTables st; lastTableCount := lastTableCount st;
     detectionAttempts := v;
     copyProtectionDisabled := copyProtectionDisabled st;
     backgroundReady := backgroundReady st; sent := sent st;
     waits := waits st; timeouts := timeouts st |}.

Definition set_copyProtectionDisabled (v : bool) (st : State) : State :=
  {| doc := doc st; body := body st; styles := styles st;
     foundTables := foundTables st; lastTableCount := lastTableCount st;
     detectionAttempts := detectionAttempts st;
     copyProtectionDisabled := v;
     backgroundReady := backgroundReady st; sent := sent st;
     waits := waits st; timeouts := timeouts st |}.

Definition set_backgroundReady (v : bool) (st : State) : State :=
  {| doc := doc st; body := body st; styles := styles st;
     foundTables := foundTables st; lastTableCount := lastTableCount st;
     detectionAttempts := detectionAttempts st;
     copyProtectionDisabled := copyProtectionDisabled st;
     backgroundReady := v; sent := sent st;
     waits := waits st; timeouts := timeouts st |}.

Definition log_sent (m : Message) (st : State) : State :=
  {| doc := doc st; body := body st; styles := styles st;
     foundTables := foundTables st; lastTableCount := lastTableCount st;
     detectionAttempts := detectionAttempts st;
     copyProtectionDisabled := copyProtectionDisabled st;
     backgroundReady := backgroundReady st; sent := sent st ++ [m];
     waits := waits st; timeouts := timeouts st |}.

Definition log_wait (ms : nat) (st : State) : State :=
  {| doc := doc st; body := body st; styles := styles st;
     foundTables := foundTables st; lastTableCount := lastTableCount st;
     detectionAttempts := detectionAttempts st;
     copyProtectionDisabled := copyProtectionDisabled st;
     backgroundReady := backgroundReady st; sent := sent st;
     waits := waits st ++ [ms]; timeouts := timeouts st |}.

(** [setTimeout(performTableDetection, delay)] *)
Definition setTimeout (delay : Q) (st : State) : State :=
  {| doc := doc st; body := body st; styles := styles st;
     foundTables := foundTables st; lastTableCount := lastTableCount st;
     detectionAttempts := detectionAttempts st;
     copyProtectionDisabled := copyProtectionDisabled st;
     backgroundReady := backgroundReady st; sent := sent st;
     waits := waits st; timeouts := timeouts st ++ [delay] |}.

Definition formatError (error : Thrown) : jsstring :=
  match error with
  | ErrorObject message => message
  | StringValue s => s
  | OtherValue asString => asString
  end.

Definition supportsClipboardAPI (cb : Clipboard) : bool :=
  navigatorClipboard cb.

(** *** Highlighting *)

Definition clearHighlight (found : list N) (d : Document) : Document :=
  fold_left
    (fun d table =>
       set_elements
         (alter (set_inlineStyle (fun s =>
            {| outline := []; outlineOffset := outlineOffset s;
               backgroundColor := [] |})) table) d)
    found d.

(** The index of an array read, when [tableId] is within the array. *)
Definition inRange {A} (tableId : Z) (l : list A) : bool :=
  ((0 <=? tableId) && (tableId <? Z.of_nat (length l)))%Z.

Definition highlightTable (tableId : Z) (st : State) : State :=
  let st := set_doc (clearHighlight (foundTables st)) st in
  if inRange tableId (foundTables st) then
    match foundTables st !! Z.to_nat tableId with
    | Some table =>
        set_doc (fun d =>
          set_scrolledTo table
            (set_elements
               (alter (set_inlineStyle (fun s =>
                  {| outline := u "3px solid #ff6b6b";
                     outlineOffset := outlineOffset s;
                     backgroundColor := u "rgba(255, 107, 107, 0.1)" |}))
                  table) d)) st
    | None => st
    end
  else st.

(** *** Clipboard export *)

(** [table.outerHTML] of each referenced table; [None] when a
    reference is not an object (reading a property of it throws). *)
Definition outerHTMLs (d : Document) (tables : list N)
  : option (list jsstring) :=
  mapM (fun t => outerHTML <$> elements d !! t) tables.

(** The common tail of the three export functions, from the clipboard
    API attempt to the result of the legacy copy command.  A rejected
    [writeText] leaves the temporary button in place; a throwing
    [execCommand] reaches the outer [catch] with the text area still
    attached. *)
Definition writeOut (cb : Clipboard) (tableHtml : jsstring) (b : Body)
  : Body * ChromeResponse :=
  let attempt :=
    if supportsClipboardAPI cb then
      let b := createAndAppend TempButton b in
      if writeTextResolves cb
      then inl (removeLast TempButton (writeClipboard tableHtml b))
      else inr b
    else inr b in
  match attempt with
  | inl b => (b, succeeded)
  | inr b =>
      let b := createAndAppend (TextArea tableHtml) b in
      match execCommandCopy cb with
      | inl error => (b, failed (formatError error))
      | inr successful =>
          let b := if successful then writeClipboard tableHtml b else b in
          let b := removeLast (TextArea tableHtml) b in
          if negb successful then
            (b, failed (u "复制命令执行失败，请确保页面处于活动状态"))
          else (b, succeeded)
      end
  end.

(** The message of the [TypeError] raised by reading a property of
    [undefined]; its wording belongs to the engine. *)
Definition undefinedRead : Thrown :=
  ErrorObject (u "Cannot read properties of undefined").

(** [foundTables.map(table => table.outerHTML).join('\n\n')] *)
Definition tableHtml (d : Document) (tables : list N) : option jsstring :=
  join (LF ++ LF) <$> outerHTMLs d tables.

Definition copyTablesToClipboard (cb : Clipboard) (st : State)
  : State * ChromeResponse :=
  if length (foundTables st) =? 0 then (st, failed (u "没有找到表格"))
  else
    match tableHtml (doc st) (foundTables st) with
    | None => (st, failed (formatError undefinedRead))
    | Some tableHtml =>
        let '(b, r) := writeOut cb tableHtml (body st) in
        (set_body (fun _ => b) st, r)
    end.

Definition copySingleTableToClipboard (cb : Clipboard) (tableId : Z)
  (st : State) : State * ChromeResponse :=
  if ((tableId <? 0) || (Z.of_nat (length (foundTables st)) <=? tableId))%Z
  then (st, failed (u "无效的表格ID"))
  else
    match foundTables st !! Z.to_nat tableId ≫= (elements (doc st) !!.) with
    | None => (st, failed (formatError undefinedRead))
    | Some table =>
        let tableHtml := outerHTML table in
        let '(b, r) := writeOut cb tableHtml (body st) in
        (set_body (fun _ => b) st, r)
    end.

Definition copySelectedTablesToClipboard (cb : Clipboard)
  (selectedIds : list Z) (st : State) : State * ChromeResponse :=
  if length selectedIds =? 0 then (st, failed (u "没有选中的表格"))
  else
    let selectedTables :=
      omap (fun id => foundTables st !! Z.to_nat id)
           (List.filter (fun id => inRange id (foundTables st)) selectedIds) in
    if length selectedTables =? 0 then (st, failed (u "选中的表格ID无效"))
    else
      match tableHtml (doc st) selectedTables with
      | None => (st, failed (formatError undefinedRead))
      | Some tableHtml =>
          let '(b, r) := writeOut cb tableHtml (body st) in
          (set_body (fun _ => b) st, r)
      end.

(** *** Copy protection *)

(** [cssRule.style && (cssRule.style.userSelect === 'none' || ...)] *)
Definition blocksSelection (r : CSSRule) : bool :=
  match style r with
  | Some _ =>
      eqb (getPropertyValue (u "user-select") r) (u "none")
      || eqb (getPropertyValue (u "-webkit-user-select") r) (u "none")
      || eqb (getPropertyValue (u "user-select") r) (u "none")
  | None => false
  end.

(** The [forEach] over the snapshot of a sheet's rules: a matching rule
    makes [sheet.deleteRule(index)] act on the live list, with the
    index the rule had in the snapshot; an index past the end of the
    live list throws, which abandons the walk of this sheet. *)
Fixpoint deleteBlocking (rules : gmap N CSSRule) (snapshot : list N)
  (index : nat) (live : list N) : list N :=
  match snapshot with
  | [] => live
  | rule :: rest =>
      match rules !! rule with
      | None => live
      | Some cssRule =>
          if blocksSelection cssRule then
            if index <? length live
            then deleteBlocking rules rest (S index) (delete index live)
            else live
          else deleteBlocking rules rest (S index) live
      end
  end.

Definition selectionOverride : jsstring :=
  u "
      * {
        -webkit-user-select: text !important;
        -moz-user-select: text !important;
        -ms-user-select: text !important;
        user-select: text !important;
      }
    ".

Definition disableCopyProtection (st : State) : State :=
  let st :=
    set_styles (fun s =>
      {| cssRules := cssRules s;
         styleSheets :=
           (fun sheet =>
              match sheet with
              | Some rules => Some (deleteBlocking (cssRules s) rules 0 rules)
              | None => None
              end) <$> styleSheets s;
         styleElements := styleElements s ++ [selectionOverride];
         listeners := listeners s |}) st in
  set_copyProtectionDisabled true st.

Definition enableCopyProtection (st : State) : State :=
  let st :=
    set_styles (fun s =>
      {| cssRules := cssRules s;
         styleSheets := styleSheets s;
         styleElements :=
           List.filter
             (fun text => negb (includes text (u "user-select: text !important")))
             (styleElements s);
         listeners := listeners s |}) st in
  set_copyProtectionDisabled false st.

Definition toggleCopyProtection (st : State) : State * ChromeResponse :=
  let st :=
    if copyProtectionDisabled st then enableCopyProtection st
    else disableCopyProtection st in
  (st, {| status := None; tables := None; success := Some true;
          error := None; copyEnabled := Some (copyProtectionDisabled st);
          headers := None |}).

Definition checkCopyStatus (st : State) : ChromeResponse :=
  {| status := None; tables := None; success := Some true; error := None;
     copyEnabled := Some (copyProtectionDisabled st); headers := None |}.

(** *** Messaging with retry *)

Definition sendMessage (chan : Channel) (m : Message) (st : State)
  : State * SendResult :=
  (log_sent m st, chan (length (sent st))).

(** The retry loop, at iteration [i] with [remaining] iterations to go:
    the response, or the error of the last attempt. *)
Fixpoint retryLoop (chan : Channel) (message : Message) (i remaining : nat)
  (st : State) : State * (Thrown + option ChromeResponse) :=
  match remaining with
  | 0 => (st, inr None)
  | S remaining' =>
      let '(st, r) := sendMessage chan message st in
      match r with
      | Resolved response => (st, inr response)
      | Rejected error =>
          if remaining' =? 0 then (st, inl error)
          else retryLoop chan message (S i) remaining'
                 (log_wait (1000 * 2 ^ i) st)
      end
  end.

Definition isPing (m : Message) : bool :=
  match m with Ping => true | _ => false end.

(** [pingResponse?.success || pingResponse?.status === 'ready'] *)
Definition readyFrom (r : option ChromeResponse) : bool :=
  match r with
  | Some r =>
      match success r with
      | Some true => true
      | _ => bool_decide (status r = Some (u "ready"))
      end
  | None => false
  end.

Definition sendMessageWithRetry (chan : Channel) (message : Message)
  (maxRetries : nat) (st : State)
  : State * (Thrown + option ChromeResponse) :=
  let st :=
    if negb (backgroundReady st) && negb (isPing message) then
      let '(st, r) := sendMessage chan Ping st in
      match r with
      | Resolved pingResponse =>
          set_backgroundReady (readyFrom pingResponse) st
      | Rejected _ => st
      end
    else st in
  retryLoop chan message 0 maxRetries st.

(** What the caller hands on: the response as it came, with
    [undefined] read as an object without fields. *)
Definition relayed (r : Thrown + option ChromeResponse) : ChromeResponse :=
  match r with
  | inr (Some response) => response
  | inr None => noFields
  | inl error => failed (formatError error)
  end.

Definition applyHeaders (chan : Channel) (headers : list RequestHeader)
  (st : State) : State * ChromeResponse :=
  let '(st, r) := sendMessageWithRetry chan (ApplyHeaders headers) 5 st in
  (st, relayed r).

Definition clearHeaders (chan : Channel) (st : State)
  : State * ChromeResponse :=
  let '(st, r) := sendMessageWithRetry chan ClearHeaders 5 st in
  (st, relayed r).

Definition getHeaders : ChromeResponse :=
  {| status := None; tables := None; success := Some true; error := None;
     copyEnabled := None; headers := Some [] |}.

(** *** Detection loop *)

(** [Math.min(2000 * Math.pow(1.5, detectionAttempts - 1), 10000)].
    The powers of 1.5 that occur and their products with 2000 are
    exact in binary floating point, so rationals carry the same
    values. *)
Definition nextInterval (detectionAttempts : nat) : Q :=
  Qmin (2000 * (3 # 2) ^ (Z.of_nat detectionAttempts - 1)) 10000.

(** One run of [performTableDetection].  [findTables] catches its own
    errors and the failure of the notification is caught on the spot,
    so nothing reaches the outer [catch] of the function. *)
Definition performTableDetection (chan : Channel) (st : State) : State :=
  let '(found, tablesInfo) := findTables (doc st) true in
  let st := set_foundTables found st in
  let currentTableCount := length tablesInfo in
  let st :=
    if negb (currentTableCount =? lastTableCount st)
       || (detectionAttempts st =? 0)
    then
      let st := set_lastTableCount currentTableCount st in
      fst (sendMessageWithRetry chan (UpdateTables tablesInfo) 5 st)
    else st in
  let st := set_detectionAttempts (S (detectionAttempts st)) st in
  if (currentTableCount =? 0)
     && (detectionAttempts st <? MAX_DETECTION_ATTEMPTS)
  then setTimeout (nextInterval (detectionAttempts st)) st
  else st.

(** The synchronous part of a run of [performTableDetection] that
    notifies.  The function runs without interruption up to the first
    [await] of [sendMessageWithRetry]: the candidates and the last
    known count are set and the first message (the readiness ping, or
    the notification itself when the background is known to be ready)
    has been handed to [chrome.runtime.sendMessage]; the run is
    suspended there, and [detectionAttempts] is incremented only after
    it resumes.  [None] for a run that does not notify: it has no
    [await] to stop at. *)
Definition suspendedDetection (st : State) : option State :=
  let '(found, tablesInfo) := findTables (doc st) true in
  let st := set_foundTables found st in
  let currentTableCount := length tablesInfo in
  if negb (currentTableCount =? lastTableCount st)
     || (detectionAttempts st =? 0)
  then
    let st := set_lastTableCount currentTableCount st in
    Some (log_sent (if negb (backgroundReady st) then Ping
                    else UpdateTables tablesInfo) st)
  else None.

(** *** Message listener *)

Definition onMessage (cb : Clipboard) (chan : Channel)
  (request : ChromeRequest) (st : State) : State * ChromeResponse :=
  if eqb (action request) (u "ping") then
    (st, {| status := Some (u "ready"); tables := None; success := None;
            error := None; copyEnabled := None; headers := None |})
  else if eqb (action request) (u "findTables") then
    let '(found, infos) := findTables (doc st) true in
    (set_foundTables found st,
     {| status := None; tables := Some infos; success := None;
        error := None; copyEnabled := None; headers := None |})
  else if eqb (action request) (u "highlightTable") then
    let st :=
      match tableId request with
      | Some tableId => highlightTable tableId st
      | None => st
      end in
    (st, succeeded)
  else if eqb (action request) (u "copyTables") then
    copyTablesToClipboard cb st
  else if eqb (action request) (u "copySingleTable") then
    match tableId request with
    | Some tableId => copySingleTableToClipboard cb tableId st
    | None => (st, failed (u "缺少表格ID"))
    end
  else if eqb (action request) (u "copySelectedTables") then
    match selectedIds request with
    | Some selectedIds => copySelectedTablesToClipboard cb selectedIds st
    | None => (st, failed (u "缺少选中的表格ID"))
    end
  else if eqb (action request) (u "toggleCopyProtection") then
    toggleCopyProtection st
  else if eqb (action request) (u "checkCopyStatus") then
    (st, checkCopyStatus st)
  else if eqb (action request) (u "applyHeaders") then
    match req_headers request with
    | Some headers => applyHeaders chan headers st
    | None => (st, failed (u "缺少请求头数据"))
    end
  else if eqb (action request) (u "clearHeaders") then
    clearHeaders chan st
  else if eqb (action request) (u "getHeaders") then
    (st, getHeaders)
  else (st, failed (u "未知操作")).

End Enhanced.


(** ** The basic content script (labelled export, style save-table) *)
Module Basic.

Definition formatError (error : Thrown) : jsstring :=
  match error with
  | ErrorObject message => message
  | StringValue s => s
  | OtherValue _ => u "未知错误"
  end.

Definition isValidTable (element : Table) : bool :=
  eqb (tagName element) (u "TABLE") && (0 <? childElements element).

Definition firstRowCells (table : Table) : nat :=
  match rows table with
  | [] => 0
  | row :: _ => length (cells row)
  end.

Definition getTableInfo (table : Table) : nat * nat :=
  (length (rows table), firstRowCells table).

Definition getTablePreview (table : Table) : jsstring :=
  let maxRows := Nat.min 3 (length (rows table)) in
  let maxCols := Nat.min 5 (firstRowCells table) in
  let cells :=
    omap (fun row =>
            let rowCells :=
              omap (fun cell =>
                      let cellText := or_else (trim (textContent cell)) [] in
                      if truthy cellText then Some cellText else None)
                   (take maxCols (cells row)) in
            if 0 <? length rowCells then Some (join (u " | ") rowCells)
            else None)
         (take maxRows (rows table)) in
  join (u " | ") cells.

Definition supportsClipboardAPI (cb : Clipboard) : bool :=
  navigatorClipboard cb && isSecureContext cb.

(** [originalStyles], a [Map] from rule objects to their saved text,
    in insertion order. *)
Fixpoint mapSet (k : N) (v : jsstring) (m : list (N * jsstring))
  : list (N * jsstring) :=
  match m with
  | [] => [(k, v)]
  | (k', v') :: m' =>
      if N.eqb k k' then (k, v) :: m' else (k', v') :: mapSet k v m'
  end.

Inductive Message :=
| ApplyHeaders (headers : list RequestHeader)
| ClearHeaders.

Record State := {
  doc : Document;
  body : Body;
  styles : Styles;
  foundTables : list N;
  previouslyHighlighted : option N;
  copyProtectionDisabled : bool;
  originalStyles : list (N * jsstring);
  customHeaders : list RequestHeader;
  sent : list Message
}.

Definition set_doc (f : Document -> Document) (st : State) : State :=
  {| doc := f (doc st); body := body st; styles := styles st;
     foundTables := foundTables st;
     previouslyHighlighted := previouslyHighlighted st;
     copyProtectionDisabled := copyProtectionDisabled st;
     originalStyles := originalStyles st;
     customHeaders := customHeaders st; sent := sent st |}.

Definition set_body (f : Body -> Body) (st : State) : State :=
  {| doc := doc st; body := f (body st); styles := styles st;
     foundTables := foundTables st;
     previouslyHighlighted := previouslyHighlighted st;
     copyProtectionDisabled := copyProtectionDisabled st;
     originalStyles := originalStyles st;
     customHeaders := customHeaders st; sent := sent st |}.

Definition set_styles (f : Styles -> Styles) (st : State) : State :=
  {| doc := doc st; body := body st; styles := f (styles st);
     foundTables := foundTables st;
     previouslyHighlighted := previouslyHighlighted st;
     copyProtectionDisabled := copyProtectionDisabled st;
     originalStyles := originalStyles st;
     customHeaders := customHeaders st; sent := sent st |}.

Definition set_foundTables (v : list N) (st : State) : State :=
  {| doc := doc st; body := body st; styles := styles st;
     foundTables := v;
     previouslyHighlighted := previouslyHighlighted st;
     copyProtectionDisabled := copyProtectionDisabled st;
     originalStyles := originalStyles st;
     customHeaders := customHeaders st; sent := sent st |}.

Definition set_previouslyHighlighted (v : option N) (st : State) : State :=
  {| doc := doc st; body := body st; styles := styles st;
     foundTables := foundTables st;
     previouslyHighlighted := v;
     copyProtectionDisabled := copyProtectionDisabled st;
     originalStyles := originalStyles st;
     customHeaders := customHeaders st; sent := sent st |}.

Definition set_copyProtectionDisabled (v : bool) (st : State) : State :=
  {| doc := doc st; body := body st; styles := styles st;
     foundTables := foundTables st;
     previouslyHighlighted := previouslyHighlighted st;
     copyProtectionDisabled := v;
     originalStyles := originalStyles st;
     customHeaders := customHeaders st; sent := sent st |}.

Definition set_originalStyles (v : list (N * jsstring)) (st : State) : State :=
  {| doc := doc st; body := body st; styles := styles st;
     foundTables := foundTables st;
     previouslyHighlighted := previouslyHighlighted st;
     copyProtectionDisabled := copyProtectionDisabled st;
     originalStyles := v;
     customHeaders := customHeaders st; sent := sent st |}.

Definition set_customHeaders (v : list RequestHeader) (st : State) : State :=
  {| doc := doc st; body := body st; styles := styles st;
     foundTables := foundTables st;
     previouslyHighlighted := previouslyHighlighted st;
     copyProtectionDisabled := copyProtectionDisabled st;
     originalStyles := originalStyles st;
     customHeaders := v; sent := sent st |}.

Definition log_sent (m : Message) (st : State) : State :=
  {| doc := doc st; body := body st; styles := styles st;
     foundTables := foundTables st;
     previouslyHighlighted := previouslyHighlighted st;
     copyProtectionDisabled := copyProtectionDisabled st;
     originalStyles := originalStyles st;
     customHeaders := customHeaders st; sent := sent st ++ [m] |}.

(** *** Highlighting *)

Definition clearHighlight (st : State) : State :=
  match previouslyHighlighted st with
  | Some table =>
      set_previouslyHighlighted None
        (set_doc (set_elements
           (alter (set_inlineStyle (fun s =>
              {| outline := []; outlineOffset := outlineOffset s;
                 backgroundColor := backgroundColor s |})) table)) st)
  | None => st
  end.

(** [array[tableId]]: [undefined] outside the array. *)
Definition at_index {A} (l : list A) (tableId : Z) : option A :=
  if (tableId <? 0)%Z then None else l !! Z.to_nat tableId.

Definition highlightTable (tableId : Z) (st : State) : State :=
  let st := clearHighlight st in
  match at_index (foundTables st) tableId with
  | Some table =>
      set_previouslyHighlighted (Some table)
        (set_doc (set_elements
           (alter (set_inlineStyle (fun s =>
              {| outline := u "3px solid #007bff";
                 outlineOffset := u "2px";
                 backgroundColor := backgroundColor s |})) table)) st)
  | None => st
  end.

(** *** Table search *)

Fixpoint describe (d : Document) (index : nat) (tables : list N)
  : option (list TableInfo) :=
  match tables with
  | [] => Some []
  | t :: tables' =>
      match elements d !! t with
      | None => None
      | Some table =>
          let '(rows, cols) := getTableInfo table in
          cons {| info_id := index; info_rows := rows; info_cols := cols;
                  info_preview := getTablePreview table |}
            <$> describe d (S index) tables'
      end
  end.

(** [findTables]: the value assigned to [foundTables] and the
    descriptors returned.  The outer [None] is a throw inside the
    filter, before the assignment; the inner one a throw while the
    descriptors are built, after it. *)
Definition findTables (d : Document)
  : option (list N * option (list TableInfo)) :=
  found ← mapM (fun t => table ← elements d !! t;
                         Some (t, isValidTable table)) (mainTables d);
  let foundTables := fst <$> List.filter snd found in
  Some (foundTables, describe d 0 foundTables).

(** *** Clipboard export *)

(** [{ success, error: success ? undefined : "execCommand复制失败" }] *)
Definition legacyResult (success : bool) : ChromeResponse :=
  {| status := None; tables := None; success := Some success;
     error := if success then None else Some (u "execCommand复制失败");
     copyEnabled := None; headers := None |}.

(** The common tail of the three export functions: the clipboard API
    when supported, else (or when it rejects) a text area placed off
    screen and the legacy copy command, the text area being detached
    in the [finally] block whatever happened. *)
Definition writeOut (cb : Clipboard) (text : jsstring) (b : Body)
  : Body * ChromeResponse :=
  if supportsClipboardAPI cb && writeTextResolves cb
  then (writeClipboard text b, succeeded)
  else
    let b := createAndAppend (TextArea text) b in
    match execCommandCopy cb with
    | inr success =>
        let b := if success then writeClipboard text b else b in
        (removeLast (TextArea text) b, legacyResult success)
    | inl error =>
        (removeLast (TextArea text) b,
         failed (u "execCommand错误: " ++ formatError error))
    end.

(** The label and markup of one table: [=== 表格 n ===], a line feed,
    the markup, a line feed. *)
Definition labelled (number : nat) (table : Table) : jsstring :=
  (u "=== 表格 " ++ ofNat number ++ u " ===" ++ LF)
  ++ outerHTML table ++ LF.

(** The fallback of [safeAsync] around an export whose operation
    threw. *)
Definition copyFailed (error : Thrown) : ChromeResponse :=
  failed (u "复制失败: " ++ formatError error).

Definition undefinedRead : Thrown :=
  ErrorObject (u "Cannot read properties of undefined").

Definition copySingleTableToClipboard (cb : Clipboard) (tableId : Z)
  (st : State) : State * ChromeResponse :=
  if ((tableId <? 0) || (Z.of_nat (length (foundTables st)) <=? tableId))%Z
  then (st, failed (u "表格ID无效"))
  else
    match foundTables st !! Z.to_nat tableId ≫= (elements (doc st) !!.) with
    | None => (st, copyFailed undefinedRead)
    | Some table =>
        let tableText := labelled (Z.to_nat (tableId + 1)) table in
        let '(b, r) := writeOut cb tableText (body st) in
        (set_body (fun _ => b) st, r)
    end.

(** The [map] of [copySelectedTablesToClipboard]: [Some None] is the
    [null] of an id out of range, the outer [None] a throw. *)
Definition selectedText (st : State) (tableId : Z)
  : option (option jsstring) :=
  if ((tableId <? 0) || (Z.of_nat (length (foundTables st)) <=? tableId))%Z
  then Some None
  else
    table ← foundTables st !! Z.to_nat tableId ≫= (elements (doc st) !!.);
    Some (Some (labelled (Z.to_nat (tableId + 1)) table)).

(** [.filter(Boolean)]: [null] and the empty string are dropped. *)
Definition filterBoolean (l : list (option jsstring)) : list jsstring :=
  omap (fun x => match x with
                 | Some s => if truthy s then Some s else None
                 | None => None
                 end) l.

Definition copySelectedTablesToClipboard (cb : Clipboard)
  (selectedIds : list Z) (st : State) : State * ChromeResponse :=
  if length selectedIds =? 0 then (st, failed (u "没有选择表格"))
  else
    match mapM (selectedText st) selectedIds with
    | None => (st, copyFailed undefinedRead)
    | Some texts =>
        let tablesText := join LF (filterBoolean texts) in
        if negb (truthy tablesText) then (st, failed (u "没有有效的表格"))
        else
          let '(b, r) := writeOut cb tablesText (body st) in
          (set_body (fun _ => b) st, r)
    end.

(** [foundTables.map((table, index) => label + markup)] *)
Fixpoint labelAll (d : Document) (index : nat) (tables : list N)
  : option (list jsstring) :=
  match tables with
  | [] => Some []
  | t :: tables' =>
      table ← elements d !! t;
      cons (labelled (index + 1) table) <$> labelAll d (S index) tables'
  end.

(** The payload of the all-tables export: the labelled entries joined
    by a line feed. *)
Definition tablesText (d : Document) (tables : list N) : option jsstring :=
  join LF <$> labelAll d 0 tables.

Definition copyTablesToClipboard (cb : Clipboard) (st : State)
  : State * ChromeResponse :=
  if length (foundTables st) =? 0 then (st, failed (u "没有找到表格"))
  else
    match tablesText (doc st) (foundTables st) with
    | None => (st, copyFailed undefinedRead)
    | Some tablesText =>
        let '(b, r) := writeOut cb tablesText (body st) in
        (set_body (fun _ => b) st, r)
    end.

(** *** Copy protection *)

Definition selectorMatches (selector : jsstring) : bool :=
  truthy selector &&
  (includes selector (u "user-select")
   || includes selector (u "-webkit-user-select")
   || includes selector (u "-moz-user-select")
   || includes selector (u "-ms-user-select")
   || includes selector (u "pointer-events")
   || includes selector (u "::selection")
   || includes selector (u "::-moz-selection")).

Definition neutralize (r : CSSRule) : CSSRule :=
  removeProperty (u "pointer-events")
    (removeProperty (u "-ms-user-select")
       (removeProperty (u "-moz-user-select")
          (removeProperty (u "-webkit-user-select")
             (removeProperty (u "user-select") r)))).

(** The body of the [forEach] over the rules of one sheet: save the
    text of a matching style rule, then strip its declarations. *)
Definition visitRule (acc : gmap N CSSRule * list (N * jsstring)) (rule : N)
  : gmap N CSSRule * list (N * jsstring) :=
  let '(rules, saved) := acc in
  match rules !! rule with
  | Some r =>
      if isStyleRule r && selectorMatches (selectorText r)
      then (<[rule := neutralize r]> rules, mapSet rule (cssText r) saved)
      else acc
  | None => acc
  end.

Definition visitSheet (acc : gmap N CSSRule * list (N * jsstring))
  (sheet : option (list N)) : gmap N CSSRule * list (N * jsstring) :=
  match sheet with
  | Some rules => fold_left visitRule rules acc
  | None => acc
  end.

Definition allowCopyStyle : jsstring :=
  u "
    * {
      -webkit-user-select: auto !important;
      -moz-user-select: auto !important;
      -ms-user-select: auto !important;
      user-select: auto !important;
      -webkit-touch-callout: auto !important;
      -webkit-tap-highlight-color: transparent !important;
    }
    ::selection {
      background: #007bff !important;
      color: white !important;
    }
    ::-moz-selection {
      background: #007bff !important;
      color: white !important;
    }
  ".

Definition events : list jsstring :=
  [u "copy"; u "cut"; u "selectstart"; u "select"; u "contextmenu";
   u "mousedown"; u "mouseup"; u "keydown"; u "keyup"].

Definition toggled (copyEnabled : bool) : ChromeResponse :=
  {| status := None; tables := None; success := Some true; error := None;
     copyEnabled := Some copyEnabled; headers := None |}.

Definition disableCopyProtection (st : State) : State * ChromeResponse :=
  let s := styles st in
  let '(rules, saved) :=
    fold_left visitSheet (styleSheets s) (cssRules s, originalStyles st) in
  let s :=
    {| cssRules := rules;
       styleSheets := styleSheets s;
       styleElements := styleElements s ++ [allowCopyStyle];
       listeners :=
         listeners s
         ++ ((fun eventType => (eventType, StopPropagation)) <$> events)
         ++ [(u "contextmenu", PreventDefault);
             (u "selectstart", StopPropagation)] |} in
  (set_copyProtectionDisabled true
     (set_originalStyles saved (set_styles (fun _ => s) st)),
   toggled true).

(** [originalStyles.forEach((originalStyle, rule) => { rule.cssText =
    originalStyle; })] *)
Definition restoreAll (saved : list (N * jsstring)) (rules : gmap N CSSRule)
  : gmap N CSSRule :=
  fold_left (fun rules '(rule, originalStyle) =>
               alter (set_cssText originalStyle) rule rules)
            saved rules.

Definition enableCopyProtection (st : State) : State * ChromeResponse :=
  let s := styles st in
  let s :=
    {| cssRules := restoreAll (originalStyles st) (cssRules s);
       styleSheets := styleSheets s;
       styleElements :=
         List.filter
           (fun text => negb (truthy text && includes text (u "user-select: auto")))
           (styleElements s);
       listeners := listeners s |} in
  (set_copyProtectionDisabled false
     (set_originalStyles [] (set_styles (fun _ => s) st)),
   toggled false).

Definition toggleCopyProtection (st : State) : State * ChromeResponse :=
  if copyProtectionDisabled st then enableCopyProtection st
  else disableCopyProtection st.

Definition checkCopyStatus (st : State) : ChromeResponse :=
  toggled (copyProtectionDisabled st).

(** *** Request headers *)

Definition sendMessage (chan : Channel) (m : Message) (st : State)
  : State * SendResult :=
  (log_sent m st, chan (length (sent st))).

(** The answer built from the response of the background worker:
    [response && response.success], else [response?.error || fallback]. *)
Definition answer (fallback : jsstring) (r : SendResult) : ChromeResponse :=
  match r with
  | Resolved (Some response) =>
      match success response with
      | Some true => succeeded
      | _ =>
          failed (match error response with
                  | Some e => or_else e fallback
                  | None => fallback
                  end)
      end
  | Resolved None => failed fallback
  | Rejected reason => failed (formatError reason)
  end.

Definition applyHeaders (chan : Channel) (headers : list RequestHeader)
  (st : State) : State * ChromeResponse :=
  let st := set_customHeaders (List.filter enabled headers) st in
  let '(st, r) := sendMessage chan (ApplyHeaders (customHeaders st)) st in
  (st, answer (u "应用请求头失败") r).

Definition clearHeaders (chan : Channel) (st : State)
  : State * ChromeResponse :=
  let st := set_customHeaders [] st in
  let '(st, r) := sendMessage chan ClearHeaders st in
  (st, answer (u "清除请求头失败") r).

Definition getHeaders (st : State) : ChromeResponse :=
  {| status := None; tables := None; success := Some true; error := None;
     copyEnabled := None; headers := Some (customHeaders st) |}.

(** *** Message listener *)

Definition onMessage (cb : Clipboard) (chan : Channel)
  (request : ChromeRequest) (st : State) : State * ChromeResponse :=
  if eqb (action request) (u "ping") then
    (st, {| status := Some (u "ready"); tables := None; success := None;
            error := None; copyEnabled := None; headers := None |})
  else if eqb (action request) (u "findTables") then
    match findTables (doc st) with
    | Some (found, Some infos) =>
        (set_foundTables found st,
         {| status := None; tables := Some infos; success := None;
            error := None; copyEnabled := None; headers := None |})
    | Some (found, None) =>
        (set_foundTables found st, failed (formatError undefinedRead))
    | None => (st, failed (formatError undefinedRead))
    end
  else if eqb (action request) (u "highlightTable") then
    let st :=
      match tableId request with
      | Some tableId => highlightTable tableId st
      | None => st
      end in
    (st, succeeded)
  else if eqb (action request) (u "copyTables") then
    copyTablesToClipboard cb st
  else if eqb (action request) (u "copySingleTable") then
    match tableId request with
    | Some tableId => copySingleTableToClipboard cb tableId st
    | None => (st, failed (u "缺少表格ID"))
    end
  else if eqb (action request) (u "copySelectedTables") then
    match selectedIds request with
    | Some selectedIds => copySelectedTablesToClipboard cb selectedIds st
    | None => (st, failed (u "缺少选中的表格ID"))
    end
  else if eqb (action request) (u "toggleCopyProtection") then
    toggleCopyProtection st
  else if eqb (action request) (u "checkCopyStatus") then
    (st, checkCopyStatus st)
  else if eqb (action request) (u "applyHeaders") then
    match req_headers request with
    | Some headers => applyHeaders chan headers st
    | None => (st, failed (u "缺少请求头数据"))
    end
  else if eqb (action request) (u "clearHeaders") then
    clearHeaders chan st
  else if eqb (action request) (u "getHeaders") then
    (st, getHeaders st)
  else (st, failed (u "未知操作")).

End Basic.

(** ** The background worker *)

(** The dynamic rules of [chrome.declarativeNetRequest]. *)
Module NetRequest.

Record ModifyHeaderInfo := {
  header : jsstring;
  operation : jsstring;
  header_value : jsstring
}.

Record RuleAction := {
  type : jsstring;
  requestHeaders : list ModifyHeaderInfo
}.

Record RuleCondition := {
  urlFilter : jsstring;
  resourceTypes : list jsstring
}.

Record Rule := {
  id : nat;
  priority : nat;
  rule_action : RuleAction;
  condition : RuleCondition
}.

(** The wording of the rejection belongs to the platform. *)
Definition duplicateRuleId : Thrown :=
  ErrorObject (u "Rule id is not unique").

Fixpoint distinct (ids : list nat) : bool :=
  match ids with
  | [] => true
  | i :: ids' => negb (bool_decide (i ∈ ids')) && distinct ids'
  end.

(** [updateDynamicRules({ addRules, removeRuleIds })]: the rules with
    the listed ids go first, then the new rules are added; the call is
    atomic and rejects when an added id is already taken or given
    twice.  [getDynamicRules] is the store itself. *)
Definition updateDynamicRules (addRules : list Rule) (removeRuleIds : list nat)
  (store : list Rule) : Thrown + list Rule :=
  let kept :=
    List.filter (fun r => negb (bool_decide (id r ∈ removeRuleIds))) store in
  if distinct (id <$> addRules)
     && forallb (fun r => negb (bool_decide (id r ∈ id <$> kept))) addRules
  then inr (kept ++ addRules)
  else inl duplicateRuleId.

End NetRequest.

Import NetRequest.

(** The rule built for the header at [index] of [customHeaders]. *)
Definition ruleFor (index : nat) (h : RequestHeader) : Rule :=
  {| id := index + 1;
     priority := 1;
     rule_action :=
       {| type := u "modifyHeaders";
          requestHeaders :=
            [{| header := name h; operation := u "set";
                header_value := value h |}] |};
     condition :=
       {| urlFilter := u "*://*/*";
          resourceTypes :=
            [u "main_frame"; u "sub_frame"; u "stylesheet"; u "script";
             u "image"; u "font"; u "object"; u "xmlhttprequest"; u "ping";
             u "csp_report"; u "media"; u "websocket"; u "other"] |} |}.

(** The first background worker: failures of the rule update are
    logged and dropped, and the listener answers at once. *)
Module BackgroundV1.

Record State := {
  customHeaders : list RequestHeader;
  dynamicRules : list Rule
}.

Definition clearNetworkRules (store : list Rule) : list Rule :=
  let rules := store in
  let ruleIds := id <$> rules in
  if 0 <? length ruleIds then
    match updateDynamicRules [] ruleIds store with
    | inr store' => store'
    | inl _ => store
    end
  else store.

Definition updateNetworkRules (st : State) : State :=
  let store := clearNetworkRules (dynamicRules st) in
  if length (customHeaders st) =? 0
  then {| customHeaders := customHeaders st; dynamicRules := store |}
  else
    let rules := imap ruleFor (customHeaders st) in
    match updateDynamicRules rules [] store with
    | inr store' =>
        {| customHeaders := customHeaders st; dynamicRules := store' |}
    | inl _ => {| customHeaders := customHeaders st; dynamicRules := store |}
    end.

Definition onMessage (request : ChromeRequest) (st : State)
  : State * ChromeResponse :=
  if eqb (action request) (u "applyHeaders") then
    match req_headers request with
    | Some headers =>
        (updateNetworkRules
           {| customHeaders := headers; dynamicRules := dynamicRules st |},
         succeeded)
    | None => (st, failed (u "缺少请求头数据"))
    end
  else if eqb (action request) (u "clearHeaders") then
    ({| customHeaders := [];
        dynamicRules := clearNetworkRules (dynamicRules st) |}, succeeded)
  else if eqb (action request) (u "getHeaders") then
    (st, {| status := None; tables := None; success := Some true;
            error := None; copyEnabled := None;
            headers := Some (customHeaders st) |})
  else (st, failed (u "未知操作")).

End BackgroundV1.

(** The second background worker: a readiness gate, and failures of
    the rule update reported to the sender. *)
Module BackgroundV2.

Record State := {
  customHeaders : list RequestHeader;
  isReady : bool;
  dynamicRules : list Rule
}.

Definition clearNetworkRules (store : list Rule) : Thrown + list Rule :=
  let rules := store in
  let ruleIds := id <$> rules in
  if 0 <? length ruleIds then updateDynamicRules [] ruleIds store
  else inr store.

(** The store after the call, and the error thrown if any. *)
Definition updateNetworkRules (customHeaders : list RequestHeader)
  (store : list Rule) : list Rule * option Thrown :=
  match clearNetworkRules store with
  | inl error => (store, Some error)
  | inr store =>
      if length customHeaders =? 0 then (store, None)
      else
        let rules := imap ruleFor customHeaders in
        match updateDynamicRules rules [] store with
        | inr store' => (store', None)
        | inl error => (store, Some error)
        end
  end.

(** [error.message] of a thrown value; [None] for [undefined]. *)
Definition messageOf (error : Thrown) : option jsstring :=
  match error with
  | ErrorObject message => Some message
  | _ => None
  end.

Definition settled (error : option Thrown) : ChromeResponse :=
  match error with
  | None => succeeded
  | Some error =>
      {| status := None; tables := None; success := Some false;
         error := messageOf error; copyEnabled := None; headers := None |}
  end.

Definition onMessage (request : ChromeRequest) (st : State)
  : State * ChromeResponse :=
  if negb (isReady st) && negb (eqb (action request) (u "ping")) then
    (st, failed (u "Background script not ready"))
  else if eqb (action request) (u "ping") then
    (st, {| status := Some (u "ready"); tables := None;
            success := Some true; error := None; copyEnabled := None;
            headers := None |})
  else if eqb (action request) (u "updateTables") then
    (st, succeeded)
  else if eqb (action request) (u "applyHeaders") then
    match req_headers request with
    | Some headers =>
        let '(store, error) := updateNetworkRules headers (dynamicRules st) in
        ({| customHeaders := headers; isReady := isReady st;
            dynamicRules := store |}, settled error)
    | None => (st, failed (u "缺少请求头数据"))
    end
  else if eqb (action request) (u "clearHeaders") then
    match clearNetworkRules (dynamicRules st) with
    | inr store =>
        ({| customHeaders := []; isReady := isReady st;
            dynamicRules := store |}, succeeded)
    | inl error =>
        ({| customHeaders := []; isReady := isReady st;
            dynamicRules := dynamicRules st |}, settled (Some error))
    end
  else if eqb (action request) (u "getHeaders") then
    (st, {| status := None; tables := None; success := Some true;
            error := None; copyEnabled := None;
            headers := Some (customHeaders st) |})
  else (st, failed (u "未知操作")).

End BackgroundV2.

(** ** Debounced and throttled functions

    A timer is modelled by its callback being pending; the event loop
    is the order in which calls and due timers are run.  A cleared
    timer never runs. *)
Module Timing.

Inductive Event (A : Type) :=
| Call (args : A)
| Fire.

Arguments Call {A} args.
Arguments Fire {A}.

(** The closure of the content script's [debounce]: [timeout] is the
    pending timer, with the arguments its [later] callback holds
    ([None] for [null]), [invoked] the calls of [func] so far. *)
Record Debounced (A : Type) := {
  timeout : option A;
  invoked : list A
}.

Arguments timeout {A} d.
Arguments invoked {A} d.

Definition executedFunction {A} (immediate : bool) (args : A)
  (st : Debounced A) : Debounced A :=
  let callNow :=
    immediate && match timeout st with Some _ => false | None => true end in
  let st := {| timeout := Some args; invoked := invoked st |} in
  if callNow
  then {| timeout := timeout st; invoked := invoked st ++ [args] |}
  else st.

(** The timer callback [later]. *)
Definition later {A} (immediate : bool) (st : Debounced A) : Debounced A :=
  match timeout st with
  | Some args =>
      {| timeout := None;
         invoked := if immediate then invoked st else invoked st ++ [args] |}
  | None => st
  end.

Definition debounce {A} (immediate : bool) (events : list (Event A))
  (st : Debounced A) : Debounced A :=
  fold_left (fun st e =>
               match e with
               | Call args => executedFunction immediate args st
               | Fire => later immediate st
               end) events st.

(** [debounce] of the utilities: the pending timer and the calls of
    [func] so far. *)
Record Delayed (A : Type) := {
  pending : option A;
  delivered : list A
}.

Arguments pending {A} d.
Arguments delivered {A} d.

Definition utilsDebounce {A} (events : list (Event A)) (st : Delayed A)
  : Delayed A :=
  fold_left (fun st e =>
               match e with
               | Call args =>
                   {| pending := Some args; delivered := delivered st |}
               | Fire =>
                   match pending st with
                   | Some args =>
                       {| pending := None;
                          delivered := delivered st ++ [args] |}
                   | None => st
                   end
               end) events st.

(** [throttle] of the utilities: the flag and the calls of [func] so
    far; [Fire] is the timer that lowers the flag. *)
Record Throttled (A : Type) := {
  inThrottle : bool;
  passed : list A
}.

Arguments inThrottle {A} t.
Arguments passed {A} t.

Definition throttle {A} (events : list (Event A)) (st : Throttled A)
  : Throttled A :=
  fold_left (fun st e =>
               match e with
               | Call args =>
                   if negb (inThrottle st)
                   then {| inThrottle := true; passed := passed st ++ [args] |}
                   else st
               | Fire => {| inThrottle := false; passed := passed st |}
               end) events st.

End Timing.

(** ** The mutation observer of the enhanced content script *)
Module Monitor.

(** An element as the observer callback reads it.  [className] is
    [None] when the property is not a string (as on SVG elements),
    so that calling [includes] on it throws. *)
Record Element := {
  tagName : jsstring;
  elementId : jsstring;
  className : option jsstring;
  classList : list jsstring;
  (* getAttribute('role'), None for null *)
  role : option jsstring;
  (* the tag names of the descendant elements *)
  descendants : list jsstring;
  (* an ancestor of the element is a table *)
  tableAncestor : bool
}.

Inductive Node :=
| ElementNode (element : Element)
| OtherNode.

Inductive MutationRecord :=
| Attributes (attributeName : jsstring) (target : Element)
| ChildList (addedNodes removedNodes : list Node)
| CharacterData.

Inductive Scheduled :=
| Nothing
| ImmediateTableDetection
| DebouncedUpdateTables.

(** [element.querySelector(tags) !== null] *)
Definition querySelector (tags : list jsstring) (element : Element) : bool :=
  existsb (fun d => existsb (eqb d) tags) (descendants element).

(** [element.closest('table') !== null] *)
Definition closestTable (element : Element) : bool :=
  eqb (tagName element) (u "TABLE") || tableAncestor element.

(** The tests of [hasTableChanges] that come before the ones on
    [className]. *)
Definition earlierTests (element : Element) : bool :=
  eqb (tagName element) (u "TABLE")
  || eqb (tagName element) (u "TR")
  || eqb (tagName element) (u "TD")
  || eqb (tagName element) (u "TH")
  || querySelector [u "TABLE"; u "TR"; u "TD"; u "TH"] element
  || closestTable element
  || eqb (tagName element) (u "IFRAME")
  || bool_decide (u "table" ∈ classList element)
  || includes (elementId element) (u "table")
  || includes (elementId element) (u "grid").

(** The test of [hasTableChanges] on one node; [None] is a throw. *)
Definition tableRelated (node : Node) : option bool :=
  match node with
  | OtherNode => Some false
  | ElementNode element =>
      if earlierTests element then Some true
      else
        match className element with
        | None => None
        | Some className =>
            Some (includes className (u "grid")
                  || includes className (u "table")
                  || bool_decide (role element = Some (u "grid"))
                  || bool_decide (role element = Some (u "table")))
        end
  end.

(** [nodes.some(test)], with a throwing test. *)
Fixpoint some {A} (test : A -> option bool) (nodes : list A) : option bool :=
  match nodes with
  | [] => Some false
  | node :: nodes' =>
      match test node with
      | None => None
      | Some true => Some true
      | Some false => some test nodes'
      end
  end.

(** The test for a significant change on an added node. *)
Definition significant (node : Node) : bool :=
  match node with
  | OtherNode => false
  | ElementNode element =>
      eqb (tagName element) (u "TABLE")
      || eqb (tagName element) (u "IFRAME")
      || querySelector [u "TABLE"] element
  end.

(** The loop over the mutation records: the two flags after it, or
    [None] when a test threw. *)
Fixpoint scan (mutationsList : list MutationRecord)
  (shouldUpdate hasSignificantChange : bool) : option (bool * bool) :=
  match mutationsList with
  | [] => Some (shouldUpdate, hasSignificantChange)
  | mutation :: rest =>
      match mutation with
      | Attributes attributeName target =>
          if (eqb attributeName (u "style")
              || eqb attributeName (u "class")
              || eqb attributeName (u "hidden"))
             && (eqb (tagName target) (u "TABLE") || closestTable target)
          then scan rest true hasSignificantChange
          else scan rest shouldUpdate hasSignificantChange
      | ChildList addedNodes removedNodes =>
          match some tableRelated (addedNodes ++ removedNodes) with
          | None => None
          | Some true =>
              scan rest true
                (if existsb significant addedNodes then true
                 else hasSignificantChange)
          | Some false => scan rest shouldUpdate hasSignificantChange
          end
      | CharacterData => scan rest shouldUpdate hasSignificantChange
      end
  end.

(** The observer callback: what it schedules, or [None] when it
    throws before scheduling anything. *)
Definition callback (mutationsList : list MutationRecord)
  : option Scheduled :=
  match scan mutationsList false false with
  | None => None
  | Some (shouldUpdate, hasSignificantChange) =>
      Some (if shouldUpdate then
              if hasSignificantChange then ImmediateTableDetection
              else DebouncedUpdateTables
            else Nothing)
  end.

End Monitor.

(** ** The popup

    The handlers of the popup components, as functions of the
    component state at the render they were created in.  A reply is
    what the promise of the [sendMessage] hook settles with: the hook
    rejects with [Error] objects only. *)
Module Popup.

Inductive Reply :=
| Reject (message : jsstring)
| Resolve (response : ChromeResponse).

(** What [chrome.tabs.sendMessage] hands to its callback. *)
Inductive Delivery :=
| LastError (message : jsstring)
| Delivered (response : option ChromeResponse).

(** [useChromeAPI().sendMessage], for the active tab if there is one. *)
Definition sendMessage (activeTab : option Delivery) : Reply :=
  match activeTab with
  | None => Reject (u "无法连接到页面。请刷新页面后重试。")
  | Some (LastError message) => Reject message
  | Some (Delivered response) => Resolve (default noFields response)
  end.

(** [response.error] as a condition. *)
Definition errorOf (response : ChromeResponse) : option jsstring :=
  match error response with
  | Some e => if truthy e then Some e else None
  | None => None
  end.

(** *** The request header panel *)
Module RequestHeaders.

Definition DEFAULT_HEADERS : list RequestHeader :=
  [ {| header_id := u "1"; name := u "X-Forwarded-For";
       value := u "1.1.1.1"; enabled := false |};
    {| header_id := u "2"; name := u "User-Agent";
       value := u "Mozilla/5.0 (Windows NT 10.0; Win64; x64) AppleWebKit/537.36";
       enabled := false |};
    {| header_id := u "3"; name := u "Accept";
       value := u "text/html,application/xhtml+xml,application/xml;q=0.9,*/*;q=0.8";
       enabled := false |};
    {| header_id := u "4"; name := u "Accept-Language";
       value := u "zh-CN,zh;q=0.9,en;q=0.8"; enabled := false |};
    {| header_id := u "5"; name := u "Accept-Encoding";
       value := u "gzip, deflate, br"; enabled := false |} ].

(** The item under the storage key: absent or empty, not JSON, JSON
    that is not an array, or the array of headers written before. *)
Inductive Item :=
| Missing
| Unparsable
| NotAnArray
| Stored (saved : list RequestHeader).

(** [localStorage]: the item, and whether [setItem] succeeds. *)
Record LocalStorage := {
  item : Item;
  writable : bool
}.

Definition loadHeadersFromStorage (storage : LocalStorage)
  : list RequestHeader :=
  match item storage with
  | Stored saved => saved
  | Missing | Unparsable | NotAnArray => DEFAULT_HEADERS
  end.

Definition saveHeadersToStorage (newHeaders : list RequestHeader)
  (storage : LocalStorage) : LocalStorage :=
  if writable storage
  then {| item := Stored newHeaders; writable := writable storage |}
  else storage.

Record Panel := {
  headers : list RequestHeader;
  editingId : option jsstring;
  newHeader : jsstring * jsstring;
  editingValues : jsstring * jsstring;
  message : jsstring;
  isLoading : bool;
  localStorage : LocalStorage;
  posted : list ChromeRequest
}.

Definition setHeaders (v : list RequestHeader) (st : Panel) : Panel :=
  {| headers := v; editingId := editingId st; newHeader := newHeader st;
     editingValues := editingValues st; message := message st;
     isLoading := isLoading st; localStorage := localStorage st;
     posted := posted st |}.

Definition setEditingId (v : option jsstring) (st : Panel) : Panel :=
  {| headers := headers st; editingId := v; newHeader := newHeader st;
     editingValues := editingValues st; message := message st;
     isLoading := isLoading st; localStorage := localStorage st;
     posted := posted st |}.

Definition setNewHeader (v : jsstring * jsstring) (st : Panel) : Panel :=
  {| headers := headers st; editingId := editingId st; newHeader := v;
     editingValues := editingValues st; message := message st;
     isLoading := isLoading st; localStorage := localStorage st;
     posted := posted st |}.

Definition setEditingValues (v : jsstring * jsstring) (st : Panel) : Panel :=
  {| headers := headers st; editingId := editingId st;
     newHeader := newHeader st; editingValues := v; message := message st;
     isLoading := isLoading st; localStorage := localStorage st;
     posted := posted st |}.

Definition setMessage (v : jsstring) (st : Panel) : Panel :=
  {| headers := headers st; editingId := editingId st;
     newHeader := newHeader st; editingValues := editingValues st;
     message := v; isLoading := isLoading st;
     localStorage := localStorage st; posted := posted st |}.

Definition setIsLoading (v : bool) (st : Panel) : Panel :=
  {| headers := headers st; editingId := editingId st;
     newHeader := newHeader st; editingValues := editingValues st;
     message := message st; isLoading := v;
     localStorage := localStorage st; posted := posted st |}.

Definition setLocalStorage (v : LocalStorage) (st : Panel) : Panel :=
  {| headers := headers st; editingId := editingId st;
     newHeader := newHeader st; editingValues := editingValues st;
     message := message st; isLoading := isLoading st;
     localStorage := v; posted := posted st |}.

Definition post (request : ChromeRequest) (st : Panel) : Panel :=
  {| headers := headers st; editingId := editingId st;
     newHeader := newHeader st; editingValues := editingValues st;
     message := message st; isLoading := isLoading st;
     localStorage := localStorage st; posted := posted st ++ [request] |}.

(** The mount effect. *)
Definition mount (st : Panel) : Panel :=
  setHeaders (loadHeadersFromStorage (localStorage st)) st.

Definition updateHeaders (newHeaders : list RequestHeader) (st : Panel)
  : Panel :=
  setLocalStorage (saveHeadersToStorage newHeaders (localStorage st))
    (setHeaders newHeaders st).

(** [generatedId] is the value of [generateId()]. *)
Definition addHeader (generatedId : jsstring) (st : Panel) : Panel :=
  if negb (truthy (trim (fst (newHeader st))))
     || negb (truthy (trim (snd (newHeader st))))
  then setMessage (u "请求头名称和值不能为空") st
  else
    let header :=
      {| header_id := generatedId;
         name := trim (fst (newHeader st));
         value := trim (snd (newHeader st));
         enabled := true |} in
    setMessage (u "请求头已添加")
      (setNewHeader ([], [])
         (updateHeaders (headers st ++ [header]) st)).

Definition deleteHeader (id : jsstring) (st : Panel) : Panel :=
  setMessage (u "请求头已删除")
    (updateHeaders
       (List.filter (fun h => negb (eqb (header_id h) id)) (headers st)) st).

Definition toggleHeader (id : jsstring) (st : Panel) : Panel :=
  updateHeaders
    (map (fun h =>
            if eqb (header_id h) id
            then {| header_id := header_id h; name := name h;
                    value := value h; enabled := negb (enabled h) |}
            else h) (headers st)) st.

Definition startEdit (header : RequestHeader) (st : Panel) : Panel :=
  setEditingValues (name header, value header)
    (setEditingId (Some (header_id header)) st).

Definition saveEdit (id newName newValue : jsstring) (st : Panel) : Panel :=
  if negb (truthy (trim newName)) || negb (truthy (trim newValue))
  then setMessage (u "请求头名称和值不能为空") st
  else
    setMessage (u "请求头已更新")
      (setEditingValues ([], [])
         (setEditingId None
            (updateHeaders
               (map (fun h =>
                       if eqb (header_id h) id
                       then {| header_id := header_id h;
                               name := trim newName;
                               value := trim newValue;
                               enabled := enabled h |}
                       else h) (headers st)) st))).

Definition cancelEdit (st : Panel) : Panel :=
  setEditingValues ([], []) (setEditingId None st).

(** The message of [sendMessage(action, data)]. *)
Definition message_of (act : jsstring)
  (data : option (list RequestHeader)) : ChromeRequest :=
  {| action := act; tableId := None; selectedIds := None;
     req_headers := data; req_tables := None |}.

Definition applyHeaders (send : ChromeRequest -> Reply) (st : Panel)
  : Panel :=
  let st := setIsLoading true st in
  let enabledHeaders := List.filter enabled (headers st) in
  if (length enabledHeaders =? 0)%nat
  then setIsLoading false (setMessage (u "请至少启用一个请求头") st)
  else
    let request := message_of (u "applyHeaders") (Some enabledHeaders) in
    let st := post request st in
    setIsLoading false
      match send request with
      | Resolve response =>
          match errorOf response with
          | Some e => setMessage (u "应用请求头失败: " ++ e) st
          | None =>
              setMessage
                (u "已应用 " ++ ofNat (length enabledHeaders)
                   ++ u " 个请求头") st
          end
      | Reject e => setMessage (u "操作失败: " ++ e) st
      end.

Definition clearHeaders (send : ChromeRequest -> Reply) (st : Panel)
  : Panel :=
  let st := setIsLoading true st in
  let clearedHeaders :=
    map (fun header =>
           {| header_id := header_id header; name := name header;
              value := value header; enabled := false |}) (headers st) in
  let st := updateHeaders clearedHeaders st in
  let request := message_of (u "clearHeaders") None in
  let st := post request st in
  setIsLoading false
    match send request with
    | Resolve response =>
        match errorOf response with
        | Some e => setMessage (u "清除请求头失败: " ++ e) st
        | None => setMessage (u "已清除所有自定义请求头") st
        end
    | Reject e => setMessage (u "操作失败: " ++ e) st
    end.

(** The events of the panel. *)
Inductive Action :=
| AddHeader (generatedId : jsstring)
| TypeNewHeader (newName newValue : jsstring)
| DeleteHeader (id : jsstring)
| ToggleHeader (id : jsstring)
| StartEdit (header : RequestHeader)
| TypeEdit (newName newValue : jsstring)
| SaveEdit (id : jsstring)
| CancelEdit
| ApplyHeaders (send : ChromeRequest -> Reply)
| ClearHeaders (send : ChromeRequest -> Reply).

Definition handle (a : Action) (st : Panel) : Panel :=
  match a with
  | AddHeader generatedId => addHeader generatedId st
  | TypeNewHeader newName newValue => setNewHeader (newName, newValue) st
  | DeleteHeader id => deleteHeader id st
  | ToggleHeader id => toggleHeader id st
  | StartEdit header => startEdit header st
  | TypeEdit newName newValue => setEditingValues (newName, newValue) st
  | SaveEdit id =>
      saveEdit id (fst (editingValues st)) (snd (editingValues st)) st
  | CancelEdit => cancelEdit st
  | ApplyHeaders send => applyHeaders send st
  | ClearHeaders send => clearHeaders send st
  end.

End RequestHeaders.

(** *** The table panel *)
Module TableTools.

Definition answeredTables (response : ChromeResponse)
  : option (list TableInfo) := tables response.

(** [selectedTables] is a [Set] of table ids: its members in the
    order of insertion. *)
Record Panel := {
  tables : list TableInfo;
  selectedTables : list nat;
  message : jsstring;
  isLoading : bool;
  posted : list ChromeRequest
}.

Definition setTables (v : list TableInfo) (st : Panel) : Panel :=
  {| tables := v; selectedTables := selectedTables st;
     message := message st; isLoading := isLoading st;
     posted := posted st |}.

Definition setSelectedTables (v : list nat) (st : Panel) : Panel :=
  {| tables := tables st; selectedTables := v; message := message st;
     isLoading := isLoading st; posted := posted st |}.

Definition setMessage (v : jsstring) (st : Panel) : Panel :=
  {| tables := tables st; selectedTables := selectedTables st;
     message := v; isLoading := isLoading st; posted := posted st |}.

Definition setIsLoading (v : bool) (st : Panel) : Panel :=
  {| tables := tables st; selectedTables := selectedTables st;
     message := message st; isLoading := v; posted := posted st |}.

Definition post (request : ChromeRequest) (st : Panel) : Panel :=
  {| tables := tables st; selectedTables := selectedTables st;
     message := message st; isLoading := isLoading st;
     posted := posted st ++ [request] |}.

(** The message of [sendMessage(action, data)]. *)
Definition message_of (act : jsstring) (id : option Z)
  (ids : option (list Z)) : ChromeRequest :=
  {| action := act; tableId := id; selectedIds := ids;
     req_headers := None; req_tables := None |}.

Definition findTables (send : ChromeRequest -> Reply) (st : Panel)
  : Panel :=
  let st := setIsLoading true st in
  let st := setTables [] st in
  let st := setSelectedTables [] st in
  let st := setMessage (u "正在连接到页面...") st in
  let ping := message_of (u "ping") None None in
  let st := post ping st in
  let failure e st :=
    setMessage (u "操作失败: " ++ e ++ u " 请刷新页面后重试。") st in
  setIsLoading false
    match send ping with
    | Reject e => failure e st
    | Resolve _ =>
        let st := setMessage (u "连接成功，正在查找表格...") st in
        let request := message_of (u "findTables") None None in
        let st := post request st in
        match send request with
        | Reject e => failure e st
        | Resolve response =>
            match answeredTables response with
            | Some found =>
                setMessage
                  (if (0 <? length found)%nat
                   then u "找到了 " ++ ofNat (length found) ++ u " 个表格!"
                   else u "当前页面未找到表格。")
                  (setTables found st)
            | None => st
            end
        end
    end.

Definition highlightTable (send : ChromeRequest -> Reply) (id : nat)
  (st : Panel) : Panel :=
  post (message_of (u "highlightTable") (Some (Z.of_nat id)) None) st.

(** The message shown for the reply to a copy request. *)
Definition copyReport (done : jsstring) (reply : Reply) : jsstring :=
  match reply with
  | Resolve response =>
      match errorOf response with
      | Some e => u "复制失败: " ++ e
      | None =>
          if default false (success response) then done else u "复制失败。"
      end
  | Reject e => u "复制失败: " ++ e
  end.

Definition copySingleTable (send : ChromeRequest -> Reply) (id : nat)
  (st : Panel) : Panel :=
  let st := setIsLoading true st in
  let st := setMessage (u "正在复制表格 " ++ ofNat (id + 1) ++ u "...") st in
  let request :=
    message_of (u "copySingleTable") (Some (Z.of_nat id)) None in
  let st := post request st in
  setIsLoading false
    (setMessage
       (copyReport (u "表格 " ++ ofNat (id + 1) ++ u " 已复制到剪贴板！")
          (send request)) st).

Definition copySelectedTables (send : ChromeRequest -> Reply) (st : Panel)
  : Panel :=
  if (length (selectedTables st) =? 0)%nat
  then setMessage (u "请先选择要复制的表格") st
  else
    let size := length (selectedTables st) in
    let st := setIsLoading true st in
    let st :=
      setMessage (u "正在复制选中的 " ++ ofNat size ++ u " 个表格...") st in
    let request :=
      message_of (u "copySelectedTables") None
        (Some (map Z.of_nat (selectedTables st))) in
    let st := post request st in
    setIsLoading false
      (setMessage
         (copyReport (u "已复制 " ++ ofNat size ++ u " 个表格到剪贴板！")
            (send request)) st).

Definition copyTables (send : ChromeRequest -> Reply) (st : Panel)
  : Panel :=
  if (length (tables st) =? 0)%nat
  then setMessage (u "没有可复制的表格") st
  else
    let st := setIsLoading true st in
    let st := setMessage (u "正在复制表格...") st in
    let request := message_of (u "copyTables") None None in
    let st := post request st in
    setIsLoading false
      (setMessage (copyReport (u "表格已复制到剪贴板！") (send request)) st).

Definition toggleTableSelection (id : nat) (st : Panel) : Panel :=
  setSelectedTables
    (if bool_decide (id ∈ selectedTables st)
     then List.filter (fun x => negb (Nat.eqb x id)) (selectedTables st)
     else selectedTables st ++ [id]) st.

Definition selectAllTables (st : Panel) : Panel :=
  setSelectedTables (seq 0 (length (tables st))) st.

Definition clearSelection (st : Panel) : Panel :=
  setSelectedTables [] st.

Definition formatTablePreview (preview : jsstring) : jsstring :=
  if negb (truthy preview) then u "无预览内容"
  else if (100 <? length preview)%nat
       then substring0 100 preview ++ u "..."
       else preview.

(** The preview text of a list entry. *)
Definition shownPreview (table : TableInfo) : jsstring :=
  formatTablePreview (or_else (info_preview table) (u "无法获取表格内容")).

(** The events of the panel. *)
Inductive Action :=
| FindTables (send : ChromeRequest -> Reply)
| HighlightTable (send : ChromeRequest -> Reply) (id : nat)
| CopySingleTable (send : ChromeRequest -> Reply) (id : nat)
| CopySelectedTables (send : ChromeRequest -> Reply)
| CopyTables (send : ChromeRequest -> Reply)
| ToggleTableSelection (id : nat)
| SelectAllTables
| ClearSelection.

Definition handle (a : Action) (st : Panel) : Panel :=
  match a with
  | FindTables send => findTables send st
  | HighlightTable send id => highlightTable send id st
  | CopySingleTable send id => copySingleTable send id st
  | CopySelectedTables send => copySelectedTables send st
  | CopyTables send => copyTables send st
  | ToggleTableSelection id => toggleTableSelection id st
  | SelectAllTables => selectAllTables st
  | ClearSelection => clearSelection st
  end.

End TableTools.

End Popup.

(** ** Sample pages *)
Module Sample.

Local Open Scope string_scope.

Definition cell (text : string) : Cell :=
  {| textContent := u text; innerHTML := u text; controls := 0 |}.

Definition noInline : InlineStyle :=
  {| outline := []; outlineOffset := []; backgroundColor := [] |}.

(** A visible 300 by 40 table with the given rows of cell texts. *)
Definition table (texts : list (list string)) (inDatepicker : bool)
  (html : string) : Table :=
  {| tagName := u "TABLE"; elem_id := []; className := [];
     rows := (fun r => {| cells := cell <$> r |}) <$> texts;
     childElements := 1;
     computedStyle :=
       Some {| display := u "table"; visibility := u "visible" |};
     boundingClientRect := {| width := 300; height := 40 |};
     closestDatepicker := inDatepicker;
     inlineStyle := noInline;
     markup := fun _ => u html |}.

(** [<table><tr></tr><tr><td>x</td></tr></table>]: an empty first row
    above a row with text. *)
Definition spacerTable : Table :=
  table [[]; ["x"]] false "<table><tr></tr><tr><td>x</td></tr></table>".

(** A calendar grid inside a [.ui-datepicker] widget. *)
Definition calendarTable : Table :=
  table [["Mo"; "Tu"]; ["1"; "2"]] true
        "<table><tr><td>Mo</td><td>Tu</td></tr><tr><td>1</td><td>2</td></tr></table>".

Definition dataTable : Table :=
  table [["a"; "b"]] false "<table><tr><td>a</td><td>b</td></tr></table>".

Definition pageWith (t : Table) : Document :=
  {| elements := {[ 1%N := t ]}; mainTables := [1%N]; iframes := [];
     potentialContainers := []; scrolledTo := None |}.

(** A platform without the clipboard API whose legacy copy command
    reports failure. *)
Definition refusingClipboard : Clipboard :=
  {| navigatorClipboard := false; isSecureContext := false;
     writeTextResolves := false; execCommandCopy := inr false |}.

Definition emptyBody : Body :=
  {| children := []; domLog := []; clipboard := None |}.

Definition noStyles : Styles :=
  {| cssRules := ∅; styleSheets := []; styleElements := [];
     listeners := [] |}.

(** The enhanced script on a page with the one table [t], already
    found. *)
Definition enhancedOn (t : Table) : Enhanced.State :=
  {| Enhanced.doc := pageWith t; Enhanced.body := emptyBody;
     Enhanced.styles := noStyles; Enhanced.foundTables := [1%N];
     Enhanced.lastTableCount := 0; Enhanced.detectionAttempts := 0;
     Enhanced.copyProtectionDisabled := false;
     Enhanced.backgroundReady := false; Enhanced.sent := [];
     Enhanced.waits := []; Enhanced.timeouts := [] |}.

(** The basic script on a page with the one table [t], already found. *)
Definition basicOn (t : Table) : Basic.State :=
  {| Basic.doc := pageWith t; Basic.body := emptyBody;
     Basic.styles := noStyles; Basic.foundTables := [1%N];
     Basic.previouslyHighlighted := None;
     Basic.copyProtectionDisabled := false; Basic.originalStyles := [];
     Basic.customHeaders := []; Basic.sent := [] |}.

Definition emptyPage : Document :=
  {| elements := ∅; mainTables := []; iframes := [];
     potentialContainers := []; scrolledTo := None |}.

(** The enhanced script right after initialisation, on a page without
    tables. *)
Definition enhancedIdle : Enhanced.State :=
  {| Enhanced.doc := emptyPage; Enhanced.body := emptyBody;
     Enhanced.styles := noStyles; Enhanced.foundTables := [];
     Enhanced.lastTableCount := 0; Enhanced.detectionAttempts := 0;
     Enhanced.copyProtectionDisabled := false;
     Enhanced.backgroundReady := false; Enhanced.sent := [];
     Enhanced.waits := []; Enhanced.timeouts := [] |}.


(** A channel on which every send is rejected. *)
Definition deadChannel : Channel :=
  fun _ => Rejected (ErrorObject (u "Could not establish connection"))%string.

Definition forwardedFor : RequestHeader :=
  {| header_id := u "1"; name := u "X-Forwarded-For"; value := u "1.1.1.1";
     enabled := true |}.

(** A ready background worker holding a stale rule with id 7. *)
Definition readyWorker : BackgroundV2.State :=
  {| BackgroundV2.customHeaders := []; BackgroundV2.isReady := true;
     BackgroundV2.dynamicRules :=
       [{| id := 7; priority := 1;
           rule_action := rule_action (ruleFor 0 forwardedFor);
           condition := condition (ruleFor 0 forwardedFor) |}] |}.

(** A platform whose clipboard API is present and resolves. *)
Definition workingClipboard : Clipboard :=
  {| navigatorClipboard := true; isSecureContext := true;
     writeTextResolves := true; execCommandCopy := inr true |}.

(** [.noselect { user-select: none; }] *)
Definition noselectRule : CSSRule :=
  {| isStyleRule := true; selectorText := u ".noselect";
     style := Some [(u "user-select", u "none")];
     cssText := u ".noselect { user-select: none; }" |}.

(** [.locked::selection { user-select: none; color: red; }] *)
Definition selectionRule : CSSRule :=
  {| isStyleRule := true; selectorText := u ".locked::selection";
     style := Some [(u "user-select", u "none"); (u "color", u "red")];
     cssText := u ".locked::selection { user-select: none; color: red; }" |}.

(** One style sheet with the two rules above. *)
Definition protectedStyles : Styles :=
  {| cssRules := {[ 1%N := noselectRule; 2%N := selectionRule ]};
     styleSheets := [Some [1%N; 2%N]]; styleElements := [];
     listeners := [] |}.

Definition enhancedProtected : Enhanced.State :=
  {| Enhanced.doc := emptyPage; Enhanced.body := emptyBody;
     Enhanced.styles := protectedStyles; Enhanced.foundTables := [];
     Enhanced.lastTableCount := 0; Enhanced.detectionAttempts := 0;
     Enhanced.copyProtectionDisabled := false;
     Enhanced.backgroundReady := false; Enhanced.sent := [];
     Enhanced.waits := []; Enhanced.timeouts := [] |}.

Definition basicProtected : Basic.State :=
  {| Basic.doc := emptyPage; Basic.body := emptyBody;
     Basic.styles := protectedStyles; Basic.foundTables := [];
     Basic.previouslyHighlighted := None;
     Basic.copyProtectionDisabled := false; Basic.originalStyles := [];
     Basic.customHeaders := []; Basic.sent := [] |}.

(** A visible table without rows. *)
Definition emptyTable : Table := table [] false "<table></table>".

(** A platform whose clipboard API is present but rejects the write,
    while the legacy copy command works. *)
Definition rejectingClipboard : Clipboard :=
  {| navigatorClipboard := true; isSecureContext := true;
     writeTextResolves := false; execCommandCopy := inr true |}.

(** A table without rows and without a box, whose computed style
    cannot be read. *)
Definition unreadableTable : Table :=
  {| tagName := u "TABLE"; elem_id := []; className := []; rows := [];
     childElements := 0; computedStyle := None;
     boundingClientRect := {| width := 0; height := 0 |};
     closestDatepicker := false; inlineStyle := noInline;
     markup := fun _ => u "<table></table>" |}.

(** A visible table of six rows of two cells, with text in the last
    row only. *)
Definition lateTextTable : Table :=
  table [[""; ""]; [""; ""]; [""; ""]; [""; ""]; [""; ""]; ["x"; ""]] false
        "<table><tr><td></td><td></td></tr><tr><td></td><td></td></tr><tr><td></td><td></td></tr><tr><td></td><td></td></tr><tr><td></td><td></td></tr><tr><td>x</td><td></td></tr></table>".

(** An inline SVG icon and a table element, as the observer reads
    them. *)
Definition svgIcon : Monitor.Element :=
  {| Monitor.tagName := u "svg"; Monitor.elementId := [];
     Monitor.className := None; Monitor.classList := [u "icon"];
     Monitor.role := None; Monitor.descendants := [u "path"];
     Monitor.tableAncestor := false |}.

Definition addedTable : Monitor.Element :=
  {| Monitor.tagName := u "TABLE"; Monitor.elementId := [];
     Monitor.className := Some []; Monitor.classList := [];
     Monitor.role := None;
     Monitor.descendants := [u "TBODY"; u "TR"; u "TD"];
     Monitor.tableAncestor := false |}.

(** The header panel before its mount effect, over an empty storage
    that accepts writes. *)
Definition headerPanel : Popup.RequestHeaders.Panel :=
  {| Popup.RequestHeaders.headers := [];
     Popup.RequestHeaders.editingId := None;
     Popup.RequestHeaders.newHeader := ([], []);
     Popup.RequestHeaders.editingValues := ([], []);
     Popup.RequestHeaders.message := [];
     Popup.RequestHeaders.isLoading := false;
     Popup.RequestHeaders.localStorage :=
       {| Popup.RequestHeaders.item := Popup.RequestHeaders.Missing;
          Popup.RequestHeaders.writable := true |};
     Popup.RequestHeaders.posted := [] |}.

(** A page that never answers the popup. *)
Definition noPage (request : ChromeRequest) : Popup.Reply :=
  Popup.sendMessage None.

End Sample.

(** ** Notions of the specification *)

(** The visibility check: a computed style that is neither
    [display: none] nor [visibility: hidden]. *)
Definition visible (t : Table) : Prop :=
  exists cs, computedStyle t = Some cs
             /\ display cs <> u "none" /\ visibility cs <> u "hidden".

(** The minimum bounding box: at least 10 wide and 5 high. *)
Definition largeEnough (t : Table) : Prop :=
  (10 <= width (boundingClientRect t))%Q
  /\ (5 <= height (boundingClientRect t))%Q.

(** The number of tables a relaxed scan of the current page yields. *)
Definition scanCount (st : Enhanced.State) : nat :=
  length (snd (Enhanced.findTables (Enhanced.doc st) true)).


(** Everything but the messaging bookkeeping is the same in [st] and
    [st']. *)
Definition sameButMessaging (st st' : Enhanced.State) : Prop :=
  Enhanced.doc st' = Enhanced.doc st
  /\ Enhanced.body st' = Enhanced.body st
  /\ Enhanced.styles st' = Enhanced.styles st
  /\ Enhanced.foundTables st' = Enhanced.foundTables st
  /\ Enhanced.lastTableCount st' = Enhanced.lastTableCount st
  /\ Enhanced.detectionAttempts st' = Enhanced.detectionAttempts st
  /\ Enhanced.copyProtectionDisabled st' = Enhanced.copyProtectionDisabled st
  /\ Enhanced.timeouts st' = Enhanced.timeouts st.

(** The [applyHeaders] message carrying the given headers. *)
Definition applyRequest (hs : list RequestHeader) : ChromeRequest :=
  {| action := u "applyHeaders"; tableId := None; selectedIds := None;
     req_headers := Some hs; req_tables := None |}.

(** The label of the entry with the given number, counted from 1. *)
Definition indexLabel (number : nat) : jsstring :=
  u "=== 表格 " ++ ofNat number ++ u " ===".

(** The payload in the words of the specification: the markup of
    every table, each prefixed with its index label (on a line of its
    own) and closed by a line feed, the entries separated by a line
    feed. *)
Fixpoint labelledPayload (number : nat) (tables : list Table) : jsstring :=
  match tables with
  | [] => []
  | [t] => indexLabel number ++ LF ++ outerHTML t ++ LF
  | t :: rest =>
      indexLabel number ++ LF ++ outerHTML t ++ LF ++ LF
      ++ labelledPayload (S number) rest
  end.

(** The markup of every table, the entries separated by an empty
    line, without labels. *)
Fixpoint barePayload (tables : list Table) : jsstring :=
  match tables with
  | [] => []
  | [t] => outerHTML t
  | t :: rest => outerHTML t ++ LF ++ LF ++ barePayload rest
  end.

(** The references [refs] denote the table elements [tables]. *)
Definition denote (d : Document) (refs : list N) (tables : list Table)
  : Prop :=
  Forall2 (fun r t => elements d !! r = Some t) refs tables.

(** The clipboard write goes through: the clipboard API is used and
    resolves, or the legacy copy command returns true. *)
Definition clipboardAccepts (supported : bool) (cb : Clipboard) : bool :=
  (supported && writeTextResolves cb)
  || match execCommandCopy cb with
     | inr true => true
     | _ => false
     end.

(** The [highlightTable] message, with or without a table id. *)
Definition highlightRequest (tableId : option Z) : ChromeRequest :=
  {| action := u "highlightTable"; tableId := tableId; selectedIds := None;
     req_headers := None; req_tables := None |}.

(** The ids of a selection that lie within [n] candidates. *)
Definition validIds (n : nat) (ids : list Z) : list Z :=
  List.filter (fun id => (0 <=? id)%Z && (id <? Z.of_nat n)%Z) ids.

(** Every candidate reference denotes a table element. *)
Definition candidatesResolve (d : Document) (refs : list N) : Prop :=
  forall t, t ∈ refs -> is_Some (elements d !! t).

(** The rule objects of the readable style sheets, sheet by sheet. *)
Definition ruleObjects (s : Styles) : list N :=
  concat (omap (fun sheet => sheet) (styleSheets s)).

(** A style element that holds the override injected by the enhanced
    script, by its content signature. *)
Definition hasTextOverride (text : jsstring) : bool :=
  includes text (u "user-select: text !important").

(** A style element that holds the override injected by the basic
    script, by its content signature. *)
Definition hasAutoOverride (text : jsstring) : bool :=
  truthy text && includes text (u "user-select: auto").

(** The tables a scan can reach: those of the main document, of a
    readable iframe, or below a grid container. *)
Definition reachable (d : Document) (t : N) : Prop :=
  t ∈ mainTables d
  \/ (exists frame, Some frame ∈ iframes d /\ t ∈ frame)
  \/ (exists container, container ∈ potentialContainers d /\ t ∈ container).

(** The accumulator of the table walk is consistent: no table twice,
    and the set of processed tables is the set of those pushed. *)
Definition consistent (acc : list N * gset N) : Prop :=
  NoDup (fst acc) /\ forall t, t ∈ snd acc <-> t ∈ fst acc.

(** No scanned cell of the table, that is none of the first 10 cells
    of its first 5 rows, holds text or markup besides white space. *)
Definition blankWindow (t : Table) : Prop :=
  forall row, row ∈ take 5 (rows t) ->
  forall cell, cell ∈ take 10 (cells row) ->
    trim (textContent cell) = [] /\ trim (innerHTML cell) = [].

(** The descriptor of the table at position [index] of the
    candidates. *)
Definition descriptor (index : nat) (table : Table) : TableInfo :=
  {| info_id := index;
     info_rows := length (rows table);
     info_cols := Enhanced.firstRowCells table;
     info_preview := Enhanced.getTablePreview table |}.

(** The table carries no highlight of the enhanced script. *)
Definition unmarked (table : Table) : Prop :=
  outline (inlineStyle table) = []
  /\ backgroundColor (inlineStyle table) = [].

(** The table carries the highlight of the enhanced script. *)
Definition marked (table : Table) : Prop :=
  outline (inlineStyle table) = u "3px solid #ff6b6b"
  /\ backgroundColor (inlineStyle table) = u "rgba(255, 107, 107, 0.1)".

(** In the basic script, a table with an outline is the one recorded
    as highlighted. *)
Definition tracked (st : Basic.State) : Prop :=
  forall t table,
    elements (Basic.doc st) !! t = Some table ->
    outline (inlineStyle table) <> [] ->
    Basic.previouslyHighlighted st = Some t.

(** The wait before attempt [j + 1] of a retried send. *)
Definition backoff (j : nat) : nat := 1000 * 2 ^ j.

(** The rule object is a rule that blocks selection. *)
Definition blocking (rules : gmap N CSSRule) (r : N) : Prop :=
  exists cssRule,
    rules !! r = Some cssRule /\ Enhanced.blocksSelection cssRule = true.

(** A message with the given action and no payload. *)
Definition bare (act : jsstring) : ChromeRequest :=
  {| action := act; tableId := None; selectedIds := None;
     req_headers := None; req_tables := None |}.

(** One disable and enable cycle of the basic script. *)
Definition protectionCycle (st : Basic.State) : Basic.State :=
  fst (Basic.toggleCopyProtection (fst (Basic.toggleCopyProtection st))).

(** The [getHeaders], [clearHeaders] and [ping] messages. *)
Definition getRequest : ChromeRequest := bare (u "getHeaders").
Definition clearRequest : ChromeRequest := bare (u "clearHeaders").
Definition pingRequest : ChromeRequest := bare (u "ping").

(** The stored configuration is the list the header panel shows. *)
Definition synced (st : Popup.RequestHeaders.Panel) : Prop :=
  Popup.RequestHeaders.loadHeadersFromStorage
    (Popup.RequestHeaders.localStorage st)
  = Popup.RequestHeaders.headers st.

(** The panel after the given events, in order. *)
Definition after (actions : list Popup.RequestHeaders.Action)
  (st : Popup.RequestHeaders.Panel) : Popup.RequestHeaders.Panel :=
  fold_left (fun st a => Popup.RequestHeaders.handle a st) actions st.

(** The header without its checkbox. *)
Definition entry (h : RequestHeader) : jsstring * jsstring * jsstring :=
  (header_id h, name h, value h).

(** A header whose name and value are not empty and carry no leading
    or trailing white space. *)
Definition clean (h : RequestHeader) : bool :=
  truthy (name h) && eqb (trim (name h)) (name h)
  && truthy (value h) && eqb (trim (value h)) (value h).

(** The header with its checkbox cleared. *)
Definition disabled (h : RequestHeader) : RequestHeader :=
  {| header_id := header_id h; name := name h; value := value h;
     enabled := false |}.

(** * Properties *)

Section Validator.

Import Enhanced.

(** Whenever the first row of a table has a cell, what the standard
    mode accepts the relaxed mode accepts too. *)
Lemma strict_relaxed_first_row (t : Table) :
  0 < firstRowCells t ->
  isValidTable (Some t) false = true -> isValidTable (Some t) true = true.
Proof.
  unfold isValidTable, isValidTable_try. intros Hc.
  destruct (computedStyle t) as [cs|]; [|done].
  destruct (eqb (display cs) (u "none") || eqb (visibility cs) (u "hidden")); [done|].
  destruct (length (rows t) <? 1) eqn:Hr; [done|].
  apply Nat.ltb_ge in Hr.
  replace (1 <=? length (rows t)) with true by (symmetry; apply Nat.leb_le; lia).
  replace (1 <=? firstRowCells t) with true by (symmetry; apply Nat.leb_le; lia).
  cbn [andb negb].
  destruct (scanContent t); cbn [negb];
    repeat match goal with
           | |- context [if ?b then _ else _] => destruct b; try done
           end.
Qed.

(** C1: strict acceptance does not imply relaxed acceptance.  A visible
    table of sufficient size whose first row has no cells and whose
    second row holds text is accepted by [isValidTable] in standard
    mode and rejected in relaxed mode, so on a page holding just this
    table [findTables] returns one descriptor in standard mode and none
    in relaxed mode. *)
Theorem C1_relaxed_rejects_what_strict_accepts :
  isValidTable (Some Sample.spacerTable) false = true
  /\ isValidTable (Some Sample.spacerTable) true = false
  /\ length (snd (findTables (Sample.pageWith Sample.spacerTable) false)) = 1
  /\ length (snd (findTables (Sample.pageWith Sample.spacerTable) true)) = 0.
Proof. vm_compute. done. Qed.

End Validator.

Section Denylist.

Import Enhanced.

Lemma Qltb_false (a b : Q) : (b <= a)%Q -> Qltb a b = false.
Proof.
  intros H. unfold Qltb. apply negb_false_iff. by apply Qle_bool_iff.
Qed.

Lemma eqb_false (a b : jsstring) : a <> b -> eqb a b = false.
Proof. intros H. unfold eqb. by apply bool_decide_eq_false. Qed.

(** C4, as the code has it: the relaxed mode applies no denylist.
    Every table with at least one row and at least one cell in its
    first row that passes the visibility and minimum-size checks is
    accepted in relaxed mode, inside a date-picker widget or not; the
    date-picker exclusion belongs to the standard mode, which rejects
    every table inside such a widget. *)
Theorem C4_denylist_only_in_standard_mode (t : Table) :
  (visible t -> largeEnough t ->
   1 <= length (rows t) -> 1 <= firstRowCells t ->
   isValidTable (Some t) true = true)
  /\ (closestDatepicker t = true -> isValidTable (Some t) false = false).
Proof.
  split.
  - intros (cs & Hcs & Hd & Hv) [Hw Hh] Hr Hc.
    unfold isValidTable, isValidTable_try. rewrite Hcs.
    rewrite (eqb_false _ _ Hd), (eqb_false _ _ Hv). cbn [orb].
    replace (length (rows t) <? 1) with false
      by (symmetry; apply Nat.ltb_ge; lia).
    replace (1 <=? length (rows t)) with true
      by (symmetry; apply Nat.leb_le; lia).
    replace (1 <=? firstRowCells t) with true
      by (symmetry; apply Nat.leb_le; lia).
    cbn [andb negb].
    by rewrite (Qltb_false _ _ Hw), (Qltb_false _ _ Hh).
  - intros Hdp. unfold isValidTable, isValidTable_try. rewrite Hdp.
    destruct (computedStyle t) as [cs|]; [|done].
    cbn [negb andb].
    repeat match goal with
           | |- context [if ?b then _ else _] => destruct b; try done
           end.
Qed.

Lemma C4_denylist_witness :
  isValidTable (Some Sample.calendarTable) true = true
  /\ isValidTable (Some Sample.calendarTable) false = false.
Proof.
  destruct (C4_denylist_only_in_standard_mode Sample.calendarTable)
    as [Hrelaxed Hstrict].
  split.
  - apply Hrelaxed.
    + eexists. split; [reflexivity|]. split; vm_compute; discriminate.
    + split; vm_compute; discriminate.
    + vm_compute. lia.
    + vm_compute. lia.
  - apply Hstrict. reflexivity.
Defined.

(** C4, as stated, fails: a calendar grid inside a date-picker widget
    is accepted in relaxed mode. *)
Lemma C4_datepicker_accepted_in_relaxed_mode :
  closestDatepicker Sample.calendarTable = true
  /\ isValidTable (Some Sample.calendarTable) true = true.
Proof. vm_compute. done. Qed.

End Denylist.

Section InvalidReference.

Lemma outside_range (tableId : Z) (n : nat) :
  (tableId < 0 \/ Z.of_nat n <= tableId)%Z ->
  ((tableId <? 0) || (Z.of_nat n <=? tableId))%Z = true.
Proof.
  intros [H|H]; apply orb_true_iff; [left|right].
  - by apply Z.ltb_lt.
  - by apply Z.leb_le.
Qed.

(** C5: for a table id outside the current candidates (negative, or
    at least their number) the single-table export of either content
    script returns [{ success: false, error }] with a non-empty
    message and leaves the whole page as it was: nothing is created,
    appended or removed, and nothing is thrown. *)
Theorem C5_invalid_id_is_a_structured_error (cb : Clipboard) (tableId : Z) :
  (forall st : Enhanced.State,
     (tableId < 0 \/ Z.of_nat (length (Enhanced.foundTables st)) <= tableId)%Z ->
     let result := Enhanced.copySingleTableToClipboard cb tableId st in
     fst result = st
     /\ domLog (Enhanced.body (fst result)) = domLog (Enhanced.body st)
     /\ children (Enhanced.body (fst result)) = children (Enhanced.body st)
     /\ success (snd result) = Some false
     /\ exists message, error (snd result) = Some message /\ message <> [])
  /\ (forall st : Basic.State,
        (tableId < 0 \/ Z.of_nat (length (Basic.foundTables st)) <= tableId)%Z ->
        let result := Basic.copySingleTableToClipboard cb tableId st in
        fst result = st
        /\ domLog (Basic.body (fst result)) = domLog (Basic.body st)
        /\ children (Basic.body (fst result)) = children (Basic.body st)
        /\ success (snd result) = Some false
        /\ exists message, error (snd result) = Some message /\ message <> []).
Proof.
  split; intros st H; cbv zeta.
  - unfold Enhanced.copySingleTableToClipboard.
    rewrite (outside_range _ _ H). cbn [fst snd].
    repeat split. exists (u "无效的表格ID"). by vm_compute.
  - unfold Basic.copySingleTableToClipboard.
    rewrite (outside_range _ _ H). cbn [fst snd].
    repeat split. exists (u "表格ID无效"). by vm_compute.
Qed.

Lemma C5_invalid_id_witness :
  domLog (Enhanced.body
            (fst (Enhanced.copySingleTableToClipboard
                    Sample.refusingClipboard 1
                    (Sample.enhancedOn Sample.dataTable))))
  = domLog (Enhanced.body (Sample.enhancedOn Sample.dataTable))
  /\ domLog (Basic.body
               (fst (Basic.copySingleTableToClipboard
                       Sample.refusingClipboard (-1)
                       (Sample.basicOn Sample.dataTable))))
     = domLog (Basic.body (Sample.basicOn Sample.dataTable)).
Proof.
  split.
  - apply (proj1 (C5_invalid_id_is_a_structured_error
                    Sample.refusingClipboard 1)
             (Sample.enhancedOn Sample.dataTable)).
    right. simpl. lia.
  - apply (proj2 (C5_invalid_id_is_a_structured_error
                    Sample.refusingClipboard (-1))
             (Sample.basicOn Sample.dataTable)).
    left. lia.
Defined.

End InvalidReference.

Section ChangeMonitor.

Import Enhanced.

Lemma sameButMessaging_trans (a b c : State) :
  sameButMessaging a b -> sameButMessaging b c -> sameButMessaging a c.
Proof.
  unfold sameButMessaging. intros H1 H2. destruct_and!.
  repeat split; congruence.
Qed.

Lemma retryLoop_frame (chan : Channel) (m : Message) (remaining : nat) :
  forall i st, sameButMessaging st (fst (retryLoop chan m i remaining st)).
Proof.
  induction remaining as [|remaining IH]; intros i st; cbn [retryLoop].
  - by repeat split.
  - unfold sendMessage. destruct (chan (length (sent st))) as [e|r].
    + destruct (remaining =? 0); [by repeat split|].
      eapply sameButMessaging_trans; [|apply IH]. by repeat split.
    + by repeat split.
Qed.

Lemma retryLoop_sent (chan : Channel) (m : Message) (remaining : nat) :
  forall i st, exists post,
    sent (fst (retryLoop chan m i (S remaining) st)) = sent st ++ m :: post.
Proof.
  induction remaining as [|remaining IH]; intros i st.
  - cbn [retryLoop]. unfold sendMessage.
    destruct (chan (length (sent st))); exists []; reflexivity.
  - remember (S remaining) as k. cbn [retryLoop]. unfold sendMessage.
    destruct (chan (length (sent st))) as [e|r].
    + subst k. cbn [Nat.eqb].
      destruct (IH (S i) (log_wait (1000 * 2 ^ i) (log_sent m st)))
        as [post Hpost].
      exists (m :: post). rewrite Hpost. cbn [sent log_wait log_sent].
      by rewrite <- app_assoc.
    + exists []. reflexivity.
Qed.

Lemma sendMessageWithRetry_frame (chan : Channel) (m : Message) (n : nat)
  (st : State) :
  sameButMessaging st (fst (sendMessageWithRetry chan m n st)).
Proof.
  unfold sendMessageWithRetry.
  eapply sameButMessaging_trans; [|apply retryLoop_frame].
  destruct (negb (backgroundReady st) && negb (isPing m)); [|by repeat split].
  unfold sendMessage. destruct (chan (length (sent st))); by repeat split.
Qed.


(** The delays of the retry loop: 2000, 3000, 4500 and 6750
    milliseconds after the first four empty scans, 10000 from the
    fifth on. *)
Lemma nextInterval_values :
  (nextInterval 1 == 2000)%Q /\ (nextInterval 2 == 3000)%Q
  /\ (nextInterval 3 == 4500)%Q /\ (nextInterval 4 == 6750)%Q
  /\ Forall (fun n => (nextInterval n == 10000)%Q) (seq 5 10).
Proof. repeat split; repeat constructor. Qed.

(** What a run of [performTableDetection] leaves in the variables of
    the detection loop, whatever the channel does. *)
Lemma performTableDetection_fields (chan : Channel) (st : State) :
  let scan := findTables (doc st) true in
  let count := length (snd scan) in
  let st' := performTableDetection chan st in
  foundTables st' = fst scan
  /\ lastTableCount st'
     = (if negb (count =? lastTableCount st) || (detectionAttempts st =? 0)
        then count else lastTableCount st)
  /\ detectionAttempts st' = S (detectionAttempts st)
  /\ timeouts st'
     = timeouts st
       ++ (if (count =? 0) && (S (detectionAttempts st) <? 15)
           then [nextInterval (S (detectionAttempts st))] else []).
Proof.
  cbv zeta. unfold performTableDetection.
  destruct (findTables (doc st) true) as [found infos]. cbn [fst snd].
  change (lastTableCount (set_foundTables found st))
    with (lastTableCount st).
  change (detectionAttempts (set_foundTables found st))
    with (detectionAttempts st).
  match goal with
  | |- context [set_detectionAttempts _ ?s] => set (st1 := s)
  end.
  assert (foundTables st1 = found
          /\ lastTableCount st1
             = (if negb (length infos =? lastTableCount st)
                   || (detectionAttempts st =? 0)
                then length infos else lastTableCount st)
          /\ detectionAttempts st1 = detectionAttempts st
          /\ timeouts st1 = timeouts st) as (Hf & Hl & Ha & Ht).
  { subst st1. destruct (_ || _); [|done].
    match goal with
    | |- context [sendMessageWithRetry chan ?m ?n ?s] =>
        destruct (sendMessageWithRetry_frame chan m n s)
          as (_ & _ & _ & -> & -> & -> & _ & ->)
    end. done. }
  cbn [detectionAttempts set_detectionAttempts].
  unfold MAX_DETECTION_ATTEMPTS. rewrite Ha.
  destruct ((length infos =? 0) && (S (detectionAttempts st) <? 15));
    cbn [foundTables lastTableCount detectionAttempts timeouts setTimeout
         set_detectionAttempts];
    rewrite ?Hf, ?Hl, ?Ha, ?Ht, ?app_nil_r; done.
Qed.

(** C6: when a scan yields no table, [performTableDetection] counts
    the attempt and, as long as the count (this scan included) is
    below 15, schedules itself again after
    min(2000 * 1.5^(attempts - 1), 10000) milliseconds; from the
    fifteenth attempt on it schedules nothing, so that further scans
    come only from the other triggers. *)
Theorem C6_bounded_backoff (chan : Channel) (st : State) :
  scanCount st = 0 ->
  let st' := performTableDetection chan st in
  let attempts := detectionAttempts st' in
  attempts = S (detectionAttempts st)
  /\ (attempts < 15 ->
      timeouts st'
      = timeouts st
        ++ [Qmin (2000 * (3 # 2) ^ (Z.of_nat attempts - 1)) 10000])
  /\ (15 <= attempts -> timeouts st' = timeouts st).
Proof.
  intros Hzero.
  destruct (performTableDetection_fields chan st) as (_ & _ & Ha & Ht).
  cbv zeta in *. unfold scanCount in Hzero.
  rewrite Hzero in Ht. cbn [Nat.eqb andb] in Ht.
  rewrite Ha, Ht. split; [done|]. split; intros H.
  - by replace (S (detectionAttempts st) <? 15) with true
      by (symmetry; by apply Nat.ltb_lt).
  - replace (S (detectionAttempts st) <? 15) with false
      by (symmetry; by apply Nat.ltb_ge).
    apply app_nil_r.
Qed.

Lemma C6_bounded_backoff_witness :
  Enhanced.timeouts
    (Enhanced.performTableDetection Sample.deadChannel Sample.enhancedIdle)
  = [Qmin (2000 * (3 # 2) ^ (Z.of_nat 1 - 1)) 10000].
Proof.
  destruct (C6_bounded_backoff Sample.deadChannel Sample.enhancedIdle)
    as (Hcount & Hbelow & _).
  - reflexivity.
  - cbv zeta in Hcount, Hbelow. rewrite Hcount in Hbelow.
    apply Hbelow. simpl. lia.
Defined.

(** On a page that never shows a table, with every notification
    lost: fifteen runs in a row leave fourteen scheduled re-scans, and
    a sixteenth run schedules nothing more. *)
Lemma detection_gives_up :
  let st :=
    Nat.iter 15 (performTableDetection Sample.deadChannel)
      Sample.enhancedIdle in
  detectionAttempts st = 15
  /\ length (timeouts st) = 14
  /\ Forall2 Qeq (timeouts st)
       [2000; 3000; 4500; 6750; 10000; 10000; 10000; 10000; 10000; 10000;
        10000; 10000; 10000; 10000]%Q
  /\ timeouts (performTableDetection Sample.deadChannel st) = timeouts st.
Proof.
  vm_compute. split; [done|]. split; [done|].
  split; [repeat constructor|done].
Qed.


(** The state a notifying run is suspended in is a stage of the whole
    run: the candidates and the last known count are those the run
    ends with, the counter of attempts is still the one the run
    started with, and the messages handed over so far begin those of
    the whole run. *)
Lemma suspended_is_a_stage (chan : Channel) (st mid : State) :
  suspendedDetection st = Some mid ->
  foundTables mid = foundTables (performTableDetection chan st)
  /\ lastTableCount mid = lastTableCount (performTableDetection chan st)
  /\ detectionAttempts mid = detectionAttempts st
  /\ exists post,
       sent (performTableDetection chan st) = sent mid ++ post.
Proof.
  intros Hmid.
  destruct (performTableDetection_fields chan st) as (Hf & Hl & _ & _).
  cbv zeta in Hf, Hl. rewrite Hf, Hl. clear Hf Hl.
  unfold suspendedDetection, performTableDetection in *.
  destruct (findTables (doc st) true) as [found infos]. cbn [fst snd].
  change (lastTableCount (set_foundTables found st))
    with (lastTableCount st) in *.
  change (detectionAttempts (set_foundTables found st))
    with (detectionAttempts st) in *.
  destruct (negb (length infos =? lastTableCount st)
            || (detectionAttempts st =? 0)); [|discriminate].
  injection Hmid as <-.
  split; [done|]. split; [done|]. split; [done|].
  match goal with
  | |- context [set_detectionAttempts _ ?s] => set (st1 := s)
  end.
  assert (forall s : State,
             sent (if (length infos =? 0)
                      && (detectionAttempts
                            (set_detectionAttempts (S (detectionAttempts s)) s)
                          <? MAX_DETECTION_ATTEMPTS)
                   then setTimeout
                          (nextInterval
                             (detectionAttempts
                                (set_detectionAttempts
                                   (S (detectionAttempts s)) s)))
                          (set_detectionAttempts (S (detectionAttempts s)) s)
                   else set_detectionAttempts (S (detectionAttempts s)) s)
             = sent s) as ->.
  { intros s. by destruct (_ && _). }
  subst st1. unfold sendMessageWithRetry.
  change (isPing (UpdateTables infos)) with false.
  change (backgroundReady (set_lastTableCount (length infos)
                             (set_foundTables found st)))
    with (backgroundReady st).
  destruct (backgroundReady st); cbn [negb andb].
  - match goal with
    | |- context [retryLoop chan ?m 0 5 ?s] =>
        destruct (retryLoop_sent chan m 4 0 s) as [post ->]
    end.
    exists post. cbn [sent log_sent set_lastTableCount set_foundTables].
    by rewrite <- app_assoc.
  - unfold sendMessage.
    destruct (chan _) as [e|r];
      match goal with
      | |- context [retryLoop chan ?m 0 5 ?s] =>
          destruct (retryLoop_sent chan m 4 0 s) as [post ->]
      end;
      exists (UpdateTables infos :: post);
      cbn [sent log_sent set_lastTableCount set_foundTables
             set_backgroundReady];
      by rewrite <- app_assoc.
Qed.



End ChangeMonitor.

Section HeaderRules.

Lemma ids_from (k : nat) (hs : list RequestHeader) :
  id <$> imap (fun i => ruleFor (k + i)) hs = seq (k + 1) (length hs).
Proof.
  revert k. induction hs as [|h hs IH]; intros k; [done|].
  cbn [imap fmap list_fmap length seq]. f_equal.
  - cbn. lia.
  - replace (S (k + 1)) with (S k + 1) by lia.
    rewrite <- (IH (S k)). f_equal. apply imap_ext. intros i x _.
    cbn. f_equal. lia.
Qed.

Lemma ids_ruleFor (hs : list RequestHeader) :
  id <$> imap ruleFor hs = seq 1 (length hs).
Proof. apply (ids_from 0). Qed.

Lemma distinct_seq (n a : nat) : distinct (seq a n) = true.
Proof.
  revert a. induction n as [|n IH]; intros a; [done|].
  cbn [seq distinct]. rewrite IH, andb_true_r.
  apply negb_true_iff, bool_decide_eq_false.
  rewrite list_elem_of_In, in_seq. lia.
Qed.

Lemma filter_listed (ids : list nat) (store : list Rule) :
  (forall r, r ∈ store -> id r ∈ ids) ->
  List.filter (fun r => negb (bool_decide (id r ∈ ids))) store = [].
Proof.
  induction store as [|r store IH]; intros H; [done|].
  cbn [List.filter].
  rewrite bool_decide_eq_true_2 by (apply H; set_solver). cbn [negb].
  apply IH. intros r' Hr'. apply H. set_solver.
Qed.

(** Removing the ids of every installed rule empties the store. *)
Lemma remove_all (store : list Rule) :
  updateDynamicRules [] (id <$> store) store = inr [].
Proof.
  unfold updateDynamicRules. cbn [fmap list_fmap distinct forallb andb].
  rewrite app_nil_r. f_equal. apply filter_listed.
  intros r Hr. by apply list_elem_of_fmap_2.
Qed.

(** On an empty store the rules of a header list are accepted. *)
Lemma install_on_empty (hs : list RequestHeader) :
  updateDynamicRules (imap ruleFor hs) [] [] = inr (imap ruleFor hs).
Proof.
  unfold updateDynamicRules. cbn [List.filter fmap list_fmap app].
  rewrite ids_ruleFor, distinct_seq. cbn [andb].
  replace (forallb _ _) with true; [done|].
  symmetry. apply forallb_forall. intros r _.
  apply negb_true_iff, bool_decide_eq_false. set_solver.
Qed.

Lemma V1_clear (store : list Rule) :
  BackgroundV1.clearNetworkRules store = [].
Proof.
  unfold BackgroundV1.clearNetworkRules. rewrite remove_all.
  destruct store; done.
Qed.

Lemma V2_clear (store : list Rule) :
  BackgroundV2.clearNetworkRules store = inr [].
Proof.
  unfold BackgroundV2.clearNetworkRules. rewrite remove_all.
  destruct store; done.
Qed.

Lemma V2_update (hs : list RequestHeader) (store : list Rule) :
  BackgroundV2.updateNetworkRules hs store = (imap ruleFor hs, None).
Proof.
  unfold BackgroundV2.updateNetworkRules. rewrite V2_clear.
  destruct hs as [|h hs]; [done|].
  cbn [length Nat.eqb]. by rewrite install_on_empty.
Qed.

(** C3: in either background worker, handling [applyHeaders] for a
    header list leaves exactly one dynamic rule per header, the rule
    of the header at position i carrying id i + 1, whatever rules were
    installed before; handling the same message again changes
    nothing. *)
Theorem C3_applyHeaders_is_idempotent (hs : list RequestHeader) :
  (forall st : BackgroundV1.State,
     let st1 := fst (BackgroundV1.onMessage (applyRequest hs) st) in
     BackgroundV1.dynamicRules st1 = imap ruleFor hs
     /\ id <$> BackgroundV1.dynamicRules st1 = seq 1 (length hs)
     /\ BackgroundV1.onMessage (applyRequest hs) st1 = (st1, succeeded))
  /\ (forall st : BackgroundV2.State,
        BackgroundV2.isReady st = true ->
        let st1 := fst (BackgroundV2.onMessage (applyRequest hs) st) in
        BackgroundV2.dynamicRules st1 = imap ruleFor hs
        /\ id <$> BackgroundV2.dynamicRules st1 = seq 1 (length hs)
        /\ BackgroundV2.onMessage (applyRequest hs) st1 = (st1, succeeded)).
Proof.
  assert (forall store, BackgroundV1.updateNetworkRules
            {| BackgroundV1.customHeaders := hs;
               BackgroundV1.dynamicRules := store |}
          = {| BackgroundV1.customHeaders := hs;
               BackgroundV1.dynamicRules := imap ruleFor hs |}) as HV1.
  { intros store. unfold BackgroundV1.updateNetworkRules.
    cbn [BackgroundV1.customHeaders BackgroundV1.dynamicRules].
    rewrite V1_clear. destruct hs as [|h hs']; [done|].
    cbn [length Nat.eqb]. by rewrite install_on_empty. }
  split.
  - intros st.
    change (BackgroundV1.onMessage (applyRequest hs) st)
      with (BackgroundV1.updateNetworkRules
              {| BackgroundV1.customHeaders := hs;
                 BackgroundV1.dynamicRules := BackgroundV1.dynamicRules st |},
            succeeded).
    cbv zeta. cbn [fst]. rewrite HV1.
    cbn [BackgroundV1.dynamicRules]. split; [done|].
    split; [apply ids_ruleFor|].
    change (BackgroundV1.onMessage (applyRequest hs)
              {| BackgroundV1.customHeaders := hs;
                 BackgroundV1.dynamicRules := imap ruleFor hs |})
      with (BackgroundV1.updateNetworkRules
              {| BackgroundV1.customHeaders := hs;
                 BackgroundV1.dynamicRules := imap ruleFor hs |},
            succeeded).
    by rewrite HV1.
  - intros st Hready.
    assert (forall st : BackgroundV2.State,
              BackgroundV2.isReady st = true ->
              BackgroundV2.onMessage (applyRequest hs) st
              = ({| BackgroundV2.customHeaders := hs;
                    BackgroundV2.isReady := true;
                    BackgroundV2.dynamicRules := imap ruleFor hs |},
                 succeeded)) as HV2.
    { intros st0 H0. unfold BackgroundV2.onMessage. rewrite H0.
      change (eqb (action (applyRequest hs)) (u "ping")) with false.
      change (eqb (action (applyRequest hs)) (u "updateTables")) with false.
      change (eqb (action (applyRequest hs)) (u "applyHeaders")) with true.
      cbn [negb andb req_headers applyRequest]. by rewrite V2_update. }
    cbv zeta. rewrite (HV2 st Hready). cbn [fst BackgroundV2.dynamicRules].
    split; [done|]. split; [apply ids_ruleFor|]. by apply HV2.
Qed.

Lemma C3_applyHeaders_witness :
  id <$> BackgroundV2.dynamicRules
           (fst (BackgroundV2.onMessage
                   (applyRequest [Sample.forwardedFor]) Sample.readyWorker))
  = [1].
Proof.
  apply (proj2 (C3_applyHeaders_is_idempotent [Sample.forwardedFor])
               Sample.readyWorker).
  reflexivity.
Defined.

End HeaderRules.

Section Exporter.

Lemma enhanced_writeOut_success (cb : Clipboard) (text : jsstring) (b : Body) :
  success (snd (Enhanced.writeOut cb text b)) = Some true ->
  clipboard (fst (Enhanced.writeOut cb text b)) = Some text.
Proof.
  unfold Enhanced.writeOut.
  destruct (Enhanced.supportsClipboardAPI cb), (writeTextResolves cb),
    (execCommandCopy cb) as [e|[|]]; cbn; congruence.
Qed.

Lemma basic_writeOut_success (cb : Clipboard) (text : jsstring) (b : Body) :
  success (snd (Basic.writeOut cb text b)) = Some true ->
  clipboard (fst (Basic.writeOut cb text b)) = Some text.
Proof.
  unfold Basic.writeOut.
  destruct (Basic.supportsClipboardAPI cb && writeTextResolves cb),
    (execCommandCopy cb) as [e|[|]]; cbn; congruence.
Qed.

Lemma enhanced_writeOut_accepts (cb : Clipboard) (text : jsstring) (b : Body) :
  clipboardAccepts (Enhanced.supportsClipboardAPI cb) cb = true ->
  snd (Enhanced.writeOut cb text b) = succeeded.
Proof.
  unfold clipboardAccepts, Enhanced.writeOut.
  destruct (Enhanced.supportsClipboardAPI cb), (writeTextResolves cb),
    (execCommandCopy cb) as [e|[|]];
    cbn [andb orb negb snd]; intros H; done.
Qed.

Lemma basic_writeOut_accepts (cb : Clipboard) (text : jsstring) (b : Body) :
  clipboardAccepts (Basic.supportsClipboardAPI cb) cb = true ->
  snd (Basic.writeOut cb text b) = succeeded.
Proof.
  unfold clipboardAccepts, Basic.writeOut.
  destruct (Basic.supportsClipboardAPI cb), (writeTextResolves cb),
    (execCommandCopy cb) as [e|[|]];
    cbn [andb orb negb snd]; intros H; done.
Qed.

Lemma labelAll_denote (d : Document) (refs : list N) (tables : list Table) :
  denote d refs tables ->
  forall index,
    Basic.labelAll d index refs
    = Some (imap (fun i => Basic.labelled (index + i + 1)) tables).
Proof.
  induction 1 as [|r t refs tables Hr _ IH]; intros index; [done|].
  cbn [Basic.labelAll imap]. rewrite Hr. cbn. rewrite IH. cbn.
  f_equal. f_equal.
  - f_equal. lia.
  - apply imap_ext. intros i x _. cbn. f_equal. lia.
Qed.

Lemma outerHTMLs_denote (d : Document) (refs : list N) (tables : list Table) :
  denote d refs tables ->
  Enhanced.outerHTMLs d refs = Some (outerHTML <$> tables).
Proof.
  unfold Enhanced.outerHTMLs.
  induction 1 as [|r t refs tables Hr _ IH]; [done|].
  cbn. rewrite Hr. cbn.
  change (mapM (fun t0 => outerHTML <$> elements d !! t0) refs)
    with (mapM (fun t0 => outerHTML <$> elements d !! t0) refs) in IH.
  by rewrite IH.
Qed.

Lemma join_labelled (tables : list Table) :
  forall index,
    join LF (imap (fun i => Basic.labelled (index + i + 1)) tables)
    = labelledPayload (index + 1) tables.
Proof.
  induction tables as [|t tables IH]; intros index; [done|].
  assert (imap (fun i => Basic.labelled (index + i + 1)) (t :: tables)
          = Basic.labelled (index + 1) t
            :: imap (fun i => Basic.labelled (S index + i + 1)) tables)
    as ->.
  { cbn [imap]. f_equal; [f_equal; lia|].
    apply imap_ext. intros i x _. cbn. f_equal. lia. }
  destruct tables as [|t' tables].
  - cbn [imap join labelledPayload]. unfold Basic.labelled, indexLabel.
    by rewrite <- !app_assoc.
  - change (labelledPayload (index + 1) (t :: t' :: tables))
      with (indexLabel (index + 1) ++ LF ++ outerHTML t ++ LF ++ LF
            ++ labelledPayload (S (index + 1)) (t' :: tables)).
    replace (S (index + 1)) with (S index + 1) by lia.
    rewrite <- (IH (S index)).
    remember (imap (fun i => Basic.labelled (S index + i + 1)) (t' :: tables))
      as rest eqn:Hrest.
    destruct rest as [|x rest]; [done|].
    cbn [join]. unfold Basic.labelled, indexLabel.
    by rewrite <- !app_assoc.
Qed.

Lemma join_bare (tables : list Table) :
  join (LF ++ LF) (outerHTML <$> tables) = barePayload tables.
Proof.
  induction tables as [|t [|t' tables] IH]; [done..|].
  change (join (LF ++ LF) (outerHTML <$> t :: t' :: tables))
    with (outerHTML t ++ (LF ++ LF)
          ++ join (LF ++ LF) (outerHTML <$> t' :: tables)).
  rewrite IH. cbn [barePayload]. by rewrite <- !app_assoc.
Qed.

(** C8, as the code has it: for a non-empty candidate set the
    all-tables export of the basic content script builds the payload
    of the specification, every table's markup prefixed with its index
    label, and this is the text on the clipboard when the export
    reports success; the export of the enhanced content script joins
    the bare markup of the tables with an empty line and adds no
    label. *)
Theorem C8_payload_of_the_all_tables_export (cb : Clipboard)
  (tables : list Table) :
  (forall st : Basic.State,
     Basic.foundTables st <> [] ->
     denote (Basic.doc st) (Basic.foundTables st) tables ->
     Basic.tablesText (Basic.doc st) (Basic.foundTables st)
     = Some (labelledPayload 1 tables)
     /\ (success (snd (Basic.copyTablesToClipboard cb st)) = Some true ->
         clipboard (Basic.body (fst (Basic.copyTablesToClipboard cb st)))
         = Some (labelledPayload 1 tables)))
  /\ (forall st : Enhanced.State,
        Enhanced.foundTables st <> [] ->
        denote (Enhanced.doc st) (Enhanced.foundTables st) tables ->
        Enhanced.tableHtml (Enhanced.doc st) (Enhanced.foundTables st)
        = Some (barePayload tables)
        /\ (success (snd (Enhanced.copyTablesToClipboard cb st)) = Some true ->
            clipboard
              (Enhanced.body (fst (Enhanced.copyTablesToClipboard cb st)))
            = Some (barePayload tables))).
Proof.
  split; intros st Hne Hden.
  - assert (Basic.tablesText (Basic.doc st) (Basic.foundTables st)
            = Some (labelledPayload 1 tables)) as Htext.
    { unfold Basic.tablesText. rewrite (labelAll_denote _ _ _ Hden 0).
      cbn [fmap option_fmap option_map]. f_equal. apply (join_labelled tables 0). }
    split; [done|].
    unfold Basic.copyTablesToClipboard. rewrite Htext.
    destruct (Basic.foundTables st) as [|r refs]; [done|].
    cbn [length Nat.eqb].
    pose proof (basic_writeOut_success cb (labelledPayload 1 tables)
                  (Basic.body st)) as Hw.
    destruct (Basic.writeOut cb (labelledPayload 1 tables) (Basic.body st))
      as [b r']. exact Hw.
  - assert (Enhanced.tableHtml (Enhanced.doc st) (Enhanced.foundTables st)
            = Some (barePayload tables)) as Htext.
    { unfold Enhanced.tableHtml. rewrite (outerHTMLs_denote _ _ _ Hden).
      cbn [fmap option_fmap option_map]. f_equal. apply join_bare. }
    split; [done|].
    unfold Enhanced.copyTablesToClipboard. rewrite Htext.
    destruct (Enhanced.foundTables st) as [|r refs]; [done|].
    cbn [length Nat.eqb].
    pose proof (enhanced_writeOut_success cb (barePayload tables)
                  (Enhanced.body st)) as Hw.
    destruct (Enhanced.writeOut cb (barePayload tables) (Enhanced.body st))
      as [b r']. exact Hw.
Qed.

Lemma C8_payload_witness :
  clipboard
    (Basic.body
       (fst (Basic.copyTablesToClipboard Sample.workingClipboard
               (Sample.basicOn Sample.dataTable))))
  = Some (labelledPayload 1 [Sample.dataTable])
  /\ Enhanced.tableHtml (Enhanced.doc (Sample.enhancedOn Sample.dataTable))
       (Enhanced.foundTables (Sample.enhancedOn Sample.dataTable))
     = Some (barePayload [Sample.dataTable]).
Proof.
  destruct (C8_payload_of_the_all_tables_export Sample.workingClipboard
              [Sample.dataTable]) as [Hbasic Henhanced].
  split.
  - refine (proj2 (Hbasic (Sample.basicOn Sample.dataTable) _ _) _).
    + simpl. discriminate.
    + constructor; [reflexivity|constructor].
    + reflexivity.
  - refine (proj1 (Henhanced (Sample.enhancedOn Sample.dataTable) _ _)).
    + simpl. discriminate.
    + constructor; [reflexivity|constructor].
Defined.

(** C8, as stated, fails: the payload the enhanced content script
    puts on the clipboard for one found table is the markup of the
    table and nothing else; no index label precedes it. *)
Lemma C8_enhanced_payload_has_no_label :
  clipboard
    (Enhanced.body
       (fst (Enhanced.copyTablesToClipboard Sample.workingClipboard
               (Sample.enhancedOn Sample.dataTable))))
  = Some (outerHTML Sample.dataTable)
  /\ startsWith (indexLabel 1) (outerHTML Sample.dataTable) = false
  /\ includes (outerHTML Sample.dataTable) (u "===") = false.
Proof. vm_compute. done. Qed.

End Exporter.

Section Highlight.

Lemma not_inRange {A} (tableId : Z) (l : list A) :
  (tableId < 0 \/ Z.of_nat (length l) <= tableId)%Z ->
  Enhanced.inRange tableId l = false.
Proof.
  intros H. unfold Enhanced.inRange. apply andb_false_iff.
  destruct H; [left; apply Z.leb_gt|right; apply Z.ltb_ge]; lia.
Qed.

Lemma at_index_outside {A} (tableId : Z) (l : list A) :
  (tableId < 0 \/ Z.of_nat (length l) <= tableId)%Z ->
  Basic.at_index l tableId = None.
Proof.
  intros H. unfold Basic.at_index.
  destruct (tableId <? 0)%Z eqn:Hneg; [done|].
  apply Z.ltb_ge in Hneg. apply lookup_ge_None. lia.
Qed.

Lemma enhanced_highlight_response (cb : Clipboard) (chan : Channel)
  (tableId : option Z) (st : Enhanced.State) :
  Enhanced.onMessage cb chan (highlightRequest tableId) st
  = (match tableId with
     | Some tableId => Enhanced.highlightTable tableId st
     | None => st
     end, succeeded).
Proof. reflexivity. Qed.

Lemma basic_highlight_response (cb : Clipboard) (chan : Channel)
  (tableId : option Z) (st : Basic.State) :
  Basic.onMessage cb chan (highlightRequest tableId) st
  = (match tableId with
     | Some tableId => Basic.highlightTable tableId st
     | None => st
     end, succeeded).
Proof. reflexivity. Qed.

(** C10, as the code has it: the listener of either content script
    answers a [highlightTable] message with [{ success: true }] in
    every case, the table id being in range, out of range or absent.
    For an id out of range only the previous highlight is cleared and
    no table is highlighted; without an id the page is not touched at
    all. *)
Theorem C10_highlight_answers_success_always (cb : Clipboard)
  (chan : Channel) (tableId : option Z) :
  (forall st : Enhanced.State,
     snd (Enhanced.onMessage cb chan (highlightRequest tableId) st)
     = succeeded)
  /\ (forall st : Basic.State,
        snd (Basic.onMessage cb chan (highlightRequest tableId) st)
        = succeeded)
  /\ (forall (st : Enhanced.State) (n : Z),
        tableId = Some n ->
        (n < 0 \/ Z.of_nat (length (Enhanced.foundTables st)) <= n)%Z ->
        fst (Enhanced.onMessage cb chan (highlightRequest tableId) st)
        = Enhanced.set_doc
            (Enhanced.clearHighlight (Enhanced.foundTables st)) st)
  /\ (forall (st : Basic.State) (n : Z),
        tableId = Some n ->
        (n < 0 \/ Z.of_nat (length (Basic.foundTables st)) <= n)%Z ->
        fst (Basic.onMessage cb chan (highlightRequest tableId) st)
        = Basic.clearHighlight st)
  /\ (tableId = None ->
      (forall st : Enhanced.State,
         fst (Enhanced.onMessage cb chan (highlightRequest tableId) st) = st)
      /\ (forall st : Basic.State,
            fst (Basic.onMessage cb chan (highlightRequest tableId) st) = st)).
Proof.
  split; [|split; [|split; [|split; [|intros ->; split]]]].
  - intros st. by rewrite enhanced_highlight_response.
  - intros st. by rewrite basic_highlight_response.
  - intros st n -> Hout. rewrite enhanced_highlight_response. cbn [fst].
    unfold Enhanced.highlightTable.
    change (Enhanced.foundTables
              (Enhanced.set_doc
                 (Enhanced.clearHighlight (Enhanced.foundTables st)) st))
      with (Enhanced.foundTables st).
    by rewrite (not_inRange _ _ Hout).
  - intros st n -> Hout. rewrite basic_highlight_response. cbn [fst].
    unfold Basic.highlightTable.
    replace (Basic.foundTables (Basic.clearHighlight st))
      with (Basic.foundTables st)
      by (unfold Basic.clearHighlight;
          by destruct (Basic.previouslyHighlighted st)).
    by rewrite (at_index_outside _ _ Hout).
  - intros st. by rewrite enhanced_highlight_response.
  - intros st. by rewrite basic_highlight_response.
Qed.

Lemma C10_highlight_witness :
  fst (Enhanced.onMessage Sample.workingClipboard Sample.deadChannel
         (highlightRequest (Some 1%Z)) (Sample.enhancedOn Sample.dataTable))
  = Enhanced.set_doc (Enhanced.clearHighlight [1%N])
      (Sample.enhancedOn Sample.dataTable)
  /\ fst (Basic.onMessage Sample.workingClipboard Sample.deadChannel
            (highlightRequest None) (Sample.basicOn Sample.dataTable))
     = Sample.basicOn Sample.dataTable.
Proof.
  split.
  - refine (proj1 (proj2 (proj2
              (C10_highlight_answers_success_always Sample.workingClipboard
                 Sample.deadChannel (Some 1%Z))))
              (Sample.enhancedOn Sample.dataTable) 1%Z _ _).
    + reflexivity.
    + right. simpl. lia.
  - refine (proj2 (proj2 (proj2 (proj2 (proj2
              (C10_highlight_answers_success_always Sample.workingClipboard
                 Sample.deadChannel None)))) _)
              (Sample.basicOn Sample.dataTable)).
    reflexivity.
Defined.

(** C10, as stated, fails: a [highlightTable] message without a table
    id is answered exactly like one with an id. *)
Lemma C10_absent_id_answered_alike :
  snd (Enhanced.onMessage Sample.workingClipboard Sample.deadChannel
         (highlightRequest None) (Sample.enhancedOn Sample.dataTable))
  = succeeded
  /\ snd (Enhanced.onMessage Sample.workingClipboard Sample.deadChannel
            (highlightRequest None) (Sample.enhancedOn Sample.dataTable))
     = snd (Enhanced.onMessage Sample.workingClipboard Sample.deadChannel
              (highlightRequest (Some 0%Z))
              (Sample.enhancedOn Sample.dataTable))
  /\ snd (Basic.onMessage Sample.workingClipboard Sample.deadChannel
            (highlightRequest None) (Sample.basicOn Sample.dataTable))
     = snd (Basic.onMessage Sample.workingClipboard Sample.deadChannel
              (highlightRequest (Some 0%Z)) (Sample.basicOn Sample.dataTable)).
Proof. repeat split. Qed.

End Highlight.

Section Selection.

Lemma filter_idem {A} (f : A -> bool) (l : list A) :
  List.filter f (List.filter f l) = List.filter f l.
Proof.
  induction l as [|a l IH]; [done|]. cbn [List.filter].
  destruct (f a) eqn:E; [|done]. cbn [List.filter]. by rewrite E, IH.
Qed.

Lemma validIds_idem (n : nat) (ids : list Z) :
  validIds n (validIds n ids) = validIds n ids.
Proof. apply filter_idem. Qed.

Lemma validIds_nonempty (n : nat) (ids : list Z) :
  validIds n ids <> [] -> ids <> [].
Proof. by destruct ids. Qed.

Lemma validIds_head (n : nat) (ids rest : list Z) (id0 : Z) :
  validIds n ids = id0 :: rest -> (0 <= id0 < Z.of_nat n)%Z.
Proof.
  intros H.
  assert (In id0 (validIds n ids)) as Hin by (rewrite H; by left).
  apply filter_In in Hin as [_ Hin]. lia.
Qed.

Lemma enhanced_writeOut_refuses (cb : Clipboard) (text : jsstring) (b : Body) :
  clipboardAccepts (Enhanced.supportsClipboardAPI cb) cb = false ->
  success (snd (Enhanced.writeOut cb text b)) = Some false.
Proof.
  unfold clipboardAccepts, Enhanced.writeOut.
  destruct (Enhanced.supportsClipboardAPI cb), (writeTextResolves cb),
    (execCommandCopy cb) as [e|[|]];
    cbn [andb orb negb snd]; intros H; done.
Qed.

Lemma basic_writeOut_refuses (cb : Clipboard) (text : jsstring) (b : Body) :
  clipboardAccepts (Basic.supportsClipboardAPI cb) cb = false ->
  success (snd (Basic.writeOut cb text b)) = Some false.
Proof.
  unfold clipboardAccepts, Basic.writeOut.
  destruct (Basic.supportsClipboardAPI cb), (writeTextResolves cb),
    (execCommandCopy cb) as [e|[|]];
    cbn [andb orb negb snd]; intros H; done.
Qed.

(** The export of the enhanced script for a non-empty selection, in
    terms of the valid ids alone. *)
Lemma enhanced_selected_unfold (cb : Clipboard) (ids : list Z)
  (st : Enhanced.State) :
  ids <> [] ->
  Enhanced.copySelectedTablesToClipboard cb ids st
  = let selectedTables :=
      omap (fun id => Enhanced.foundTables st !! Z.to_nat id)
           (validIds (length (Enhanced.foundTables st)) ids) in
    if length selectedTables =? 0 then (st, failed (u "选中的表格ID无效"))
    else
      match Enhanced.tableHtml (Enhanced.doc st) selectedTables with
      | None => (st, failed (Enhanced.formatError Enhanced.undefinedRead))
      | Some tableHtml =>
          let '(b, r) := Enhanced.writeOut cb tableHtml (Enhanced.body st) in
          (Enhanced.set_body (fun _ => b) st, r)
      end.
Proof. intros H. destruct ids; [done|reflexivity]. Qed.

Lemma selected_resolve (d : Document) (found : list N) (ids : list Z) :
  candidatesResolve d found ->
  is_Some (Enhanced.tableHtml d
             (omap (fun id => found !! Z.to_nat id) ids)).
Proof.
  intros Hwf. unfold Enhanced.tableHtml, Enhanced.outerHTMLs.
  apply fmap_is_Some, mapM_is_Some, Forall_forall.
  intros t Ht. apply list_elem_of_omap in Ht as (id0 & _ & Hl).
  apply list_elem_of_lookup_2 in Hl.
  apply fmap_is_Some. by apply Hwf.
Qed.

Lemma basic_out_of_range (n : nat) (id0 : Z) :
  ((id0 <? 0) || (Z.of_nat n <=? id0))%Z
  = negb ((0 <=? id0)%Z && (id0 <? Z.of_nat n)%Z).
Proof.
  destruct (id0 <? 0)%Z eqn:H1, (Z.of_nat n <=? id0)%Z eqn:H2,
    (0 <=? id0)%Z eqn:H3, (id0 <? Z.of_nat n)%Z eqn:H4; try done; lia.
Qed.

Lemma selectedText_outside (st : Basic.State) (id0 : Z) :
  ((0 <=? id0)%Z && (id0 <? Z.of_nat (length (Basic.foundTables st)))%Z)
  = false ->
  Basic.selectedText st id0 = Some None.
Proof.
  intros H. unfold Basic.selectedText. by rewrite basic_out_of_range, H.
Qed.

Lemma selectedText_inside (st : Basic.State) (id0 : Z) :
  candidatesResolve (Basic.doc st) (Basic.foundTables st) ->
  ((0 <=? id0)%Z && (id0 <? Z.of_nat (length (Basic.foundTables st)))%Z)
  = true ->
  exists table,
    Basic.selectedText st id0
    = Some (Some (Basic.labelled (Z.to_nat (id0 + 1)) table)).
Proof.
  intros Hwf H. unfold Basic.selectedText. rewrite basic_out_of_range, H.
  cbn [negb].
  destruct (lookup_lt_is_Some_2 (Basic.foundTables st) (Z.to_nat id0))
    as [t Ht]; [lia|].
  destruct (Hwf t) as [table Htable]; [by eapply list_elem_of_lookup_2|].
  exists table. rewrite Ht. cbn [mbind option_bind]. by rewrite Htable.
Qed.

Lemma labelled_truthy (number : nat) (table : Table) :
  truthy (Basic.labelled number table) = true.
Proof. reflexivity. Qed.

(** The texts the basic script keeps for a selection are those of its
    valid ids. *)
Lemma basic_selected_texts (st : Basic.State) (ids : list Z) :
  candidatesResolve (Basic.doc st) (Basic.foundTables st) ->
  exists texts kept,
    mapM (Basic.selectedText st) ids = Some texts
    /\ Basic.filterBoolean texts = kept
    /\ length kept = length (validIds (length (Basic.foundTables st)) ids)
    /\ Forall (fun text => truthy text = true) kept
    /\ (forall texts',
          mapM (Basic.selectedText st)
               (validIds (length (Basic.foundTables st)) ids) = Some texts' ->
          Basic.filterBoolean texts' = kept).
Proof.
  intros Hwf. induction ids as [|id0 ids IH].
  - exists [], []. repeat split; try done. intros texts' [= <-]. done.
  - destruct IH as (texts & kept & Hm & Hk & Hlen & Htr & Hvalid).
    unfold validIds in *. cbn [List.filter mapM].
    destruct ((0 <=? id0)%Z && (id0 <? Z.of_nat (length (Basic.foundTables st)))%Z)
      eqn:Hin.
    + destruct (selectedText_inside st id0 Hwf Hin) as [table Htext].
      rewrite Htext, Hm. cbn [mbind option_bind mret option_ret].
      exists (Some (Basic.labelled (Z.to_nat (id0 + 1)) table) :: texts),
             (Basic.labelled (Z.to_nat (id0 + 1)) table :: kept).
      split; [done|].
      split; [cbn [Basic.filterBoolean omap list_omap];
              by rewrite labelled_truthy, <- Hk|].
      split; [cbn [length]; by rewrite Hlen|].
      split; [constructor; [apply labelled_truthy|done]|].
      intros texts'. cbn [mapM]. rewrite Htext.
      cbn [mbind option_bind mret option_ret].
      destruct (mapM (Basic.selectedText st) (List.filter _ ids))
        as [rest|] eqn:Hrest;
        cbn [mbind option_bind mret option_ret]; [|done].
      intros [= <-]. rewrite <- (Hvalid rest eq_refl).
      cbn [Basic.filterBoolean omap list_omap].
      by rewrite labelled_truthy.
    + rewrite (selectedText_outside st id0 Hin), Hm.
      cbn [mbind option_bind mret option_ret].
      exists (None :: texts), kept. by repeat split.
Qed.

Lemma join_truthy (sep first : jsstring) (rest : list jsstring) :
  truthy first = true -> truthy (join sep (first :: rest)) = true.
Proof. destruct first, rest; done. Qed.

Lemma basic_selected_unfold (cb : Clipboard) (ids : list Z) (st : Basic.State)
  (texts : list (option jsstring)) :
  ids <> [] ->
  mapM (Basic.selectedText st) ids = Some texts ->
  Basic.copySelectedTablesToClipboard cb ids st
  = let tablesText := join LF (Basic.filterBoolean texts) in
    if negb (truthy tablesText) then (st, failed (u "没有有效的表格"))
    else
      let '(b, r) := Basic.writeOut cb tablesText (Basic.body st) in
      (Basic.set_body (fun _ => b) st, r).
Proof.
  intros H Hm. unfold Basic.copySelectedTablesToClipboard. rewrite Hm.
  destruct ids; [done|reflexivity].
Qed.

(** C9, as the code has it: the ids of a selection that are out of
    range are dropped without notice, and the export runs exactly as
    if only the valid ids had been selected.  When no valid id is left
    (the list is empty, or every id is out of range) the result is a
    validation error and the page is untouched; otherwise the result
    is that of the clipboard write: success when the clipboard accepts
    the text, an error when it does not. *)
Theorem C9_out_of_range_ids_are_dropped (cb : Clipboard)
  (selectedIds : list Z) :
  (forall st : Enhanced.State,
     candidatesResolve (Enhanced.doc st) (Enhanced.foundTables st) ->
     let valid := validIds (length (Enhanced.foundTables st)) selectedIds in
     let result := Enhanced.copySelectedTablesToClipboard cb selectedIds st in
     (valid = [] ->
      exists message, result = (st, failed message) /\ message <> [])
     /\ (valid <> [] ->
         result = Enhanced.copySelectedTablesToClipboard cb valid st
         /\ (clipboardAccepts (Enhanced.supportsClipboardAPI cb) cb = true ->
             snd result = succeeded)
         /\ (clipboardAccepts (Enhanced.supportsClipboardAPI cb) cb = false ->
             success (snd result) = Some false)))
  /\ (forall st : Basic.State,
        candidatesResolve (Basic.doc st) (Basic.foundTables st) ->
        let valid := validIds (length (Basic.foundTables st)) selectedIds in
        let result := Basic.copySelectedTablesToClipboard cb selectedIds st in
        (valid = [] ->
         exists message, result = (st, failed message) /\ message <> [])
        /\ (valid <> [] ->
            result = Basic.copySelectedTablesToClipboard cb valid st
            /\ (clipboardAccepts (Basic.supportsClipboardAPI cb) cb = true ->
                snd result = succeeded)
            /\ (clipboardAccepts (Basic.supportsClipboardAPI cb) cb = false ->
                success (snd result) = Some false))).
Proof.
  split; intros st Hwf; cbv zeta.
  - split.
    + intros Hnone. destruct selectedIds as [|id0 ids] eqn:Hids.
      * exists (u "没有选中的表格"). split; [reflexivity|by vm_compute].
      * exists (u "选中的表格ID无效"). split; [|by vm_compute].
        rewrite enhanced_selected_unfold by done. cbv zeta.
        by rewrite Hnone.
    + intros Hsome.
      pose proof (validIds_nonempty _ _ Hsome) as Hids.
      rewrite (enhanced_selected_unfold cb selectedIds st Hids).
      rewrite (enhanced_selected_unfold cb _ st Hsome).
      rewrite validIds_idem. split; [done|]. cbv zeta.
      destruct (validIds (length (Enhanced.foundTables st)) selectedIds)
        as [|id0 rest] eqn:Hvalid; [done|].
      pose proof (validIds_head _ _ _ _ Hvalid) as Hrange.
      destruct (selected_resolve (Enhanced.doc st) (Enhanced.foundTables st)
                  (id0 :: rest) Hwf) as [html Hhtml].
      rewrite Hhtml.
      destruct (lookup_lt_is_Some_2 (Enhanced.foundTables st) (Z.to_nat id0))
        as [t Ht]; [lia|].
      cbn [omap list_omap]. rewrite Ht. cbn [length Nat.eqb].
      pose proof (enhanced_writeOut_accepts cb html (Enhanced.body st)) as Hyes.
      pose proof (enhanced_writeOut_refuses cb html (Enhanced.body st)) as Hno.
      destruct (Enhanced.writeOut cb html (Enhanced.body st)) as [b r].
      by split.
  - destruct (basic_selected_texts st selectedIds Hwf)
      as (texts & kept & Hm & Hk & Hlen & Htr & Hvalid).
    split.
    + intros Hnone. destruct selectedIds as [|id0 ids] eqn:Hids.
      * exists (u "没有选择表格"). split; [reflexivity|by vm_compute].
      * exists (u "没有有效的表格"). split; [|by vm_compute].
        rewrite (basic_selected_unfold cb _ st texts) by done. cbv zeta.
        rewrite Hk. rewrite Hnone in Hlen. by destruct kept.
    + intros Hsome.
      pose proof (validIds_nonempty _ _ Hsome) as Hids.
      destruct (basic_selected_texts st
                  (validIds (length (Basic.foundTables st)) selectedIds) Hwf)
        as (texts' & kept' & Hm' & Hk' & _).
      rewrite (basic_selected_unfold cb selectedIds st texts Hids Hm).
      rewrite (basic_selected_unfold cb _ st texts' Hsome Hm').
      rewrite (Hvalid texts' Hm'), Hk. split; [done|]. cbv zeta.
      destruct kept as [|first others].
      { destruct (validIds _ selectedIds); done. }
      rewrite join_truthy by (by inversion Htr). cbn [negb].
      pose proof (basic_writeOut_accepts cb (join LF (first :: others))
                    (Basic.body st)) as Hyes.
      pose proof (basic_writeOut_refuses cb (join LF (first :: others))
                    (Basic.body st)) as Hno.
      destruct (Basic.writeOut cb (join LF (first :: others)) (Basic.body st))
        as [b r].
      by split.
Qed.

Lemma C9_out_of_range_witness :
  Enhanced.copySelectedTablesToClipboard Sample.workingClipboard
    [0; 5]%Z (Sample.enhancedOn Sample.dataTable)
  = Enhanced.copySelectedTablesToClipboard Sample.workingClipboard
      [0]%Z (Sample.enhancedOn Sample.dataTable)
  /\ exists message,
       Basic.copySelectedTablesToClipboard Sample.workingClipboard
         [5; -1]%Z (Sample.basicOn Sample.dataTable)
       = (Sample.basicOn Sample.dataTable, failed message)
       /\ message <> [].
Proof.
  destruct (C9_out_of_range_ids_are_dropped Sample.workingClipboard [0; 5]%Z)
    as [Henhanced _].
  destruct (C9_out_of_range_ids_are_dropped Sample.workingClipboard [5; -1]%Z)
    as [_ Hbasic].
  split.
  - refine (proj1 (proj2 (Henhanced (Sample.enhancedOn Sample.dataTable) _) _)).
    + intros t Ht. apply list_elem_of_singleton in Ht as ->.
      eexists. reflexivity.
    + simpl. discriminate.
  - refine (proj1 (Hbasic (Sample.basicOn Sample.dataTable) _) _).
    + intros t Ht. apply list_elem_of_singleton in Ht as ->.
      eexists. reflexivity.
    + reflexivity.
Defined.

(** C9, as stated, fails: a selection with one valid and one invalid
    id is not always answered with success.  When the clipboard API is
    absent and the legacy copy command reports failure, the result is
    an error although the list is not empty and holds a valid id. *)
Lemma C9_valid_id_yet_error :
  validIds 1 [0; 5]%Z = [0%Z]
  /\ success
       (snd (Enhanced.copySelectedTablesToClipboard Sample.refusingClipboard
               [0; 5]%Z (Sample.enhancedOn Sample.dataTable)))
     = Some false
  /\ success
       (snd (Basic.copySelectedTablesToClipboard Sample.refusingClipboard
               [0; 5]%Z (Sample.basicOn Sample.dataTable)))
     = Some false.
Proof. vm_compute. done. Qed.

End Selection.

Section CopyProtection.

Import Basic.

Lemma mapSet_in (k : N) (v : jsstring) (m : list (N * jsstring)) :
  (k, v) ∈ mapSet k v m.
Proof.
  induction m as [|[k' v'] m IH]; cbn [mapSet]; [set_solver|].
  destruct (N.eqb k k'); [apply elem_of_cons; by left|].
  apply elem_of_cons. by right.
Qed.

Lemma mapSet_keeps (k k' : N) (v v' : jsstring) (m : list (N * jsstring)) :
  k' <> k -> (k, v) ∈ m -> (k, v) ∈ mapSet k' v' m.
Proof.
  intros Hne. induction m as [|[k0 v0] m IH]; intros Hin;
    [by apply elem_of_nil in Hin|].
  cbn [mapSet]. destruct (N.eqb_spec k' k0) as [->|_].
  - apply elem_of_cons in Hin as [[= <- <-]|Hin]; [done|].
    apply elem_of_cons. by right.
  - apply elem_of_cons in Hin as [Heq|Hin]; apply elem_of_cons;
      [by left | right; by apply IH].
Qed.

(** The assignments of the enable path change no rule. *)
Lemma restoreAll_nothing (saved : list (N * jsstring))
  (rules : gmap N CSSRule) :
  restoreAll saved rules = rules.
Proof.
  revert rules. induction saved as [|[k v] saved IH]; intros rules; [done|].
  change (restoreAll ((k, v) :: saved) rules)
    with (restoreAll saved (alter (set_cssText v) k rules)).
  rewrite IH. by apply alter_id.
Qed.

Lemma visitRule_other (acc : gmap N CSSRule * list (N * jsstring))
  (a k : N) :
  a <> k ->
  fst (visitRule acc a) !! k = fst acc !! k
  /\ forall v, (k, v) ∈ snd acc -> (k, v) ∈ snd (visitRule acc a).
Proof.
  intros Hne. destruct acc as [rules saved]. unfold visitRule.
  destruct (rules !! a) as [r|]; [|done].
  destruct (isStyleRule r && selectorMatches (selectorText r)); [|done].
  cbn [fst snd]. split; [by apply lookup_insert_ne|].
  intros v Hin. by apply mapSet_keeps.
Qed.

Lemma visit_other (flat : list N) :
  forall (acc : gmap N CSSRule * list (N * jsstring)) (k : N),
    k ∉ flat ->
    fst (fold_left visitRule flat acc) !! k = fst acc !! k
    /\ forall v, (k, v) ∈ snd acc ->
                 (k, v) ∈ snd (fold_left visitRule flat acc).
Proof.
  induction flat as [|a flat IH]; intros acc k Hk; [done|].
  apply not_elem_of_cons in Hk as [Hne Hk]. cbn [fold_left].
  destruct (IH (visitRule acc a) k Hk) as [Hl Hs].
  destruct (visitRule_other acc a k) as [Hl' Hs']; [done|].
  split; [by rewrite Hl | intros v Hin; by apply Hs, Hs'].
Qed.

(** The walk of the disable path over distinct rule objects: a style
    rule whose selector matches ends stripped of the five properties,
    with the text it had before in the save-table. *)
Lemma visit_matching (flat : list N) :
  forall (acc : gmap N CSSRule * list (N * jsstring)) (k : N) (r : CSSRule),
    NoDup flat -> k ∈ flat -> fst acc !! k = Some r ->
    isStyleRule r && selectorMatches (selectorText r) = true ->
    fst (fold_left visitRule flat acc) !! k = Some (neutralize r)
    /\ (k, cssText r) ∈ snd (fold_left visitRule flat acc).
Proof.
  induction flat as [|a flat IH]; intros acc k r Hnd Hin Hr Hm;
    [by apply elem_of_nil in Hin|].
  apply NoDup_cons in Hnd as [Ha Hnd]. cbn [fold_left].
  apply elem_of_cons in Hin as [->|Hin].
  - destruct (visit_other flat (visitRule acc a) a Ha) as [-> Hs].
    assert (visitRule acc a
            = (<[a := neutralize r]> (fst acc),
               mapSet a (cssText r) (snd acc))) as Hv.
    { destruct acc as [rules saved]. cbn [fst snd] in *.
      unfold visitRule. by rewrite Hr, Hm. }
    split.
    + rewrite Hv. cbn [fst]. apply lookup_insert_eq.
    + apply Hs. rewrite Hv. cbn [snd]. apply mapSet_in.
  - assert (a <> k) as Hne by (intros ->; done).
    destruct (visitRule_other acc a k Hne) as [Hl _].
    apply IH; [done..| |done]. by rewrite Hl.
Qed.

Lemma visit_sheets (sheets : list (option (list N))) :
  forall acc,
    fold_left visitSheet sheets acc
    = fold_left visitRule (concat (omap (fun sheet => sheet) sheets)) acc.
Proof.
  induction sheets as [|[rules|] sheets IH]; intros acc; [done| |].
  - cbn [fold_left omap list_omap concat]. rewrite fold_left_app. apply IH.
  - cbn [fold_left omap list_omap]. apply IH.
Qed.

Lemma allowCopyStyle_signed : hasAutoOverride allowCopyStyle = true.
Proof. by vm_compute. Qed.

Lemma selectionOverride_signed :
  hasTextOverride Enhanced.selectionOverride = true.
Proof. by vm_compute. Qed.

Lemma filter_drops_last {A} (f : A -> bool) (l : list A) (x : A) :
  f x = true ->
  List.filter (fun y => negb (f y)) (l ++ [x])
  = List.filter (fun y => negb (f y)) l.
Proof.
  intros H. rewrite List.filter_app. cbn [List.filter]. rewrite H.
  apply app_nil_r.
Qed.

Lemma filtered_out {A} (f : A -> bool) (l : list A) (x : A) :
  f x = true -> x ∉ List.filter (fun y => negb (f y)) l.
Proof.
  intros H Hin. apply list_elem_of_In, filter_In in Hin as [_ Hin].
  by rewrite H in Hin.
Qed.

(** C2, against the code.  In the basic content script the disable
    path saves the text of every matching style rule of a readable
    sheet in the save-table and strips the rule; the enable path
    assigns the saved text to [cssText], which changes nothing, and
    clears the table.  So after two toggles from the protected state
    such a rule is still the stripped rule, the text saved for it is
    gone, the sheets are as they were and the injected override style
    element is removed (with every other style element bearing its
    signature).  In the enhanced content script, which keeps no
    save-table, two toggles remove the injected override style element
    likewise; the rules its disable path deleted are not brought
    back. *)
Theorem C2_toggle_twice (rule : N) (r : CSSRule) :
  (forall st : Basic.State,
     Basic.copyProtectionDisabled st = false ->
     NoDup (ruleObjects (Basic.styles st)) ->
     rule ∈ ruleObjects (Basic.styles st) ->
     cssRules (Basic.styles st) !! rule = Some r ->
     isStyleRule r && selectorMatches (selectorText r) = true ->
     let st1 := fst (Basic.toggleCopyProtection st) in
     let st2 := fst (Basic.toggleCopyProtection st1) in
     (rule, cssText r) ∈ Basic.originalStyles st1
     /\ cssRules (Basic.styles st1) !! rule = Some (neutralize r)
     /\ cssRules (Basic.styles st2) !! rule = Some (neutralize r)
     /\ cssRules (Basic.styles st2) = cssRules (Basic.styles st1)
     /\ Basic.originalStyles st2 = []
     /\ styleSheets (Basic.styles st2) = styleSheets (Basic.styles st)
     /\ styleElements (Basic.styles st2)
        = List.filter (fun text => negb (hasAutoOverride text))
            (styleElements (Basic.styles st))
     /\ (allowCopyStyle ∉ styleElements (Basic.styles st2))
     /\ Basic.copyProtectionDisabled st2 = false)
  /\ (forall st : Enhanced.State,
        Enhanced.copyProtectionDisabled st = false ->
        let st2 :=
          fst (Enhanced.toggleCopyProtection
                 (fst (Enhanced.toggleCopyProtection st))) in
        styleElements (Enhanced.styles st2)
        = List.filter (fun text => negb (hasTextOverride text))
            (styleElements (Enhanced.styles st))
        /\ (Enhanced.selectionOverride
            ∉ styleElements (Enhanced.styles st2))
        /\ Enhanced.copyProtectionDisabled st2 = false).
Proof.
  split.
  - intros st Hflag Hnd Hin Hr Hm. cbv zeta.
    destruct (visit_matching (ruleObjects (styles st))
                (cssRules (styles st), originalStyles st) rule r
                Hnd Hin Hr Hm) as [Hstripped Hsaved].
    unfold ruleObjects in Hstripped, Hsaved.
    rewrite <- visit_sheets in Hstripped, Hsaved.
    assert (toggleCopyProtection st = disableCopyProtection st) as ->.
    { unfold toggleCopyProtection. by rewrite Hflag. }
    unfold disableCopyProtection.
    destruct (fold_left visitSheet (styleSheets (styles st))
                (cssRules (styles st), originalStyles st))
      as [rules1 saved1].
    cbn [fst snd] in Hstripped, Hsaved |- *.
    unfold toggleCopyProtection.
    cbn [copyProtectionDisabled set_copyProtectionDisabled].
    unfold enableCopyProtection.
    cbn [fst styles originalStyles copyProtectionDisabled
         set_copyProtectionDisabled set_originalStyles set_styles
         cssRules styleSheets styleElements].
    rewrite restoreAll_nothing.
    split; [exact Hsaved|]. split; [exact Hstripped|].
    split; [exact Hstripped|]. split; [done|]. split; [done|].
    split; [done|].
    change (fun text => negb (truthy text && includes text (u "user-select: auto")))
      with (fun text => negb (hasAutoOverride text)).
    rewrite (filter_drops_last hasAutoOverride _ _ allowCopyStyle_signed).
    split; [done|].
    split; [apply filtered_out, allowCopyStyle_signed|done].
  - intros st Hflag. cbv zeta.
    unfold Enhanced.toggleCopyProtection. rewrite Hflag.
    cbn [fst Enhanced.copyProtectionDisabled Enhanced.disableCopyProtection
         Enhanced.set_copyProtectionDisabled].
    unfold Enhanced.enableCopyProtection, Enhanced.disableCopyProtection.
    cbn [fst Enhanced.styles Enhanced.copyProtectionDisabled
         Enhanced.set_copyProtectionDisabled Enhanced.set_styles
         styleElements].
    change (fun text => negb (includes text (u "user-select: text !important")))
      with (fun text => negb (hasTextOverride text)).
    rewrite (filter_drops_last hasTextOverride _ _ selectionOverride_signed).
    split; [done|].
    split; [apply filtered_out, selectionOverride_signed|done].
Qed.

(** An instance: the sheet with the rules [.noselect] and
    [.locked::selection], of which the second matches. *)
Lemma C2_toggle_twice_witness :
  cssRules
    (Basic.styles
       (fst (Basic.toggleCopyProtection
               (fst (Basic.toggleCopyProtection Sample.basicProtected)))))
    !! 2%N
  = Some (neutralize Sample.selectionRule)
  /\ Enhanced.copyProtectionDisabled
       (fst (Enhanced.toggleCopyProtection
               (fst (Enhanced.toggleCopyProtection
                       Sample.enhancedProtected))))
     = false.
Proof.
  destruct (C2_toggle_twice 2%N Sample.selectionRule)
    as [Hbasic Henhanced].
  split.
  - apply (Hbasic Sample.basicProtected).
    + reflexivity.
    + unfold ruleObjects. simpl. apply NoDup_cons. split.
      * intros H. apply list_elem_of_singleton in H. discriminate.
      * apply NoDup_singleton.
    + unfold ruleObjects. simpl. apply elem_of_cons. right.
      apply elem_of_cons. by left.
    + reflexivity.
    + vm_compute. reflexivity.
  - apply (Henhanced Sample.enhancedProtected). reflexivity.
Defined.

(** C2 fails on the basic content script.  The rule
    [.locked::selection { user-select: none; color: red; }] loses its
    [user-select] declaration on the first toggle, when its text is
    saved; after the second toggle its text is still the stripped one
    and the save-table is empty, so the original text is recoverable
    from nowhere. *)
Lemma C2_basic_text_not_restored :
  cssText <$> cssRules (Basic.styles Sample.basicProtected) !! 2%N
  = Some (u ".locked::selection { user-select: none; color: red; }")
  /\ Basic.originalStyles (fst (Basic.toggleCopyProtection
                                  Sample.basicProtected))
     = [(2%N, u ".locked::selection { user-select: none; color: red; }")]
  /\ cssText <$> cssRules
                   (Basic.styles
                      (fst (Basic.toggleCopyProtection
                              (fst (Basic.toggleCopyProtection
                                      Sample.basicProtected))))) !! 2%N
     = Some (u ".locked::selection { color: red; }")
  /\ Basic.originalStyles
       (fst (Basic.toggleCopyProtection
               (fst (Basic.toggleCopyProtection Sample.basicProtected))))
     = [].
Proof. vm_compute. done. Qed.

(** Nor does the enhanced content script restore: it deletes a rule
    that blocks selection instead of saving it, and its enable path
    restores nothing.  After two toggles the sheet that held the
    rules 1 and 2 holds rule 2 alone: rule 1 and its text are gone. *)
Lemma C2_enhanced_rules_not_restored :
  styleSheets (Enhanced.styles Sample.enhancedProtected) = [Some [1%N; 2%N]]
  /\ styleSheets
       (Enhanced.styles
          (fst (Enhanced.toggleCopyProtection
                  (fst (Enhanced.toggleCopyProtection
                          Sample.enhancedProtected)))))
     = [Some [2%N]].
Proof. vm_compute. done. Qed.

End CopyProtection.

(** * Further properties of the scripts *)

Section Locator.

Import Enhanced.

Lemma collect_spec (tables : list N) :
  forall acc,
    consistent acc ->
    consistent (collect tables acc)
    /\ forall t, t ∈ fst (collect tables acc) <-> t ∈ fst acc \/ t ∈ tables.
Proof.
  unfold collect.
  induction tables as [|x tables IH]; intros [all seen] Hacc.
  - split; [done|]. intros t. cbn. rewrite elem_of_nil. tauto.
  - destruct Hacc as [Hnd Hseen]. cbn [fst snd] in Hnd, Hseen.
    cbn [fold_left]. case_bool_decide as Hx.
    + destruct (IH (all, seen)) as [Hc Hin]; [done|].
      split; [done|]. intros t. rewrite Hin. cbn [fst].
      rewrite elem_of_cons. apply Hseen in Hx. split; [tauto|].
      intros [H|[->|H]]; tauto.
    + destruct (IH (all ++ [x], {[x]} ∪ seen)) as [Hc Hin].
      { split; cbn [fst snd].
        - apply NoDup_app. split; [done|]. split; [|apply NoDup_singleton].
          intros t Ht ->%list_elem_of_singleton. apply Hx. by apply Hseen.
        - intros t. rewrite elem_of_union, elem_of_singleton, elem_of_app,
            list_elem_of_singleton, Hseen. tauto. }
      split; [done|]. intros t. rewrite Hin. cbn [fst].
      rewrite elem_of_app, list_elem_of_singleton, elem_of_cons. tauto.
Qed.

Lemma collect_frames (frames : list (option (list N))) :
  forall acc,
    consistent acc ->
    let acc' :=
      fold_left (fun acc iframe =>
                   match iframe with
                   | Some iframeTables => collect iframeTables acc
                   | None => acc
                   end) frames acc in
    consistent acc'
    /\ forall t, t ∈ fst acc'
                 <-> t ∈ fst acc \/ exists frame, Some frame ∈ frames /\ t ∈ frame.
Proof.
  induction frames as [|[frame|] frames IH]; intros acc Hacc; cbn [fold_left].
  - split; [done|]. intros t. split; [tauto|].
    intros [H|(frame & H & _)]; [done|]. by apply elem_of_nil in H.
  - destruct (collect_spec frame acc Hacc) as [Hc Hin].
    destruct (IH _ Hc) as [Hc' Hin']. split; [done|].
    intros t. rewrite Hin', Hin. split.
    + intros [[H|H]|(f & Hf & Ht)]; [tauto|right..].
      * exists frame. split; [left|done].
      * exists f. split; [by right|done].
    + intros [H|(f & Hf & Ht)]; [tauto|].
      apply elem_of_cons in Hf as [[= ->]|Hf]; [tauto|].
      right. by exists f.
  - destruct (IH _ Hacc) as [Hc' Hin']. split; [done|].
    intros t. rewrite Hin'. split.
    + intros [H|(f & Hf & Ht)]; [tauto|]. right. exists f. split; [by right|done].
    + intros [H|(f & Hf & Ht)]; [tauto|].
      apply elem_of_cons in Hf as [[=]|Hf]. right. by exists f.
Qed.

Lemma collect_containers (containers : list (list N)) :
  forall acc,
    consistent acc ->
    let acc' :=
      fold_left (fun acc tables => collect tables acc) containers acc in
    consistent acc'
    /\ forall t, t ∈ fst acc'
                 <-> t ∈ fst acc
                     \/ exists container, container ∈ containers /\ t ∈ container.
Proof.
  induction containers as [|c containers IH]; intros acc Hacc; cbn [fold_left].
  - split; [done|]. intros t. split; [tauto|].
    intros [H|(c & H & _)]; [done|]. by apply elem_of_nil in H.
  - destruct (collect_spec c acc Hacc) as [Hc Hin].
    destruct (IH _ Hc) as [Hc' Hin']. split; [done|].
    intros t. rewrite Hin', Hin. split.
    + intros [[H|H]|(c' & Hc1 & Ht)]; [tauto|right..].
      * exists c. split; [left|done].
      * exists c'. split; [by right|done].
    + intros [H|(c' & Hc1 & Ht)]; [tauto|].
      apply elem_of_cons in Hc1 as [->|Hc1]; [tauto|].
      right. by exists c'.
Qed.

Lemma allTables_walk (d : Document) :
  consistent (allTables d, list_to_set (allTables d))
  /\ forall t, t ∈ allTables d <-> reachable d t.
Proof.
  unfold allTables, reachable.
  assert (consistent ([], ∅)) as H0.
  { split; [apply NoDup_nil_2|]. intros t. cbn.
    rewrite elem_of_empty, elem_of_nil. tauto. }
  destruct (collect_spec (mainTables d) _ H0) as [H1 Hin1].
  destruct (collect_frames (iframes d) _ H1) as [H2 Hin2].
  destruct (collect_containers (potentialContainers d) _ H2) as [H3 Hin3].
  cbv zeta in *. split.
  - split; [apply H3|]. intros t. cbn [fst snd].
    by rewrite elem_of_list_to_set.
  - intros t. rewrite Hin3, Hin2, Hin1. cbn [fst]. rewrite elem_of_nil. tauto.
Qed.

(** X1: the walk of [findTables] over the main document, the readable
    iframes and the grid containers lists every reachable table once
    and nothing else. *)
Theorem X1_every_reachable_table_once (d : Document) :
  NoDup (allTables d) /\ forall t, t ∈ allTables d <-> reachable d t.
Proof.
  destruct (allTables_walk d) as [[Hnd _] Hin].
  split; [exact Hnd|exact Hin].
Qed.

Lemma isValidTable_absent (relaxedMode : bool) :
  isValidTable None relaxedMode = false.
Proof. reflexivity. Qed.

Lemma found_is_filtered (d : Document) (relaxedMode : bool) :
  fst (findTables d relaxedMode)
  = List.filter (fun t => isValidTable (elements d !! t) relaxedMode)
      (allTables d).
Proof. unfold findTables. by destruct (describe _ _ _). Qed.

Lemma found_spec (d : Document) (relaxedMode : bool) :
  let found := fst (findTables d relaxedMode) in
  NoDup found
  /\ candidatesResolve d found
  /\ forall t, t ∈ found
               <-> reachable d t
                   /\ isValidTable (elements d !! t) relaxedMode = true.
Proof.
  cbv zeta. rewrite found_is_filtered.
  destruct (allTables_walk d) as [[Hnd _] Hin]. cbn [fst] in Hnd.
  split; [by apply NoDup_ListNoDup, List.NoDup_filter, NoDup_ListNoDup|].
  assert (forall t,
            t ∈ List.filter
                  (fun t => isValidTable (elements d !! t) relaxedMode)
                  (allTables d)
            <-> reachable d t
                /\ isValidTable (elements d !! t) relaxedMode = true) as Hf.
  { intros t. rewrite list_elem_of_In, filter_In, <- list_elem_of_In.
    by rewrite Hin. }
  split; [|done].
  intros t [_ Hv]%Hf. destruct (elements d !! t); [done|].
  by rewrite isValidTable_absent in Hv.
Qed.

(** X2: the candidates [findTables] keeps are the reachable tables
    that pass the validator, each once, and every one of them is an
    element of the page. *)
Theorem X2_candidates_are_valid_elements (d : Document) (relaxedMode : bool) :
  let found := fst (findTables d relaxedMode) in
  NoDup found
  /\ candidatesResolve d found
  /\ forall t, t ∈ found
               <-> reachable d t
                   /\ isValidTable (elements d !! t) relaxedMode = true.
Proof.
  destruct (found_spec d relaxedMode) as (Hnd & Hres & Hin).
  cbv zeta. split; [exact Hnd|]. split; [exact Hres|exact Hin].
Qed.

Lemma resolve_denote (d : Document) (refs : list N) :
  candidatesResolve d refs -> exists tables, denote d refs tables.
Proof.
  induction refs as [|r refs IH]; intros H.
  - exists []. constructor.
  - destruct (H r) as [table Ht]; [left|].
    destruct IH as [tables Hd].
    { intros t Ht'. apply H. by right. }
    exists (table :: tables). by constructor.
Qed.

Lemma describe_denote (d : Document) (refs : list N) (tables : list Table) :
  denote d refs tables ->
  forall index,
    describe d index refs
    = Some (imap (fun i => descriptor (index + i)) tables).
Proof.
  induction 1 as [|r t refs tables Hr _ IH]; intros index; [done|].
  cbn [describe imap]. rewrite Hr. cbn [getTableInfo]. rewrite IH.
  cbn [fmap option_fmap option_map]. f_equal. f_equal.
  - unfold descriptor. f_equal. lia.
  - apply imap_ext. intros i x _. cbn. unfold descriptor. f_equal. lia.
Qed.

Lemma descriptor_ids (tables : list Table) :
  forall k,
    info_id <$> imap (fun i => descriptor (k + i)) tables
    = seq k (length tables).
Proof.
  induction tables as [|t tables IH]; intros k; [done|].
  cbn [imap fmap list_fmap length seq]. f_equal; [cbn; lia|].
  rewrite <- (IH (S k)). f_equal. apply imap_ext. intros i x _. cbn.
  unfold descriptor. f_equal. lia.
Qed.

(** X3: [findTables] always returns one descriptor per candidate (its
    own [catch] is never reached): the descriptor at position i has id
    i and carries the row count, first-row cell count and preview of
    the i-th candidate. *)
Theorem X3_one_descriptor_per_candidate (d : Document) (relaxedMode : bool) :
  exists tables,
    denote d (fst (findTables d relaxedMode)) tables
    /\ snd (findTables d relaxedMode) = imap descriptor tables
    /\ length (snd (findTables d relaxedMode))
       = length (fst (findTables d relaxedMode))
    /\ info_id <$> snd (findTables d relaxedMode)
       = seq 0 (length (fst (findTables d relaxedMode))).
Proof.
  destruct (found_spec d relaxedMode) as (_ & Hres & _).
  cbv zeta in Hres. destruct (resolve_denote _ _ Hres) as [tables Hd].
  exists tables. split; [done|].
  pose proof (Forall2_length _ _ _ Hd) as Hlen.
  rewrite found_is_filtered in Hd, Hlen |- *.
  assert (snd (findTables d relaxedMode) = imap descriptor tables) as ->.
  { unfold findTables. by rewrite (describe_denote _ _ _ Hd 0). }
  split; [done|]. split; [by rewrite length_imap|].
  rewrite Hlen. apply (descriptor_ids tables 0).
Qed.

Lemma truthy_nonempty (s : jsstring) : truthy s = true -> 0 < length s.
Proof. destruct s; [done|]. cbn. lia. Qed.

(** X4: a cell contributes to the preview at most 18 code units (15
    and the ellipsis), never an empty text and never the
    encoding-problem marker. *)
Theorem X4_cell_preview_is_bounded (cell : Cell) (text : jsstring) :
  cellPreview cell = Some text ->
  0 < length text <= 18 /\ text <> u "[编码问题]".
Proof.
  unfold cellPreview.
  set (t0 := if negb _ then _ else _).
  destruct (truthy t0); [|done].
  set (t1 := if hasCJK t0 then _ else _).
  set (t2 := if 15 <? length t1 then _ else _).
  destruct (truthy t2) eqn:Htr; [|done]. cbn [andb].
  destruct (eqb t2 (u "[编码问题]")) eqn:He; [done|]. cbn [negb].
  intros [= <-]. split.
  - split; [by apply truthy_nonempty|].
    subst t2. destruct (15 <? length t1) eqn:Hl.
    + rewrite length_app. unfold substring0. rewrite length_take.
      change (length (u "...")) with 3. lia.
    + apply Nat.ltb_ge in Hl. lia.
  - unfold eqb in He. by apply bool_decide_eq_false in He.
Qed.

(** An instance: a cell with a long text. *)
Lemma X4_cell_preview_witness :
  0 < length (u "2024-01-15 10:3...") <= 18
  /\ u "2024-01-15 10:3..." <> u "[编码问题]".
Proof.
  apply (X4_cell_preview_is_bounded
           (Sample.cell "2024-01-15 10:30:00 UTC")
           (u "2024-01-15 10:3...")).
  vm_compute. reflexivity.
Defined.

(** X5: the validator rejects an absent node in either mode.  For a
    table whose computed style can be read, it rejects in either mode
    the table that is hidden ([display: none] or [visibility:
    hidden]), the one without rows, and the one whose box is less than
    10 wide or less than 5 high.  When reading the computed style
    throws, the [catch] answers with the mode itself: the table is
    rejected in standard mode and accepted in relaxed mode, whatever
    its rows and its box. *)
Theorem X5_rejected_unless_style_unreadable (t : Table)
  (relaxedMode : bool) :
  isValidTable None relaxedMode = false
  /\ (forall cs,
        computedStyle t = Some cs ->
        display cs = u "none" \/ visibility cs = u "hidden" \/ rows t = []
        \/ (width (boundingClientRect t) < 10)%Q
        \/ (height (boundingClientRect t) < 5)%Q ->
        isValidTable (Some t) relaxedMode = false)
  /\ (computedStyle t = None ->
      isValidTable (Some t) relaxedMode = relaxedMode).
Proof.
  split; [done|]. split.
  - intros cs Hcs H.
    unfold isValidTable, isValidTable_try. rewrite Hcs.
    assert (forall a b : Q, (a < b)%Q -> Qltb a b = true) as Hlt.
    { intros a b Hab. unfold Qltb. apply negb_true_iff.
      destruct (Qle_bool b a) eqn:E; [|done].
      apply Qle_bool_iff in E. by apply Qle_not_lt in E. }
    destruct H as [H|[H|[H|[H|H]]]].
    + rewrite H. by change (eqb (u "none") (u "none")) with true.
    + rewrite H. change (eqb (u "hidden") (u "hidden")) with true.
      by rewrite orb_true_r.
    + rewrite H. cbn [length]. change (0 <? 1) with true.
      by destruct (_ || _).
    + rewrite (Hlt _ _ H). cbn [orb].
      repeat match goal with
             | |- context [if ?b then _ else _] => destruct b; try done
             end.
    + rewrite (Hlt _ _ H), orb_true_r.
      repeat match goal with
             | |- context [if ?b then _ else _] => destruct b; try done
             end.
  - intros Hcs. unfold isValidTable, isValidTable_try. by rewrite Hcs.
Qed.

(** Instances: a visible table without rows is rejected in both
    modes; a table without rows and without a box whose style cannot
    be read is rejected in standard mode and accepted in relaxed
    mode. *)
Lemma X5_rejected_witness :
  isValidTable (Some Sample.emptyTable) true = false
  /\ isValidTable (Some Sample.emptyTable) false = false
  /\ isValidTable (Some Sample.unreadableTable) false = false
  /\ isValidTable (Some Sample.unreadableTable) true = true.
Proof.
  split; [|split; [|split]].
  - apply (X5_rejected_unless_style_unreadable Sample.emptyTable true)
      with (cs := {| display := u "table"; visibility := u "visible" |}).
    + reflexivity.
    + right. right. left. reflexivity.
  - apply (X5_rejected_unless_style_unreadable Sample.emptyTable false)
      with (cs := {| display := u "table"; visibility := u "visible" |}).
    + reflexivity.
    + right. right. left. reflexivity.
  - apply (X5_rejected_unless_style_unreadable Sample.unreadableTable false).
    reflexivity.
  - apply (X5_rejected_unless_style_unreadable Sample.unreadableTable true).
    reflexivity.
Defined.

Lemma blank_scan (t : Table) : blankWindow t -> scanContent t = false.
Proof.
  intros Hb. unfold scanContent.
  destruct (existsb _ _) eqn:E; [|done].
  apply existsb_exists in E as (row & Hrow & E).
  apply existsb_exists in E as (cell & Hcell & E).
  apply list_elem_of_In in Hrow. apply list_elem_of_In in Hcell.
  destruct (Hb row Hrow cell Hcell) as [Ht Hi].
  unfold cellHasContent in E. by rewrite Ht, Hi in E.
Qed.

(** X6: in standard mode a visible, large enough table outside any
    date-picker whose scanned cells (the first 10 cells of each of its
    first 5 rows) are all blank is accepted exactly when it has at
    least two rows and at least two cells in its first row, whatever
    the cells outside the scanned ones hold. *)
Theorem X6_blank_tables_need_structure (t : Table) :
  visible t -> largeEnough t -> closestDatepicker t = false ->
  blankWindow t ->
  (isValidTable (Some t) false = true
   <-> 2 <= length (rows t) /\ 2 <= firstRowCells t).
Proof.
  intros (cs & Hcs & Hd & Hv) [Hw Hh] Hdp Hb.
  unfold isValidTable, isValidTable_try.
  rewrite Hcs, (eqb_false _ _ Hd), (eqb_false _ _ Hv), Hdp.
  rewrite (blank_scan t Hb), (Qltb_false _ _ Hw), (Qltb_false _ _ Hh).
  cbn [orb negb andb].
  destruct (length (rows t) <? 1) eqn:H1.
  - apply Nat.ltb_lt in H1. split; [done|lia].
  - destruct (2 <=? length (rows t)) eqn:H2, (2 <=? firstRowCells t) eqn:H3;
      cbn [andb negb];
      rewrite ?Nat.leb_le, ?Nat.leb_gt in *; split; try done; lia.
Qed.

(** An instance: six rows of two cells with text in the sixth row
    only, which the scan does not reach. *)
Lemma X6_blank_tables_witness :
  isValidTable (Some Sample.lateTextTable) false = true.
Proof.
  apply (X6_blank_tables_need_structure Sample.lateTextTable).
  - eexists. split; [reflexivity|]. split; vm_compute; discriminate.
  - split; vm_compute; discriminate.
  - reflexivity.
  - intros row Hrow cell Hcell.
    change (take 5 (rows Sample.lateTextTable))
      with (replicate 5 {| cells := [Sample.cell ""; Sample.cell ""] |})
      in Hrow.
    apply elem_of_replicate in Hrow as [-> _].
    change (take 10 (cells {| cells := [Sample.cell ""; Sample.cell ""] |}))
      with [Sample.cell ""; Sample.cell ""] in Hcell.
    repeat (apply elem_of_cons in Hcell as [->|Hcell];
            [split; reflexivity|]).
    by apply elem_of_nil in Hcell.
  - split; vm_compute; lia.
Defined.

End Locator.

Section Highlighter.

Lemma enhanced_clear_other (found : list N) :
  forall (d : Document) (k : N),
    k ∉ found ->
    elements (Enhanced.clearHighlight found d) !! k = elements d !! k.
Proof.
  unfold Enhanced.clearHighlight.
  induction found as [|x found IH]; intros d k Hk; [done|].
  apply not_elem_of_cons in Hk as [Hne Hk].
  cbn [fold_left]. rewrite IH by done. cbn [elements set_elements].
  by apply lookup_alter_ne.
Qed.

Lemma enhanced_clear_keeps (found : list N) :
  forall (d : Document) (k : N),
    (forall table, elements d !! k = Some table -> unmarked table) ->
    forall table,
      elements (Enhanced.clearHighlight found d) !! k = Some table ->
      unmarked table.
Proof.
  unfold Enhanced.clearHighlight.
  induction found as [|x found IH]; intros d k Hd; [done|].
  cbn [fold_left]. apply IH. cbn [elements set_elements].
  intros table. destruct (decide (x = k)) as [->|Hne].
  - rewrite lookup_alter_eq. destruct (elements d !! k); [|done].
    intros [= <-]. by split.
  - rewrite lookup_alter_ne by done. apply Hd.
Qed.

Lemma enhanced_clear_found (found : list N) :
  forall (d : Document) (k : N),
    k ∈ found ->
    forall table,
      elements (Enhanced.clearHighlight found d) !! k = Some table ->
      unmarked table.
Proof.
  induction found as [|x found IH]; intros d k Hk.
  - by apply elem_of_nil in Hk.
  - destruct (decide (k = x)) as [->|Hne].
    + change (Enhanced.clearHighlight (x :: found) d)
        with (Enhanced.clearHighlight found
                (set_elements
                   (alter (set_inlineStyle (fun s =>
                      {| outline := []; outlineOffset := outlineOffset s;
                         backgroundColor := [] |})) x) d)).
      apply enhanced_clear_keeps. cbn [elements set_elements].
      intros table. rewrite lookup_alter_eq.
      destruct (elements d !! x); [|done]. intros [= <-]. by split.
    + apply elem_of_cons in Hk as [->|Hk]; [done|].
      change (Enhanced.clearHighlight (x :: found) d)
        with (Enhanced.clearHighlight found
                (set_elements
                   (alter (set_inlineStyle (fun s =>
                      {| outline := []; outlineOffset := outlineOffset s;
                         backgroundColor := [] |})) x) d)).
      by apply IH.
Qed.

Lemma enhanced_clear_is_Some (found : list N) :
  forall (d : Document) (k : N),
    is_Some (elements d !! k) ->
    is_Some (elements (Enhanced.clearHighlight found d) !! k).
Proof.
  unfold Enhanced.clearHighlight.
  induction found as [|x found IH]; intros d k Hk; [done|].
  cbn [fold_left]. apply IH. cbn [elements set_elements].
  destruct (decide (x = k)) as [->|Hne].
  - rewrite lookup_alter_eq. by apply fmap_is_Some.
  - by rewrite lookup_alter_ne.
Qed.

(** X7: after the enhanced script highlights a candidate, that
    candidate carries the highlight and is the scroll target, every
    other candidate carries none, the tables outside the candidates
    are as they were, and the candidates are unchanged. *)
Theorem X7_one_highlight_among_candidates (tableId : Z) (t : N)
  (st : Enhanced.State) :
  (0 <= tableId)%Z ->
  Enhanced.foundTables st !! Z.to_nat tableId = Some t ->
  is_Some (elements (Enhanced.doc st) !! t) ->
  let st' := Enhanced.highlightTable tableId st in
  (exists table, elements (Enhanced.doc st') !! t = Some table /\ marked table)
  /\ (forall t' table,
        t' ∈ Enhanced.foundTables st -> t' <> t ->
        elements (Enhanced.doc st') !! t' = Some table -> unmarked table)
  /\ (forall t', t' ∉ Enhanced.foundTables st ->
        elements (Enhanced.doc st') !! t'
        = elements (Enhanced.doc st) !! t')
  /\ scrolledTo (Enhanced.doc st') = Some t
  /\ Enhanced.foundTables st' = Enhanced.foundTables st.
Proof.
  intros Hpos Hlook Hsome. cbv zeta. unfold Enhanced.highlightTable.
  change (Enhanced.foundTables
            (Enhanced.set_doc
               (Enhanced.clearHighlight (Enhanced.foundTables st)) st))
    with (Enhanced.foundTables st).
  assert (Enhanced.inRange tableId (Enhanced.foundTables st) = true) as ->.
  { unfold Enhanced.inRange. apply lookup_lt_Some in Hlook.
    apply andb_true_iff. split; [apply Z.leb_le|apply Z.ltb_lt]; lia. }
  rewrite Hlook.
  cbn [Enhanced.doc Enhanced.set_doc Enhanced.foundTables elements
       set_elements set_scrolledTo scrolledTo].
  split.
  - rewrite lookup_alter_eq.
    destruct (enhanced_clear_is_Some (Enhanced.foundTables st)
                (Enhanced.doc st) t Hsome) as [table ->].
    eexists. split; [reflexivity|]. by split.
  - split; [|split; [|done]].
    + intros t' table Hin Hne. rewrite lookup_alter_ne by done.
      by apply enhanced_clear_found.
    + intros t' Hnot.
      rewrite lookup_alter_ne
        by (intros ->; apply Hnot; by eapply list_elem_of_lookup_2).
      by apply enhanced_clear_other.
Qed.

Lemma X7_one_highlight_witness :
  scrolledTo
    (Enhanced.doc
       (Enhanced.highlightTable 0 (Sample.enhancedOn Sample.dataTable)))
  = Some 1%N.
Proof.
  apply (X7_one_highlight_among_candidates 0 1%N
           (Sample.enhancedOn Sample.dataTable)).
  - lia.
  - reflexivity.
  - eexists. reflexivity.
Defined.

Lemma basic_clear_tracked (st : Basic.State) :
  tracked st ->
  tracked (Basic.clearHighlight st)
  /\ forall t table,
       elements (Basic.doc (Basic.clearHighlight st)) !! t = Some table ->
       outline (inlineStyle table) = [].
Proof.
  intros Htr. unfold Basic.clearHighlight.
  destruct (Basic.previouslyHighlighted st) as [p|] eqn:Hp.
  - assert (forall t table,
              elements
                (Basic.doc
                   (Basic.set_previouslyHighlighted None
                      (Basic.set_doc
                         (set_elements
                            (alter (set_inlineStyle (fun s =>
                               {| outline := [];
                                  outlineOffset := outlineOffset s;
                                  backgroundColor := backgroundColor s |}))
                               p)) st))) !! t = Some table ->
              outline (inlineStyle table) = []) as Hall.
    { intros t table.
      cbn [Basic.doc Basic.set_doc Basic.set_previouslyHighlighted
           elements set_elements].
      destruct (decide (p = t)) as [->|Hne].
      - rewrite lookup_alter_eq.
        destruct (elements (Basic.doc st) !! t); [|done]. by intros [= <-].
      - rewrite lookup_alter_ne by done. intros Ht.
        destruct (outline (inlineStyle table)) eqn:Ho; [done|].
        assert (Some p = Some t) as [= ->]; [|done].
        rewrite <- Hp. apply (Htr t table Ht). by rewrite Ho. }
    split; [|exact Hall].
    intros t table Ht Ho. by rewrite (Hall t table Ht) in Ho.
  - assert (forall t table,
              elements (Basic.doc st) !! t = Some table ->
              outline (inlineStyle table) = []) as Hall.
    { intros t table Ht.
      destruct (outline (inlineStyle table)) eqn:Ho; [done|].
      assert (None = Some t) as Habs; [|done].
      rewrite <- Hp. apply (Htr t table Ht). by rewrite Ho. }
    split; [done|exact Hall].
Qed.

(** X8: in the basic script the table recorded as highlighted is the
    only one that can carry an outline: if that holds before a
    highlight command, it holds after it, whatever the id, and after
    an id out of range no table carries an outline. *)
Theorem X8_basic_highlight_is_tracked (tableId : Z) (st : Basic.State) :
  tracked st ->
  tracked (Basic.highlightTable tableId st)
  /\ ((tableId < 0 \/ Z.of_nat (length (Basic.foundTables st)) <= tableId)%Z ->
      Basic.previouslyHighlighted (Basic.highlightTable tableId st) = None
      /\ forall t table,
           elements (Basic.doc (Basic.highlightTable tableId st)) !! t
           = Some table ->
           outline (inlineStyle table) = []).
Proof.
  intros Htr. destruct (basic_clear_tracked st Htr) as [Hc Hall].
  assert (Basic.foundTables (Basic.clearHighlight st) = Basic.foundTables st)
    as Hfound.
  { unfold Basic.clearHighlight. by destruct (Basic.previouslyHighlighted st). }
  assert (Basic.previouslyHighlighted (Basic.clearHighlight st) = None)
    as Hnone.
  { unfold Basic.clearHighlight.
    by destruct (Basic.previouslyHighlighted st) eqn:Hp. }
  unfold Basic.highlightTable. rewrite Hfound. split.
  - destruct (Basic.at_index (Basic.foundTables st) tableId) as [t|]; [|done].
    intros t' table.
    cbn [Basic.doc Basic.set_doc Basic.set_previouslyHighlighted
         Basic.previouslyHighlighted elements set_elements].
    destruct (decide (t = t')) as [->|Hne]; [done|].
    rewrite lookup_alter_ne by done. intros Ht Ho.
    by rewrite (Hall t' table Ht) in Ho.
  - intros Hout. by rewrite (at_index_outside _ _ Hout).
Qed.

Lemma X8_basic_highlight_witness :
  tracked (Basic.highlightTable 0 (Sample.basicOn Sample.dataTable)).
Proof.
  apply (X8_basic_highlight_is_tracked 0 (Sample.basicOn Sample.dataTable)).
  intros t table Ht Ho. exfalso. apply Ho.
  destruct (decide (t = 1%N)) as [->|Hne].
  - vm_compute in Ht. by injection Ht as <-.
  - cbn in Ht. rewrite lookup_singleton_ne in Ht by done. done.
Defined.

End Highlighter.

Section ExportEffects.

Lemma append_remove (c : BodyChild) (b : Body) :
  children (removeLast c (createAndAppend c b)) = children b.
Proof.
  unfold removeLast, createAndAppend. cbn [children].
  rewrite length_app. cbn [length].
  replace (length (children b) + 1 - 1) with (length (children b)) by lia.
  apply take_app_length.
Qed.

Lemma removeLast_children (c x : BodyChild) (b : Body) (l : list BodyChild) :
  children b = l ++ [x] -> children (removeLast c b) = l.
Proof.
  intros H. unfold removeLast. cbn [children]. rewrite H, length_app.
  cbn [length]. replace (length l + 1 - 1) with (length l) by lia.
  apply take_app_length.
Qed.

Lemma basic_writeOut_children (cb : Clipboard) (text : jsstring) (b : Body) :
  children (fst (Basic.writeOut cb text b)) = children b.
Proof.
  unfold Basic.writeOut.
  destruct (Basic.supportsClipboardAPI cb && writeTextResolves cb); [done|].
  destruct (execCommandCopy cb) as [e|[|]]; cbn [fst]; apply append_remove.
Qed.

Lemma basic_export_children (cb : Clipboard) (text : option jsstring)
  (st : Basic.State) (fallback : Basic.State * ChromeResponse) :
  children (Basic.body (fst fallback)) = children (Basic.body st) ->
  children
    (Basic.body
       (fst (match text with
             | None => fallback
             | Some text =>
                 let '(b, r) := Basic.writeOut cb text (Basic.body st) in
                 (Basic.set_body (fun _ => b) st, r)
             end)))
  = children (Basic.body st).
Proof.
  intros Hf. destruct text as [text|]; [|done].
  pose proof (basic_writeOut_children cb text (Basic.body st)) as H.
  by destruct (Basic.writeOut cb text (Basic.body st)).
Qed.

(** X9: whatever the platform does (clipboard API present or not,
    write resolved or rejected, copy command returning or throwing),
    none of the three exports of the basic script leaves an element
    behind in the page: the children of the body are those from
    before the call. *)
Theorem X9_basic_exports_leave_no_element (cb : Clipboard) (st : Basic.State) :
  children (Basic.body (fst (Basic.copyTablesToClipboard cb st)))
  = children (Basic.body st)
  /\ (forall tableId,
        children
          (Basic.body (fst (Basic.copySingleTableToClipboard cb tableId st)))
        = children (Basic.body st))
  /\ (forall selectedIds,
        children
          (Basic.body
             (fst (Basic.copySelectedTablesToClipboard cb selectedIds st)))
        = children (Basic.body st)).
Proof.
  split; [|split].
  - unfold Basic.copyTablesToClipboard.
    destruct (length (Basic.foundTables st) =? 0); [done|].
    by apply basic_export_children.
  - intros tableId. unfold Basic.copySingleTableToClipboard.
    destruct (_ || _)%Z; [done|].
    destruct (Basic.foundTables st !! Z.to_nat tableId
              ≫= (elements (Basic.doc st) !!.)) as [table|]; [|done].
    pose proof (basic_writeOut_children cb
                  (Basic.labelled (Z.to_nat (tableId + 1)) table)
                  (Basic.body st)) as H.
    by destruct (Basic.writeOut cb _ (Basic.body st)).
  - intros selectedIds. unfold Basic.copySelectedTablesToClipboard.
    destruct (length selectedIds =? 0); [done|].
    destruct (mapM (Basic.selectedText st) selectedIds) as [texts|]; [|done].
    destruct (negb (truthy (join LF (Basic.filterBoolean texts)))); [done|].
    pose proof (basic_writeOut_children cb
                  (join LF (Basic.filterBoolean texts)) (Basic.body st)) as H.
    by destruct (Basic.writeOut cb _ (Basic.body st)).
Qed.

(** X10: the enhanced script does leave elements behind.  When the
    clipboard API is present but rejects the write, the temporary
    button stays in the page after the export, and when the legacy
    copy command throws, the text area with the payload stays; in
    every other case the children of the body are those from before
    the call. *)
Theorem X10_enhanced_export_leftovers (cb : Clipboard) (text : jsstring)
  (b : Body) :
  let b' := fst (Enhanced.writeOut cb text b) in
  let rejected := navigatorClipboard cb && negb (writeTextResolves cb) in
  let accepted := navigatorClipboard cb && writeTextResolves cb in
  (accepted = true -> children b' = children b)
  /\ (accepted = false ->
      forall returned, execCommandCopy cb = inr returned ->
      children b'
      = children b ++ (if rejected then [TempButton] else []))
  /\ (accepted = false ->
      forall thrown, execCommandCopy cb = inl thrown ->
      children b'
      = children b ++ (if rejected then [TempButton] else [])
        ++ [TextArea text]).
Proof.
  cbv zeta. unfold Enhanced.writeOut, Enhanced.supportsClipboardAPI.
  destruct (navigatorClipboard cb), (writeTextResolves cb);
    cbn [andb negb]; (split; [|split]); try done;
    intros _; try (intros x Hx; rewrite Hx; try destruct x);
    cbn [fst negb];
    try (erewrite removeLast_children; [|reflexivity]);
    cbn [children createAndAppend writeClipboard];
    by rewrite ?app_nil_r, <- ?app_assoc.
Qed.

Lemma X10_enhanced_export_witness :
  children
    (Enhanced.body
       (fst (Enhanced.copySingleTableToClipboard Sample.rejectingClipboard 0
               (Sample.enhancedOn Sample.dataTable))))
  = [TempButton].
Proof.
  apply (proj1 (proj2 (X10_enhanced_export_leftovers
                         Sample.rejectingClipboard
                         (outerHTML Sample.dataTable) Sample.emptyBody))
           eq_refl true eq_refl).
Defined.

(** X11: for a candidate id in range, the single-table export of
    either script reports success exactly when the clipboard accepts
    the write, and then the clipboard holds the markup of that table:
    bare in the enhanced script, under the label with the id plus one
    in the basic script. *)
Theorem X11_single_export_result (cb : Clipboard) (tableId : Z) (t : N)
  (table : Table) :
  (0 <= tableId)%Z ->
  (forall st : Enhanced.State,
     Enhanced.foundTables st !! Z.to_nat tableId = Some t ->
     elements (Enhanced.doc st) !! t = Some table ->
     let result := Enhanced.copySingleTableToClipboard cb tableId st in
     (success (snd result) = Some true
      <-> clipboardAccepts (Enhanced.supportsClipboardAPI cb) cb = true)
     /\ (success (snd result) = Some true ->
         clipboard (Enhanced.body (fst result)) = Some (outerHTML table)))
  /\ (forall st : Basic.State,
        Basic.foundTables st !! Z.to_nat tableId = Some t ->
        elements (Basic.doc st) !! t = Some table ->
        let result := Basic.copySingleTableToClipboard cb tableId st in
        (success (snd result) = Some true
         <-> clipboardAccepts (Basic.supportsClipboardAPI cb) cb = true)
        /\ (success (snd result) = Some true ->
            clipboard (Basic.body (fst result))
            = Some (indexLabel (Z.to_nat tableId + 1) ++ LF
                    ++ outerHTML table ++ LF))).
Proof.
  intros Hpos.
  assert (forall (A : Type) (l : list A), l !! Z.to_nat tableId <> None ->
            ((tableId <? 0) || (Z.of_nat (length l) <=? tableId))%Z = false)
    as Hin.
  { intros A l Hl. apply orb_false_iff.
    destruct (l !! Z.to_nat tableId) eqn:E; [|done].
    apply lookup_lt_Some in E.
    split; [apply Z.ltb_ge|apply Z.leb_gt]; lia. }
  split; intros st Hl Ht; cbv zeta.
  - unfold Enhanced.copySingleTableToClipboard.
    rewrite Hin by (by rewrite Hl). rewrite Hl. cbn [mbind option_bind].
    rewrite Ht.
    pose proof (enhanced_writeOut_success cb (outerHTML table)
                  (Enhanced.body st)) as Hs.
    pose proof (enhanced_writeOut_accepts cb (outerHTML table)
                  (Enhanced.body st)) as Hyes.
    pose proof (enhanced_writeOut_refuses cb (outerHTML table)
                  (Enhanced.body st)) as Hno.
    destruct (Enhanced.writeOut cb (outerHTML table) (Enhanced.body st))
      as [b r]. cbn [fst snd Enhanced.body Enhanced.set_body] in *.
    split; [|exact Hs].
    destruct (clipboardAccepts (Enhanced.supportsClipboardAPI cb) cb).
    + by rewrite Hyes.
    + rewrite Hno by done. by split.
  - unfold Basic.copySingleTableToClipboard.
    rewrite Hin by (by rewrite Hl). rewrite Hl. cbn [mbind option_bind].
    rewrite Ht.
    replace (Z.to_nat (tableId + 1)) with (Z.to_nat tableId + 1) by lia.
    assert (Basic.labelled (Z.to_nat tableId + 1) table
            = indexLabel (Z.to_nat tableId + 1) ++ LF ++ outerHTML table ++ LF)
      as ->.
    { unfold Basic.labelled, indexLabel. by rewrite <- !app_assoc. }
    set (text := indexLabel _ ++ _).
    pose proof (basic_writeOut_success cb text (Basic.body st)) as Hs.
    pose proof (basic_writeOut_accepts cb text (Basic.body st)) as Hyes.
    pose proof (basic_writeOut_refuses cb text (Basic.body st)) as Hno.
    destruct (Basic.writeOut cb text (Basic.body st)) as [b r].
    cbn [fst snd Basic.body Basic.set_body] in *.
    split; [|exact Hs].
    destruct (clipboardAccepts (Basic.supportsClipboardAPI cb) cb).
    + by rewrite Hyes.
    + rewrite Hno by done. by split.
Qed.

Lemma X11_single_export_witness :
  clipboard
    (Basic.body
       (fst (Basic.copySingleTableToClipboard Sample.workingClipboard 0
               (Sample.basicOn Sample.dataTable))))
  = Some (indexLabel (Z.to_nat 0 + 1) ++ LF
          ++ outerHTML Sample.dataTable ++ LF).
Proof.
  refine (proj2 (proj2 (X11_single_export_result Sample.workingClipboard 0
                          1%N Sample.dataTable _)
                   (Sample.basicOn Sample.dataTable) _ _) _).
  - lia.
  - reflexivity.
  - reflexivity.
  - reflexivity.
Defined.

(** X12: the all-tables export of either script reports success
    exactly when there is a candidate and the clipboard accepts the
    write; without candidates it answers with an error and touches
    nothing. *)
Theorem X12_all_tables_export_result (cb : Clipboard) :
  (forall st : Enhanced.State,
     candidatesResolve (Enhanced.doc st) (Enhanced.foundTables st) ->
     let result := Enhanced.copyTablesToClipboard cb st in
     (success (snd result) = Some true
      <-> Enhanced.foundTables st <> []
          /\ clipboardAccepts (Enhanced.supportsClipboardAPI cb) cb = true)
     /\ (Enhanced.foundTables st = [] ->
         fst result = st /\ success (snd result) = Some false))
  /\ (forall st : Basic.State,
        candidatesResolve (Basic.doc st) (Basic.foundTables st) ->
        let result := Basic.copyTablesToClipboard cb st in
        (success (snd result) = Some true
         <-> Basic.foundTables st <> []
             /\ clipboardAccepts (Basic.supportsClipboardAPI cb) cb = true)
        /\ (Basic.foundTables st = [] ->
            fst result = st /\ success (snd result) = Some false)).
Proof.
  split; intros st Hwf; cbv zeta.
  - unfold Enhanced.copyTablesToClipboard.
    destruct (Enhanced.foundTables st) as [|r refs] eqn:Hfound.
    { cbn [length Nat.eqb snd fst]. split; [|done].
      split; [done|]. by intros [? _]. }
    cbn [length Nat.eqb].
    destruct (resolve_denote _ _ Hwf) as [tables Hd].
    unfold Enhanced.tableHtml. rewrite (outerHTMLs_denote _ _ _ Hd).
    cbn [fmap option_fmap option_map].
    set (text := join _ _).
    pose proof (enhanced_writeOut_accepts cb text (Enhanced.body st)) as Hyes.
    pose proof (enhanced_writeOut_refuses cb text (Enhanced.body st)) as Hno.
    destruct (Enhanced.writeOut cb text (Enhanced.body st)) as [b r'].
    cbn [fst snd] in *. split; [|done].
    destruct (clipboardAccepts (Enhanced.supportsClipboardAPI cb) cb).
    + rewrite Hyes by done. by split.
    + rewrite Hno by done. split; [done|]. by intros [_ ?].
  - unfold Basic.copyTablesToClipboard.
    destruct (Basic.foundTables st) as [|r refs] eqn:Hfound.
    { cbn [length Nat.eqb snd fst]. split; [|done].
      split; [done|]. by intros [? _]. }
    cbn [length Nat.eqb].
    destruct (resolve_denote _ _ Hwf) as [tables Hd].
    unfold Basic.tablesText. rewrite (labelAll_denote _ _ _ Hd 0).
    cbn [fmap option_fmap option_map].
    set (text := join _ _).
    pose proof (basic_writeOut_accepts cb text (Basic.body st)) as Hyes.
    pose proof (basic_writeOut_refuses cb text (Basic.body st)) as Hno.
    destruct (Basic.writeOut cb text (Basic.body st)) as [b r'].
    cbn [fst snd] in *. split; [|done].
    destruct (clipboardAccepts (Basic.supportsClipboardAPI cb) cb).
    + rewrite Hyes by done. by split.
    + rewrite Hno by done. split; [done|]. by intros [_ ?].
Qed.

Lemma X12_all_tables_export_witness :
  success
    (snd (Enhanced.copyTablesToClipboard Sample.workingClipboard
            (Sample.enhancedOn Sample.dataTable)))
  = Some true.
Proof.
  apply (proj1 (X12_all_tables_export_result Sample.workingClipboard)
           (Sample.enhancedOn Sample.dataTable)).
  - intros t Ht. apply list_elem_of_singleton in Ht as ->.
    eexists. reflexivity.
  - split; [simpl; discriminate|reflexivity].
Defined.

End ExportEffects.

Section Messaging.

Import Enhanced.

Lemma retryLoop_trace (chan : Channel) (m : Message) (remaining : nat) :
  forall i st,
    exists k,
      k <= remaining
      /\ (0 < remaining -> 0 < k)
      /\ sent (fst (retryLoop chan m i remaining st))
         = sent st ++ replicate k m
      /\ waits (fst (retryLoop chan m i remaining st))
         = waits st ++ (backoff <$> seq i (k - 1))
      /\ (forall e, snd (retryLoop chan m i remaining st) = inl e ->
            k = remaining)
      /\ backgroundReady (fst (retryLoop chan m i remaining st))
         = backgroundReady st.
Proof.
  induction remaining as [|remaining IH]; intros i st.
  - exists 0. cbn. rewrite !app_nil_r. repeat split; try done; lia.
  - cbn [retryLoop]. unfold sendMessage.
    destruct (chan (length (sent st))) as [e|r].
    + destruct remaining as [|remaining].
      * exists 1. cbn. rewrite app_nil_r. repeat split; try done; lia.
      * cbn [Nat.eqb].
        destruct (IH (S i) (log_wait (1000 * 2 ^ i) (log_sent m st)))
          as (k & Hk & Hpos & Hs & Hw & He & Hb).
        exists (S k). rewrite Hs, Hw.
        cbn [sent waits log_wait log_sent backgroundReady] in *.
        split; [lia|]. split; [lia|].
        split; [by rewrite <- app_assoc|].
        split; [|split; [|done]].
        -- destruct k as [|k]; [lia|].
           replace (S (S k) - 1) with (S k) by lia.
           replace (S k - 1) with k by lia.
           cbn [seq fmap list_fmap]. by rewrite <- app_assoc.
        -- intros e' He'. f_equal. by eapply He.
    + exists 1. cbn. rewrite app_nil_r. repeat split; try done; lia.
Qed.

(** X13: a send with retry makes at most [maxRetries] attempts (at
    least one when [maxRetries] is positive), preceded by a single
    readiness ping when the background was not known to be ready and
    the message is not itself a ping; between attempts it waits 1000,
    2000, 4000, ... milliseconds; and it ends with an error only after
    all [maxRetries] attempts were used. *)
Theorem X13_retry_is_bounded (chan : Channel) (m : Message)
  (maxRetries : nat) (st : State) :
  let result := sendMessageWithRetry chan m maxRetries st in
  exists k,
    k <= maxRetries
    /\ (0 < maxRetries -> 0 < k)
    /\ sent (fst result)
       = sent st
         ++ (if negb (backgroundReady st) && negb (isPing m)
             then [Ping] else [])
         ++ replicate k m
    /\ waits (fst result) = waits st ++ (backoff <$> seq 0 (k - 1))
    /\ (forall e, snd result = inl e -> k = maxRetries).
Proof.
  cbv zeta. unfold sendMessageWithRetry.
  destruct (negb (backgroundReady st) && negb (isPing m)).
  - unfold sendMessage.
    destruct (chan (length (sent st))) as [e|r];
      match goal with
      | |- context [retryLoop chan m 0 maxRetries ?s] =>
          destruct (retryLoop_trace chan m maxRetries 0 s)
            as (k & Hk & Hpos & Hs & Hw & He & _)
      end;
      exists k; rewrite Hs, Hw;
      cbn [sent waits log_sent set_backgroundReady];
      rewrite <- app_assoc; done.
  - destruct (retryLoop_trace chan m maxRetries 0 st)
      as (k & Hk & Hpos & Hs & Hw & He & _).
    exists k. by rewrite Hs, Hw.
Qed.

End Messaging.

Section Toggler.

(** X14: in either content script a toggle flips the protection flag,
    answers with success and the new value of the flag, and a status
    query right after it reports the same value. *)
Theorem X14_toggle_flips_the_flag :
  (forall st : Enhanced.State,
     let result := Enhanced.toggleCopyProtection st in
     Enhanced.copyProtectionDisabled (fst result)
     = negb (Enhanced.copyProtectionDisabled st)
     /\ success (snd result) = Some true
     /\ copyEnabled (snd result)
        = Some (negb (Enhanced.copyProtectionDisabled st))
     /\ Enhanced.checkCopyStatus (fst result) = snd result)
  /\ (forall st : Basic.State,
        let result := Basic.toggleCopyProtection st in
        Basic.copyProtectionDisabled (fst result)
        = negb (Basic.copyProtectionDisabled st)
        /\ success (snd result) = Some true
        /\ copyEnabled (snd result)
           = Some (negb (Basic.copyProtectionDisabled st))
        /\ Basic.checkCopyStatus (fst result) = snd result).
Proof.
  split; intros st; cbv zeta.
  - unfold Enhanced.toggleCopyProtection.
    by destruct (Enhanced.copyProtectionDisabled st).
  - unfold Basic.toggleCopyProtection.
    destruct (Basic.copyProtectionDisabled st).
    + done.
    + unfold Basic.disableCopyProtection.
      by destruct (fold_left Basic.visitSheet _ _).
Qed.

Lemma basic_double_toggle (st : Basic.State) :
  Basic.copyProtectionDisabled st = false ->
  Basic.copyProtectionDisabled (protectionCycle st) = false
  /\ listeners (Basic.styles (protectionCycle st))
     = listeners (Basic.styles st)
       ++ ((fun eventType => (eventType, StopPropagation)) <$> Basic.events)
       ++ [(u "contextmenu", PreventDefault);
           (u "selectstart", StopPropagation)].
Proof.
  intros Hflag. unfold protectionCycle, Basic.toggleCopyProtection.
  rewrite Hflag. unfold Basic.disableCopyProtection.
  destruct (fold_left Basic.visitSheet _ _) as [rules saved].
  cbn [fst Basic.copyProtectionDisabled Basic.set_copyProtectionDisabled].
  done.
Qed.

(** X15: the capturing listeners added by the disable path of the
    basic script are never removed: every disable and enable cycle
    leaves eleven more listeners on the document than before. *)
Theorem X15_listeners_accumulate (n : nat) (st : Basic.State) :
  Basic.copyProtectionDisabled st = false ->
  Basic.copyProtectionDisabled (Nat.iter n protectionCycle st) = false
  /\ length (listeners (Basic.styles (Nat.iter n protectionCycle st)))
     = length (listeners (Basic.styles st)) + 11 * n.
Proof.
  intros Hflag. induction n as [|n [IHf IHl]].
  - cbn. split; [done|lia].
  - change (Nat.iter (S n) protectionCycle st)
      with (protectionCycle (Nat.iter n protectionCycle st)).
    destruct (basic_double_toggle _ IHf) as [Hf Hl].
    split; [exact Hf|]. rewrite Hl, !length_app, IHl.
    change (length (_ <$> Basic.events)) with 9. cbn [length]. lia.
Qed.

Lemma X15_listeners_witness :
  length
    (listeners
       (Basic.styles (Nat.iter 2 protectionCycle Sample.basicProtected)))
  = length (listeners (Basic.styles Sample.basicProtected)) + 11 * 2.
Proof.
  apply (X15_listeners_accumulate 2 Sample.basicProtected). reflexivity.
Defined.

Lemma deleteBlocking_sublist (rules : gmap N CSSRule) (snapshot : list N) :
  forall index live,
    Enhanced.deleteBlocking rules snapshot index live `sublist_of` live.
Proof.
  induction snapshot as [|r snapshot IH]; intros index live; [done|].
  cbn [Enhanced.deleteBlocking].
  destruct (rules !! r) as [cssRule|]; [|done].
  destruct (Enhanced.blocksSelection cssRule); [|apply IH].
  destruct (index <? length live); [|done].
  etrans; [apply IH|apply sublist_delete].
Qed.

Lemma deleteBlocking_none (rules : gmap N CSSRule) (snapshot : list N) :
  Forall (fun r => ~ blocking rules r) snapshot ->
  forall index live,
    Enhanced.deleteBlocking rules snapshot index live = live.
Proof.
  induction 1 as [|r snapshot Hr _ IH]; intros index live; [done|].
  cbn [Enhanced.deleteBlocking].
  destruct (rules !! r) as [cssRule|] eqn:Hl; [|done].
  destruct (Enhanced.blocksSelection cssRule) eqn:Hb; [|apply IH].
  exfalso. apply Hr. by exists cssRule.
Qed.

Lemma deleteBlocking_some (rules : gmap N CSSRule) (snapshot : list N) :
  Forall (fun r => is_Some (rules !! r)) snapshot ->
  Exists (blocking rules) snapshot ->
  forall prefix,
    length (Enhanced.deleteBlocking rules snapshot (length prefix)
              (prefix ++ snapshot))
    < length (prefix ++ snapshot).
Proof.
  induction 1 as [|r snapshot [cssRule Hr] _ IH]; intros Hex prefix.
  - by apply Exists_nil in Hex.
  - cbn [Enhanced.deleteBlocking]. rewrite Hr.
    destruct (Enhanced.blocksSelection cssRule) eqn:Hb.
    + replace (length prefix <? length (prefix ++ r :: snapshot)) with true
        by (symmetry; apply Nat.ltb_lt; rewrite length_app; cbn; lia).
      pose proof (sublist_length _ _
                    (deleteBlocking_sublist rules snapshot (S (length prefix))
                       (delete (length prefix) (prefix ++ r :: snapshot))))
        as Hle.
      rewrite length_delete in Hle
        by (apply lookup_lt_is_Some_2; rewrite length_app; cbn; lia).
      rewrite length_app in Hle |- *. cbn [length] in Hle |- *. lia.
    + apply Exists_cons in Hex as [(c & Hc & Hbc)|Hex];
        [rewrite Hr in Hc; injection Hc as <-; congruence|].
      specialize (IH Hex (prefix ++ [r])).
      rewrite length_app in IH. cbn [length] in IH.
      replace (length prefix + 1) with (S (length prefix)) in IH by lia.
      by rewrite <- app_assoc in IH.
Qed.

(** X16: the disable path of the enhanced script only ever removes
    rules from a readable sheet, keeping the order of those that stay,
    and never touches the rule objects; a sheet whose rules all exist
    is left as it was exactly when none of its rules blocks
    selection. *)
Theorem X16_disable_only_removes_rules (st : Enhanced.State) (i : nat)
  (sheet : list N) :
  styleSheets (Enhanced.styles st) !! i = Some (Some sheet) ->
  let st' := Enhanced.disableCopyProtection st in
  cssRules (Enhanced.styles st') = cssRules (Enhanced.styles st)
  /\ exists sheet',
       styleSheets (Enhanced.styles st') !! i = Some (Some sheet')
       /\ sheet' `sublist_of` sheet
       /\ (Forall (fun r => is_Some (cssRules (Enhanced.styles st) !! r)) sheet ->
           (sheet' = sheet
            <-> Forall (fun r => ~ blocking (cssRules (Enhanced.styles st)) r)
                  sheet)).
Proof.
  intros Hi. cbv zeta. unfold Enhanced.disableCopyProtection.
  cbn [Enhanced.styles Enhanced.set_styles Enhanced.set_copyProtectionDisabled
       cssRules styleSheets].
  split; [done|].
  exists (Enhanced.deleteBlocking (cssRules (Enhanced.styles st)) sheet 0 sheet).
  split; [by rewrite list_lookup_fmap, Hi|].
  split; [apply deleteBlocking_sublist|].
  intros Hres. split.
  - intros Heq. apply Forall_forall. intros r Hr Hb.
    assert (Exists (blocking (cssRules (Enhanced.styles st))) sheet) as Hex.
    { apply Exists_exists. by exists r. }
    pose proof (deleteBlocking_some _ _ Hres Hex []) as Hlt.
    cbn [length app] in Hlt. rewrite Heq in Hlt. lia.
  - intros Hnone. by apply deleteBlocking_none.
Qed.

Lemma X16_disable_witness :
  exists sheet',
    styleSheets
      (Enhanced.styles
         (Enhanced.disableCopyProtection Sample.enhancedProtected)) !! 0
    = Some (Some sheet')
    /\ sheet' `sublist_of` [1%N; 2%N].
Proof.
  destruct (X16_disable_only_removes_rules Sample.enhancedProtected 0
              [1%N; 2%N] eq_refl) as (_ & sheet' & H1 & H2 & _).
  by exists sheet'.
Defined.

End Toggler.

Section Worker.

Lemma eqb_true (a b : jsstring) : eqb a b = true -> a = b.
Proof. unfold eqb. apply bool_decide_eq_true. Qed.

Lemma V1_apply (hs : list RequestHeader) (st : BackgroundV1.State) :
  BackgroundV1.onMessage (applyRequest hs) st
  = ({| BackgroundV1.customHeaders := hs;
        BackgroundV1.dynamicRules := imap ruleFor hs |}, succeeded).
Proof.
  change (BackgroundV1.onMessage (applyRequest hs) st)
    with (BackgroundV1.updateNetworkRules
            {| BackgroundV1.customHeaders := hs;
               BackgroundV1.dynamicRules := BackgroundV1.dynamicRules st |},
          succeeded).
  f_equal. unfold BackgroundV1.updateNetworkRules.
  cbn [BackgroundV1.customHeaders BackgroundV1.dynamicRules].
  rewrite V1_clear. destruct hs as [|h hs']; [done|].
  cbn [length Nat.eqb]. by rewrite install_on_empty.
Qed.

Lemma V2_apply (hs : list RequestHeader) (st : BackgroundV2.State) :
  BackgroundV2.isReady st = true ->
  BackgroundV2.onMessage (applyRequest hs) st
  = ({| BackgroundV2.customHeaders := hs; BackgroundV2.isReady := true;
        BackgroundV2.dynamicRules := imap ruleFor hs |}, succeeded).
Proof.
  intros H0. unfold BackgroundV2.onMessage. rewrite H0.
  change (eqb (action (applyRequest hs)) (u "ping")) with false.
  change (eqb (action (applyRequest hs)) (u "updateTables")) with false.
  change (eqb (action (applyRequest hs)) (u "applyHeaders")) with true.
  cbn [negb andb req_headers applyRequest]. by rewrite V2_update.
Qed.

(** X17: in either background worker, the headers applied last are
    the ones [getHeaders] returns, and a [clearHeaders] after an
    [applyHeaders] leaves no dynamic rule and no stored header. *)
Theorem X17_apply_get_clear (hs : list RequestHeader) :
  (forall st : BackgroundV1.State,
     let applied := fst (BackgroundV1.onMessage (applyRequest hs) st) in
     let cleared := fst (BackgroundV1.onMessage clearRequest applied) in
     headers (snd (BackgroundV1.onMessage getRequest applied)) = Some hs
     /\ BackgroundV1.dynamicRules cleared = []
     /\ headers (snd (BackgroundV1.onMessage getRequest cleared)) = Some [])
  /\ (forall st : BackgroundV2.State,
        BackgroundV2.isReady st = true ->
        let applied := fst (BackgroundV2.onMessage (applyRequest hs) st) in
        let cleared := fst (BackgroundV2.onMessage clearRequest applied) in
        headers (snd (BackgroundV2.onMessage getRequest applied)) = Some hs
        /\ BackgroundV2.dynamicRules cleared = []
        /\ headers (snd (BackgroundV2.onMessage getRequest cleared))
           = Some []).
Proof.
  split.
  - intros st. cbv zeta. rewrite V1_apply. cbn [fst].
    split; [reflexivity|].
    change (BackgroundV1.onMessage clearRequest
              {| BackgroundV1.customHeaders := hs;
                 BackgroundV1.dynamicRules := imap ruleFor hs |})
      with ({| BackgroundV1.customHeaders := [];
               BackgroundV1.dynamicRules :=
                 BackgroundV1.clearNetworkRules (imap ruleFor hs) |},
            succeeded).
    cbn [fst BackgroundV1.dynamicRules]. rewrite V1_clear. by split.
  - intros st Hready. cbv zeta. rewrite (V2_apply hs st Hready). cbn [fst].
    split; [reflexivity|].
    assert (BackgroundV2.onMessage clearRequest
              {| BackgroundV2.customHeaders := hs;
                 BackgroundV2.isReady := true;
                 BackgroundV2.dynamicRules := imap ruleFor hs |}
            = ({| BackgroundV2.customHeaders := [];
                  BackgroundV2.isReady := true;
                  BackgroundV2.dynamicRules := [] |}, succeeded)) as ->.
    { unfold BackgroundV2.onMessage.
      cbn [BackgroundV2.isReady BackgroundV2.dynamicRules negb andb].
      change (eqb (action clearRequest) (u "ping")) with false.
      change (eqb (action clearRequest) (u "updateTables")) with false.
      change (eqb (action clearRequest) (u "applyHeaders")) with false.
      change (eqb (action clearRequest) (u "clearHeaders")) with true.
      cbn match. by rewrite V2_clear. }
    by split.
Qed.

Lemma X17_apply_get_clear_witness :
  BackgroundV2.dynamicRules
    (fst (BackgroundV2.onMessage clearRequest
            (fst (BackgroundV2.onMessage
                    (applyRequest [Sample.forwardedFor])
                    Sample.readyWorker))))
  = [].
Proof.
  apply (proj2 (X17_apply_get_clear [Sample.forwardedFor])
           Sample.readyWorker).
  reflexivity.
Defined.

(** X18: a background worker changes its headers and rules only on
    [applyHeaders] and [clearHeaders]: any other message leaves its
    state as it was, and so does every message other than a ping that
    reaches the second worker before it is ready. *)
Theorem X18_other_messages_change_nothing (request : ChromeRequest) :
  (action request <> u "applyHeaders" ->
   action request <> u "clearHeaders" ->
   (forall st : BackgroundV1.State,
      fst (BackgroundV1.onMessage request st) = st)
   /\ (forall st : BackgroundV2.State,
         fst (BackgroundV2.onMessage request st) = st))
  /\ (forall st : BackgroundV2.State,
        BackgroundV2.isReady st = false ->
        fst (BackgroundV2.onMessage request st) = st
        /\ (action request <> u "ping" ->
            success (snd (BackgroundV2.onMessage request st)) = Some false)).
Proof.
  split.
  - intros Ha Hc. split; intros st.
    + unfold BackgroundV1.onMessage.
      destruct (eqb (action request) (u "applyHeaders")) eqn:E1;
        [by apply eqb_true in E1|].
      destruct (eqb (action request) (u "clearHeaders")) eqn:E2;
        [by apply eqb_true in E2|].
      by destruct (eqb (action request) (u "getHeaders")).
    + unfold BackgroundV2.onMessage.
      destruct (negb (BackgroundV2.isReady st)
                && negb (eqb (action request) (u "ping"))); [done|].
      destruct (eqb (action request) (u "ping")); [done|].
      destruct (eqb (action request) (u "updateTables")); [done|].
      destruct (eqb (action request) (u "applyHeaders")) eqn:E1;
        [by apply eqb_true in E1|].
      destruct (eqb (action request) (u "clearHeaders")) eqn:E2;
        [by apply eqb_true in E2|].
      by destruct (eqb (action request) (u "getHeaders")).
  - intros st Hready. unfold BackgroundV2.onMessage. rewrite Hready.
    cbn [negb andb].
    destruct (eqb (action request) (u "ping")) eqn:E; cbn [negb].
    + split; [done|]. intros Hne. by apply eqb_true in E.
    + by split.
Qed.

Lemma X18_other_messages_witness :
  fst (BackgroundV1.onMessage pingRequest
         {| BackgroundV1.customHeaders := [Sample.forwardedFor];
            BackgroundV1.dynamicRules := [ruleFor 0 Sample.forwardedFor] |})
  = {| BackgroundV1.customHeaders := [Sample.forwardedFor];
       BackgroundV1.dynamicRules := [ruleFor 0 Sample.forwardedFor] |}.
Proof.
  apply (proj1 (X18_other_messages_change_nothing pingRequest)).
  - vm_compute. discriminate.
  - vm_compute. discriminate.
Defined.

(** X19: the readiness probe of the enhanced content script succeeds
    against the second background worker, whatever its state, and
    never against the first, which has no answer for a ping: with the
    first worker the content script stays unready and pings before
    every send. *)
Theorem X19_readiness_probe :
  (forall st : BackgroundV2.State,
     Enhanced.readyFrom (Some (snd (BackgroundV2.onMessage pingRequest st)))
     = true)
  /\ (forall st : BackgroundV1.State,
        Enhanced.readyFrom
          (Some (snd (BackgroundV1.onMessage pingRequest st)))
        = false
        /\ error (snd (BackgroundV1.onMessage pingRequest st))
           = Some (u "未知操作")).
Proof.
  split; intros st.
  - unfold BackgroundV2.onMessage.
    change (eqb (action pingRequest) (u "ping")) with true.
    cbn [negb andb]. by rewrite andb_false_r.
  - by split.
Qed.

End Worker.

Section Timers.

Import Timing.

Context {A : Type}.

Lemma debounce_app (immediate : bool) (xs ys : list (Event A))
  (st : Debounced A) :
  debounce immediate (xs ++ ys) st
  = debounce immediate ys (debounce immediate xs st).
Proof. apply fold_left_app. Qed.

Lemma utilsDebounce_app (xs ys : list (Event A)) (st : Delayed A) :
  utilsDebounce (xs ++ ys) st = utilsDebounce ys (utilsDebounce xs st).
Proof. apply fold_left_app. Qed.

Lemma throttle_app (xs ys : list (Event A)) (st : Throttled A) :
  throttle (xs ++ ys) st = throttle ys (throttle xs st).
Proof. apply fold_left_app. Qed.

(** A burst of calls to the trailing debounce only replaces the
    pending timer. *)
Lemma trailing_burst (burst : list A) (final : A) (st : Debounced A) :
  debounce false (map Call (burst ++ [final])) st
  = {| timeout := Some final; invoked := invoked st |}.
Proof.
  revert st. induction burst as [|a burst IH]; intros st.
  - reflexivity.
  - cbn [app map]. change (debounce false (Call a :: ?l) st)
      with (debounce false l (executedFunction false a st)).
    rewrite IH. reflexivity.
Qed.

Lemma utils_burst (burst : list A) (final : A) (st : Delayed A) :
  utilsDebounce (map Call (burst ++ [final])) st
  = {| pending := Some final; delivered := delivered st |}.
Proof.
  revert st. induction burst as [|a burst IH]; intros st.
  - reflexivity.
  - cbn [app map].
    change (utilsDebounce (Call a :: ?l) st)
      with (utilsDebounce l {| pending := Some a; delivered := delivered st |}).
    rewrite IH. reflexivity.
Qed.

(** X20: however many calls of a debounced function arrive before its
    timer runs, the function is invoked once, with the arguments of
    the last call, when the timer runs; the calls before the last one
    and the timer that was pending before the burst invoke nothing.
    This holds for the content script's debounce without the
    immediate flag and for the debounce of the utilities. *)
Theorem X20_debounce_keeps_the_last_call (burst : list A) (final : A)
  (st : Debounced A) (st' : Delayed A) :
  debounce false (map Call (burst ++ [final]) ++ [Fire]) st
  = {| timeout := None; invoked := invoked st ++ [final] |}
  /\ utilsDebounce (map Call (burst ++ [final]) ++ [Fire]) st'
     = {| pending := None; delivered := delivered st' ++ [final] |}.
Proof.
  split.
  - rewrite debounce_app, trailing_burst. reflexivity.
  - rewrite utilsDebounce_app, utils_burst. reflexivity.
Qed.

(** With the immediate flag, calls made while a timer is pending only
    restart the timer. *)
Lemma leading_pending (burst : list A) (held : A) (st : Debounced A) :
  timeout st = Some held ->
  exists held',
    debounce true (map Call burst) st
    = {| timeout := Some held'; invoked := invoked st |}.
Proof.
  revert held st. induction burst as [|a burst IH]; intros held st Hheld.
  - exists held. destruct st as [t i]. cbn in *. now subst.
  - cbn [map].
    change (debounce true (Call a :: ?l) st)
      with (debounce true l (executedFunction true a st)).
    unfold executedFunction. rewrite Hheld. cbn [andb].
    destruct (IH a {| timeout := Some a; invoked := invoked st |} eq_refl)
      as [held' ->].
    now exists held'.
Qed.

(** X21: with the immediate flag set, a burst of calls followed by
    the timer invokes the function at most once: with the arguments of
    the first call when no timer was pending, not at all when one
    was; the later calls of the burst are never executed, and the
    timer itself invokes nothing. *)
Theorem X21_immediate_debounce_runs_the_first_call (first : A)
  (burst : list A) (st : Debounced A) :
  debounce true (map Call (first :: burst) ++ [Fire]) st
  = {| timeout := None;
       invoked := invoked st
                  ++ match timeout st with
                     | None => [first]
                     | Some _ => []
                     end |}.
Proof.
  rewrite debounce_app. cbn [map].
  change (debounce true (Call first :: ?l) st)
    with (debounce true l (executedFunction true first st)).
  destruct (leading_pending burst first (executedFunction true first st))
    as [held' ->].
  - unfold executedFunction. now destruct (timeout st).
  - unfold executedFunction.
    destruct (timeout st); cbn; [now rewrite app_nil_r | reflexivity].
Qed.

Lemma throttled_burst (burst : list A) (st : Throttled A) :
  inThrottle st = true -> throttle (map Call burst) st = st.
Proof.
  intros Hflag. induction burst as [|a burst IH]; [reflexivity|].
  cbn [map].
  change (throttle (Call a :: ?l) st)
    with (throttle l (if negb (inThrottle st)
                      then {| inThrottle := true; passed := passed st ++ [a] |}
                      else st)).
  rewrite Hflag. exact IH.
Qed.

(** X22: of a burst of calls to a throttled function that arrive
    before its timer runs, only the first is passed on, and only when
    the function was not throttled already; the other calls are
    dropped for good, and the timer lowers the flag without invoking
    anything. *)
Theorem X22_throttle_passes_the_first_call (first : A) (burst : list A)
  (st : Throttled A) :
  throttle (map Call (first :: burst) ++ [Fire]) st
  = {| inThrottle := false;
       passed := passed st
                 ++ (if inThrottle st then [] else [first]) |}.
Proof.
  rewrite throttle_app. cbn [map].
  change (throttle (Call first :: ?l) st)
    with (throttle l (if negb (inThrottle st)
                      then {| inThrottle := true;
                              passed := passed st ++ [first] |}
                      else st)).
  destruct (inThrottle st) eqn:Hflag; cbn [negb].
  - rewrite throttled_burst by exact Hflag. cbn. now rewrite app_nil_r.
  - rewrite throttled_burst by reflexivity. reflexivity.
Qed.

End Timers.

Section Observer.

Import Monitor.

Lemma some_false {B} (test : B -> option bool) (nodes : list B) :
  some test nodes = Some false ->
  forall node, node ∈ nodes -> test node = Some false.
Proof.
  induction nodes as [|x nodes IH]; intros Hsome node Hin.
  - inversion Hin.
  - cbn [some] in Hsome.
    destruct (test x) as [[|]|] eqn:Hx; try discriminate.
    apply elem_of_cons in Hin as [->|Hin]; [exact Hx | now apply IH].
Qed.

Lemma some_throws {B} (test : B -> option bool) (x : B) (nodes : list B) :
  test x = None -> some test (x :: nodes) = None.
Proof. intros Hx. cbn [some]. now rewrite Hx. Qed.

(** A significant node passes the test of [hasTableChanges]. *)
Lemma significant_related (node : Node) :
  significant node = true -> tableRelated node = Some true.
Proof.
  destruct node as [element|]; [|discriminate].
  cbn [significant tableRelated]. intros Hsig.
  assert (earlierTests element = true) as ->; [|reflexivity].
  unfold earlierTests.
  destruct (eqb (tagName element) (u "TABLE")); [reflexivity|].
  destruct (eqb (tagName element) (u "IFRAME")).
  { now rewrite !orb_true_r. }
  cbn [orb] in Hsig.
  assert (querySelector [u "TABLE"; u "TR"; u "TD"; u "TH"] element = true)
    as ->.
  { unfold querySelector in *.
    apply existsb_exists in Hsig as (d & Hd & Htag).
    apply existsb_exists. exists d. split; [exact Hd|].
    cbn [existsb] in *. destruct (eqb d (u "TABLE")); [reflexivity|].
    discriminate. }
  now rewrite !orb_true_r.
Qed.

Lemma not_significant (added removed : list Node) :
  some tableRelated (added ++ removed) = Some false ->
  existsb significant added = false.
Proof.
  intros Hsome. apply not_true_is_false. intros Hex.
  apply existsb_exists in Hex as (node & Hin & Hsig).
  apply significant_related in Hsig.
  rewrite (some_false _ _ Hsome node) in Hsig; [discriminate|].
  apply elem_of_app. left. now apply list_elem_of_In.
Qed.

(** The flags after the loop: the second is raised by a significant
    added node only, and never without the first. *)
Lemma scan_flags (records : list MutationRecord)
  (shouldUpdate hasSignificantChange shouldUpdate' significant' : bool) :
  (hasSignificantChange = true -> shouldUpdate = true) ->
  scan records shouldUpdate hasSignificantChange
  = Some (shouldUpdate', significant') ->
  (significant' = true -> shouldUpdate' = true)
  /\ (significant' = true <->
      hasSignificantChange = true
      \/ exists added removed node,
           ChildList added removed ∈ records
           /\ node ∈ added /\ significant node = true).
Proof.
  revert shouldUpdate hasSignificantChange.
  induction records as [|record records IH];
    intros shouldUpdate hasSignificantChange Hinv Hscan.
  - cbn [scan] in Hscan. injection Hscan as <- <-. split; [exact Hinv|].
    split; [now left|]. intros [H|(a & r & n & Hin & _)]; [exact H|].
    inversion Hin.
  - assert (forall su sg,
               (sg = true -> su = true) ->
               scan records su sg = Some (shouldUpdate', significant') ->
               (sg = true <-> hasSignificantChange = true
                              \/ exists node, (exists added removed,
                                   record = ChildList added removed
                                   /\ node ∈ added)
                                   /\ significant node = true) ->
               (significant' = true -> shouldUpdate' = true)
               /\ (significant' = true <->
                   hasSignificantChange = true
                   \/ exists added removed node,
                        ChildList added removed ∈ record :: records
                        /\ node ∈ added /\ significant node = true))
      as Hstep.
    { intros su sg Hinv' Hscan' Hsg.
      destruct (IH su sg Hinv' Hscan') as [Hboth Hiff]. split; [exact Hboth|].
      rewrite Hiff, Hsg. split.
      - intros [[H|(node & (a & r & -> & Hin) & Hs)]|(a & r & n & Hin & Hn)].
        + now left.
        + right. exists a, r, node. split; [apply elem_of_cons; now left|].
          now split.
        + right. exists a, r, n. split; [apply elem_of_cons; now right|].
          exact Hn.
      - intros [H|(a & r & n & Hin & Hn & Hs)]; [now left; left|].
        apply elem_of_cons in Hin as [<-|Hin].
        + left. right. exists n. split; [now exists a, r | exact Hs].
        + right. now exists a, r, n. }
    destruct record as [attributeName target|added removed|];
      cbn [scan] in Hscan.
    + assert (hasSignificantChange = true <->
              hasSignificantChange = true
              \/ exists node, (exists added removed,
                   Attributes attributeName target = ChildList added removed
                   /\ node ∈ added) /\ significant node = true) as Hnone.
      { split; [now left|].
        intros [H|(n & (a & r & Heq & _) & _)]; [exact H | discriminate]. }
      destruct (_ && _) in Hscan.
      * now apply (Hstep true hasSignificantChange).
      * now apply (Hstep shouldUpdate hasSignificantChange).
    + destruct (some tableRelated (added ++ removed)) as [[|]|] eqn:Hsome;
        [| |discriminate].
      * apply (Hstep _ _ (fun _ => eq_refl) Hscan).
        destruct (existsb significant added) eqn:Hex.
        -- split; [|reflexivity]. intros _. right.
           apply existsb_exists in Hex as (n & Hin & Hs).
           exists n. split; [|exact Hs]. exists added, removed.
           split; [reflexivity | now apply list_elem_of_In].
        -- split; [now left|].
           intros [H|(n & (a & r & Heq & Hin) & Hs)]; [exact H|].
           injection Heq as <- <-.
           assert (existsb significant added = true) as Hyes.
           { apply existsb_exists. exists n.
             split; [now apply list_elem_of_In | exact Hs]. }
           congruence.
      * apply (Hstep _ _ Hinv Hscan).
        split; [now left|].
        intros [H|(n & (a & r & Heq & Hin) & Hs)]; [exact H|].
        injection Heq as <- <-.
        pose proof (not_significant _ _ Hsome) as Hno.
        assert (existsb significant added = true) as Hyes.
        { apply existsb_exists. exists n.
          split; [now apply list_elem_of_In | exact Hs]. }
        congruence.
    + apply (Hstep _ _ Hinv Hscan).
      split; [now left|].
      intros [H|(n & (a & r & Heq & _) & _)]; [exact H | discriminate].
Qed.

(** X23: when the observer callback runs to its end, it asks for the
    immediate detection exactly when some child-list record of the
    batch adds a node that is a table, an iframe or an element
    containing a table; attribute changes and removed nodes lead to
    the debounced update at most. *)
Theorem X23_immediate_detection_needs_an_added_table
  (records : list MutationRecord) (scheduled : Scheduled) :
  callback records = Some scheduled ->
  (scheduled = ImmediateTableDetection <->
   exists added removed node,
     ChildList added removed ∈ records
     /\ node ∈ added /\ significant node = true).
Proof.
  unfold callback.
  destruct (scan records false false) as [[shouldUpdate sig]|] eqn:Hscan;
    [|discriminate].
  intros [= <-].
  destruct (scan_flags records false false shouldUpdate sig) as [Hboth Hiff];
    [discriminate | exact Hscan |].
  split.
  - intros Heq. destruct shouldUpdate, sig; try discriminate.
    destruct (proj1 Hiff eq_refl) as [H|H]; [discriminate | exact H].
  - intros Hex. assert (sig = true) as -> by (apply Hiff; now right).
    now rewrite Hboth.
Qed.

(** An instance: a batch with a class change inside a table and an
    added table. *)
Lemma X23_immediate_detection_witness :
  (ImmediateTableDetection = ImmediateTableDetection <->
   exists added removed node,
     ChildList added removed
     ∈ [Attributes (u "class") Sample.addedTable;
         ChildList [OtherNode; ElementNode Sample.addedTable] []]
     /\ node ∈ added /\ significant node = true).
Proof.
  apply (X23_immediate_detection_needs_an_added_table
           [Attributes (u "class") Sample.addedTable;
            ChildList [OtherNode; ElementNode Sample.addedTable] []]
           ImmediateTableDetection).
  vm_compute. reflexivity.
Defined.

Lemma scan_throws (before after : list MutationRecord)
  (added removed : list Node) (shouldUpdate hasSignificantChange : bool) :
  some tableRelated (added ++ removed) = None ->
  scan (before ++ ChildList added removed :: after)
    shouldUpdate hasSignificantChange = None.
Proof.
  intros Hthrow. revert shouldUpdate hasSignificantChange.
  induction before as [|record before IH];
    intros shouldUpdate hasSignificantChange.
  - cbn [app scan]. now rewrite Hthrow.
  - cbn [app scan]. destruct record as [attributeName target|a r|].
    + destruct (_ && _); apply IH.
    + destruct (some tableRelated (a ++ r)) as [[|]|]; [apply IH..|reflexivity].
    + apply IH.
Qed.

(** X24: an added element whose className is not a string (an SVG
    element) and that passes none of the tests before the ones on
    className makes the observer callback throw when it is the first
    node of its record: nothing is scheduled for the batch, neither
    the immediate detection nor the debounced update, whatever else
    the batch holds. *)
Theorem X24_svg_node_aborts_the_batch (element : Element)
  (added removed : list Node) (before after : list MutationRecord) :
  className element = None ->
  earlierTests element = false ->
  callback (before ++ ChildList (ElementNode element :: added) removed
              :: after) = None.
Proof.
  intros Hclass Hearlier. unfold callback.
  rewrite scan_throws; [reflexivity|].
  cbn [app]. apply some_throws. cbn [tableRelated].
  now rewrite Hearlier, Hclass.
Qed.

(** An instance: the batch adds an icon first and a table afterwards. *)
Lemma X24_svg_node_witness :
  callback ([Attributes (u "class") Sample.addedTable]
              ++ ChildList (ElementNode Sample.svgIcon :: []) []
              :: [ChildList [ElementNode Sample.addedTable] []]) = None.
Proof.
  apply (X24_svg_node_aborts_the_batch Sample.svgIcon [] []
           [Attributes (u "class") Sample.addedTable]
           [ChildList [ElementNode Sample.addedTable] []]).
  - reflexivity.
  - vm_compute. reflexivity.
Defined.

End Observer.

Section HeaderPanel.

Import Popup.RequestHeaders.

(** What the requests of the panel leave alone. *)
Lemma applyHeaders_frame (send : ChromeRequest -> Popup.Reply) (st : Panel) :
  headers (applyHeaders send st) = headers st
  /\ localStorage (applyHeaders send st) = localStorage st.
Proof.
  unfold applyHeaders. destruct (_ =? _)%nat; [done|].
  destruct (send _) as [e|response]; [done|].
  by destruct (Popup.errorOf response).
Qed.

Lemma clearHeaders_headers (send : ChromeRequest -> Popup.Reply)
  (st : Panel) :
  headers (clearHeaders send st) = map disabled (headers st)
  /\ localStorage (clearHeaders send st)
     = saveHeadersToStorage (map disabled (headers st)) (localStorage st)
  /\ posted (clearHeaders send st)
     = posted st ++ [message_of (u "clearHeaders") None].
Proof.
  unfold clearHeaders. destruct (send _) as [e|response]; [done|].
  by destruct (Popup.errorOf response).
Qed.

Lemma saved_is_loaded (newHeaders : list RequestHeader)
  (storage : LocalStorage) :
  writable storage = true ->
  writable (saveHeadersToStorage newHeaders storage) = true
  /\ loadHeadersFromStorage (saveHeadersToStorage newHeaders storage)
     = newHeaders.
Proof. intros Hw. unfold saveHeadersToStorage. by rewrite Hw. Qed.

Lemma handle_synced (a : Action) (st : Panel) :
  writable (localStorage st) = true -> synced st ->
  writable (localStorage (handle a st)) = true /\ synced (handle a st).
Proof.
  intros Hw Hs. unfold synced in *.
  destruct a as [generatedId|n v|id|id|header|n v|id| |send|send];
    cbn [handle]; try (split; [exact Hw | exact Hs]).
  - unfold addHeader. destruct (_ || _); [by split|].
    by apply saved_is_loaded.
  - by apply saved_is_loaded.
  - by apply saved_is_loaded.
  - unfold saveEdit. destruct (_ || _); [by split|].
    by apply saved_is_loaded.
  - destruct (applyHeaders_frame send st) as [-> ->]. by split.
  - destruct (clearHeaders_headers send st) as (-> & -> & _).
    by apply saved_is_loaded.
Qed.

(** X25: as long as the storage accepts writes, the configuration
    under the storage key is the list the header panel shows, after
    the mount effect and after every sequence of events of the panel:
    what the panel would load on its next mount is what it shows
    now. *)
Theorem X25_header_list_is_saved (actions : list Action) (st : Panel) :
  writable (localStorage st) = true ->
  synced (after actions (mount st)).
Proof.
  intros Hw.
  assert (writable (localStorage (mount st)) = true /\ synced (mount st))
    as Hstart by (by split).
  revert Hstart. generalize (mount st). clear st Hw.
  induction actions as [|a actions IH]; intros st [Hw Hs]; [exact Hs|].
  apply IH. by apply handle_synced.
Qed.

(** An instance: a header is typed in, added and switched off. *)
Lemma X25_header_list_witness :
  synced (after [TypeNewHeader (u " Referer") (u "https://example.org ");
                 AddHeader (u "k1"); ToggleHeader (u "k1");
                 DeleteHeader (u "2")]
            (mount Sample.headerPanel)).
Proof.
  apply (X25_header_list_is_saved
           [TypeNewHeader (u " Referer") (u "https://example.org ");
            AddHeader (u "k1"); ToggleHeader (u "k1");
            DeleteHeader (u "2")]
           Sample.headerPanel).
  reflexivity.
Defined.

Lemma none_enabled (hs : list RequestHeader) :
  List.filter enabled (map disabled hs) = [].
Proof. induction hs as [|h hs IH]; [reflexivity | exact IH]. Qed.

(** X26: the clear button deletes no header: the list keeps its
    entries, in order, with every checkbox cleared, and one
    clearHeaders request is posted; an apply that follows posts
    nothing and asks for a header to be enabled, whatever the page
    answered to either. *)
Theorem X26_clear_then_apply_posts_nothing
  (send send' : ChromeRequest -> Popup.Reply) (st : Panel) :
  map entry (headers (clearHeaders send st)) = map entry (headers st)
  /\ forallb (fun h => negb (enabled h)) (headers (clearHeaders send st))
     = true
  /\ posted (applyHeaders send' (clearHeaders send st))
     = posted st ++ [message_of (u "clearHeaders") None]
  /\ message (applyHeaders send' (clearHeaders send st))
     = u "请至少启用一个请求头".
Proof.
  destruct (clearHeaders_headers send st) as (Hh & _ & Hp).
  assert (applyHeaders send' (clearHeaders send st)
          = setIsLoading false
              (setMessage (u "请至少启用一个请求头")
                 (setIsLoading true (clearHeaders send st)))) as ->.
  { unfold applyHeaders.
    change (headers (setIsLoading true (clearHeaders send st)))
      with (headers (clearHeaders send st)).
    by rewrite Hh, none_enabled. }
  rewrite Hh. split; [|split; [|split]].
  - rewrite map_map. reflexivity.
  - apply forallb_forall. intros h Hin.
    apply in_map_iff in Hin as (h' & <- & _). reflexivity.
  - exact Hp.
  - reflexivity.
Qed.

Lemma filter_fresh (id : jsstring) (hs : list RequestHeader) :
  id ∉ map header_id hs ->
  List.filter (fun h => negb (eqb (header_id h) id)) hs = hs.
Proof.
  induction hs as [|h hs IH]; intros Hfresh; [reflexivity|].
  cbn [map] in Hfresh. apply not_elem_of_cons in Hfresh as [Hne Hfresh].
  cbn [List.filter]. unfold eqb at 1.
  rewrite bool_decide_eq_false_2 by congruence.
  cbn [negb]. by rewrite IH.
Qed.

(** X27: deleting the header that was just added gives the list back,
    provided the generated id is not the id of a header of the list;
    this also holds when the add was refused for a blank name or
    value. *)
Theorem X27_add_then_delete (generatedId : jsstring) (st : Panel) :
  generatedId ∉ map header_id (headers st) ->
  headers (deleteHeader generatedId (addHeader generatedId st))
  = headers st.
Proof.
  intros Hfresh. unfold addHeader.
  destruct (_ || _).
  - by apply filter_fresh.
  - change (headers (deleteHeader generatedId ?p))
      with (List.filter (fun h => negb (eqb (header_id h) generatedId))
              (headers p)).
    cbn [headers setMessage setNewHeader updateHeaders setLocalStorage
           setHeaders].
    rewrite List.filter_app, filter_fresh by exact Hfresh.
    cbn [List.filter header_id]. unfold eqb.
    rewrite bool_decide_eq_true_2 by reflexivity.
    cbn [negb]. apply app_nil_r.
Qed.

(** An instance: over the default list, with a new id. *)
Lemma X27_add_then_delete_witness :
  headers (deleteHeader (u "k1")
             (addHeader (u "k1")
                (setNewHeader (u "Referer", u "https://example.org")
                   (mount Sample.headerPanel))))
  = headers (setNewHeader (u "Referer", u "https://example.org")
               (mount Sample.headerPanel)).
Proof.
  apply (X27_add_then_delete (u "k1")
           (setNewHeader (u "Referer", u "https://example.org")
              (mount Sample.headerPanel))).
  vm_compute. intros Hin.
  repeat (apply elem_of_cons in Hin as [Hin|Hin]; [discriminate|]).
  inversion Hin.
Defined.

Lemma trimStart_suffix (s : jsstring) :
  exists p, s = p ++ trimStart s.
Proof.
  induction s as [|c s [p IH]]; [by exists []|].
  cbn [trimStart]. destruct (isWhiteSpace c); [|by exists []].
  exists (c :: p). cbn [app]. by f_equal.
Qed.

Lemma trimStart_head (s : jsstring) (c : N) (rest : jsstring) :
  trimStart s = c :: rest -> isWhiteSpace c = false.
Proof.
  induction s as [|d s IH]; [discriminate|].
  cbn [trimStart]. destruct (isWhiteSpace d) eqn:Hd; [exact IH|].
  by intros [= -> _].
Qed.

Lemma trimStart_fixed (s : jsstring) (c : N) (rest : jsstring) :
  s = c :: rest -> isWhiteSpace c = false -> trimStart s = s.
Proof. intros -> Hc. cbn [trimStart]. by rewrite Hc. Qed.

Lemma trim_idem (s : jsstring) : trim (trim s) = trim s.
Proof.
  unfold trim.
  destruct (trimStart (rev (trimStart s))) as [|c r] eqn:Hr; [reflexivity|].
  assert (isWhiteSpace c = false) as Hc by (by eapply trimStart_head).
  destruct (trimStart_suffix (rev (trimStart s))) as [p Hp].
  rewrite Hr in Hp.
  assert (trimStart s = rev (c :: r) ++ rev p) as Hs.
  { rewrite <- (rev_involutive (trimStart s)), Hp. by rewrite rev_app_distr. }
  assert (trimStart (rev (c :: r)) = rev (c :: r)) as ->.
  { destruct (rev (c :: r)) as [|d t] eqn:Hd.
    - apply (f_equal (@length _)) in Hd. rewrite length_rev in Hd.
      discriminate.
    - eapply trimStart_fixed; [reflexivity|].
      cbn [app] in Hs. by eapply trimStart_head. }
  rewrite rev_involutive.
  by rewrite (trimStart_fixed (c :: r) c r eq_refl Hc).
Qed.

Lemma clean_built (id n v : jsstring) (on : bool) :
  negb (truthy (trim n)) || negb (truthy (trim v)) = false ->
  clean {| header_id := id; name := trim n; value := trim v;
           enabled := on |} = true.
Proof.
  intros Hcheck. apply orb_false_elim in Hcheck as [Hn Hv].
  apply negb_false_iff in Hn, Hv.
  unfold clean. cbn [name value]. rewrite Hn, Hv, !trim_idem.
  unfold eqb. by rewrite !bool_decide_eq_true_2.
Qed.

Lemma clean_map (f : RequestHeader -> RequestHeader)
  (hs : list RequestHeader) :
  (forall h, clean h = true -> clean (f h) = true) ->
  forallb clean hs = true -> forallb clean (map f hs) = true.
Proof.
  intros Hf. induction hs as [|h hs IH]; [done|].
  cbn [forallb map]. intros [Hh Hhs]%andb_true_iff.
  by rewrite (Hf h Hh), IH.
Qed.

Lemma clean_filter (keep : RequestHeader -> bool)
  (hs : list RequestHeader) :
  forallb clean hs = true -> forallb clean (List.filter keep hs) = true.
Proof.
  induction hs as [|h hs IH]; [done|].
  cbn [forallb List.filter]. intros [Hh Hhs]%andb_true_iff.
  destruct (keep h); [|by apply IH].
  cbn [forallb]. by rewrite Hh, IH.
Qed.

Lemma handle_clean (a : Action) (st : Panel) :
  forallb clean (headers st) = true ->
  forallb clean (headers (handle a st)) = true.
Proof.
  intros Hc.
  destruct a as [generatedId|n v|id|id|header|n v|id| |send|send];
    cbn [handle]; try exact Hc.
  - unfold addHeader. destruct (_ || _) eqn:Hcheck; [exact Hc|].
    cbn [headers setMessage setNewHeader updateHeaders setLocalStorage
           setHeaders].
    rewrite forallb_app, Hc. cbn [forallb].
    by rewrite clean_built.
  - by apply clean_filter.
  - apply clean_map; [|exact Hc]. intros h Hh.
    by destruct (eqb (header_id h) id).
  - unfold saveEdit. destruct (_ || _) eqn:Hcheck; [exact Hc|].
    cbn [headers setMessage setEditingValues setEditingId updateHeaders
           setLocalStorage setHeaders].
    apply clean_map; [|exact Hc]. intros h Hh.
    destruct (eqb (header_id h) id); [|exact Hh].
    by apply clean_built.
  - destruct (applyHeaders_frame send st) as [-> _]. exact Hc.
  - destruct (clearHeaders_headers send st) as (-> & _).
    by apply clean_map.
Qed.

(** X28: the panel never stores a header with an empty name or value
    or with white space around them: if the names and values of the
    list are non-empty and trimmed, as those of the default list are,
    they are so after every sequence of events of the panel; an add
    or an edit with a blank field changes nothing. *)
Theorem X28_names_and_values_stay_trimmed (actions : list Action)
  (st : Panel) :
  forallb clean (headers st) = true ->
  forallb clean (headers (after actions st)) = true.
Proof.
  revert st. induction actions as [|a actions IH]; intros st Hc; [exact Hc|].
  apply IH. by apply handle_clean.
Qed.

(** An instance: a padded header is added to the default list and
    edited with padded fields. *)
Lemma X28_names_and_values_witness :
  forallb clean
    (headers
       (after [TypeNewHeader (u "  Referer ") (u " https://example.org");
               AddHeader (u "k1");
               TypeEdit (u "Origin  ") (u " https://example.org ");
               SaveEdit (u "k1");
               TypeNewHeader (u "   ") (u "x"); AddHeader (u "k2")]
          (mount Sample.headerPanel))) = true.
Proof.
  apply (X28_names_and_values_stay_trimmed
           [TypeNewHeader (u "  Referer ") (u " https://example.org");
            AddHeader (u "k1");
            TypeEdit (u "Origin  ") (u " https://example.org ");
            SaveEdit (u "k1");
            TypeNewHeader (u "   ") (u "x"); AddHeader (u "k2")]
           (mount Sample.headerPanel)).
  vm_compute. reflexivity.
Defined.

End HeaderPanel.

Section TablePanel.

Import Popup.TableTools.

(** X29: a search always leaves the selection empty and the loading
    flag down; the findTables request is posted only after the ping
    was answered; the list shown afterwards is the one the page
    answered, and is empty when a request was rejected or the answer
    had no list; a copy of the selection right after the search posts
    nothing. *)
Theorem X29_search_resets_the_selection
  (send send' : ChromeRequest -> Popup.Reply) (st : Panel) :
  selectedTables (findTables send st) = []
  /\ isLoading (findTables send st) = false
  /\ posted (findTables send st)
     = posted st
       ++ match send pingRequest with
          | Popup.Reject _ => [pingRequest]
          | Popup.Resolve _ => [pingRequest; bare (u "findTables")]
          end
  /\ tables (findTables send st)
     = match send pingRequest, send (bare (u "findTables")) with
       | Popup.Resolve _, Popup.Resolve response =>
           default [] (answeredTables response)
       | _, _ => []
       end
  /\ posted (copySelectedTables send' (findTables send st))
     = posted (findTables send st).
Proof.
  assert (selectedTables (findTables send st) = []) as Hsel.
  { unfold findTables.
    change (message_of (u "ping") None None) with pingRequest.
    change (message_of (u "findTables") None None)
      with (bare (u "findTables")).
    destruct (send pingRequest) as [e0|pong]; [reflexivity|].
    destruct (send (bare (u "findTables"))) as [e|response]; [reflexivity|].
    by destruct (answeredTables response). }
  split; [exact Hsel|]. split; [reflexivity|]. split; [|split].
  - unfold findTables.
    change (message_of (u "ping") None None) with pingRequest.
    change (message_of (u "findTables") None None)
      with (bare (u "findTables")).
    destruct (send pingRequest) as [e0|pong]; [reflexivity|].
    destruct (send (bare (u "findTables"))) as [e|response];
      cbn [posted setIsLoading setMessage post setTables setSelectedTables];
      [by rewrite <- app_assoc|].
    destruct (answeredTables response);
      cbn [posted setIsLoading setMessage post setTables setSelectedTables];
      by rewrite <- app_assoc.
  - unfold findTables.
    change (message_of (u "ping") None None) with pingRequest.
    change (message_of (u "findTables") None None)
      with (bare (u "findTables")).
    destruct (send pingRequest) as [e0|pong]; [reflexivity|].
    destruct (send (bare (u "findTables"))) as [e|response]; [reflexivity|].
    by destruct (answeredTables response).
  - unfold copySelectedTables. by rewrite Hsel.
Qed.

Lemma or_else_truthy (a b : jsstring) :
  truthy b = true -> truthy (or_else a b) = true.
Proof. intros Hb. unfold or_else. by destruct (truthy a) eqn:Ha. Qed.

(** X30: the preview shown for a table of the list is never empty and
    never longer than 103 code units: a longer preview is cut to its
    first 100 code units and three dots, and an empty one is replaced
    by a fixed text. *)
Theorem X30_shown_preview_is_bounded (table : TableInfo) :
  0 < length (shownPreview table) <= 103.
Proof.
  unfold shownPreview.
  assert (truthy (or_else (info_preview table) (u "无法获取表格内容")) = true)
    as Hp by (by apply or_else_truthy).
  revert Hp. generalize (or_else (info_preview table) (u "无法获取表格内容")).
  intros preview Hp. unfold formatTablePreview. rewrite Hp. cbn [negb].
  destruct (100 <? length preview)%nat eqn:Hlong.
  - apply Nat.ltb_lt in Hlong. unfold substring0.
    rewrite length_app, length_take.
    change (length (u "...")) with 3. lia.
  - apply Nat.ltb_ge in Hlong. destruct preview; [discriminate|].
    cbn [length] in *. lia.
Qed.

End TablePanel.
